(** * data_cleansing: the cleaning pipeline of [clean_dataframe]

    A shallow embedding of [src/data_cleansing.py].  The function under
    study is [clean_dataframe], a sequence of pandas calls on one
    [DataFrame].  The pandas operations it calls are modelled below, one
    definition per call and with the name of the call; the two parsers
    pandas delegates to (of date strings and of numeric literals) are
    section variables, so every theorem holds for whatever they accept. *)

From Stdlib Require Import ZArith QArith Qcanon Ascii String List Bool Lia.
From Stdlib Require Import Uint63 PrimFloat.
From stdpp Require Import base option list strings numbers gmap.

Local Open Scope string_scope.

(** ** Python strings

    A [str] is modelled by [string]; an [ascii] stands for a code point
    below 256. *)

Module Py.

Definition ord (a : ascii) : N := N_of_ascii a.

(** [str.isspace] on one code point, the class [\s] of [re] on [str]
    patterns and the characters [str.strip] removes: TAB..CR, FS..US,
    SPACE, NEL and NBSP. *)
Definition isspace (a : ascii) : bool :=
  let n := ord a in
  ((9 <=? n) && (n <=? 13) || (28 <=? n) && (n <=? 32) || (n =? 133) || (n =? 160))%N.

(** The class [[A-Za-z0-9_]]. *)
Definition isword (a : ascii) : bool :=
  let n := ord a in
  ((48 <=? n) && (n <=? 57) || (65 <=? n) && (n <=? 90)
   || (97 <=? n) && (n <=? 122) || (n =? 95))%N.

Definition lower_char (a : ascii) : ascii :=
  let n := ord a in
  if ((65 <=? n) && (n <=? 90)
      || (192 <=? n) && (n <=? 222) && negb (n =? 215))%N
  then ascii_of_N (n + 32) else a.

(** [s.lower()] *)
Fixpoint lower (s : string) : string :=
  match s with
  | EmptyString => EmptyString
  | String a s' => String (lower_char a) (lower s')
  end.

Fixpoint lstrip (s : string) : string :=
  match s with
  | EmptyString => EmptyString
  | String a s' => if isspace a then lstrip s' else s
  end.

Fixpoint rstrip (s : string) : string :=
  match s with
  | EmptyString => EmptyString
  | String a s' =>
      match rstrip s' with
      | EmptyString => if isspace a then EmptyString else String a EmptyString
      | r => String a r
      end
  end.

(** [s.strip()] *)
Definition strip (s : string) : string := rstrip (lstrip s).

(** [re.sub(cls+, r, s)] for a character class [cls]: every maximal run
    of characters of the class is replaced by the one character [r].
    [in_run] tells that the previous character belonged to a run, whose
    replacement is already written. *)
Fixpoint sub_runs (cls : ascii -> bool) (r : ascii) (in_run : bool) (s : string)
  : string :=
  match s with
  | EmptyString => EmptyString
  | String a s' =>
      if cls a
      then if in_run then sub_runs cls r true s'
           else String r (sub_runs cls r true s')
      else String a (sub_runs cls r false s')
  end.

Definition re_sub_runs (cls : ascii -> bool) (r : ascii) (s : string) : string :=
  sub_runs cls r false s.

Fixpoint all_chars (P : ascii -> bool) (s : string) : bool :=
  match s with
  | EmptyString => true
  | String a s' => P a && all_chars P s'
  end.

(** [s.split()]: the words of [s], its maximal runs of characters that
    are not white space.  [split_aux s] is the word [s] starts with,
    empty when [s] starts with white space, and the words after it. *)
Definition cons_word (w : string) (ws : list string) : list string :=
  match w with
  | EmptyString => ws
  | _ => w :: ws
  end.

Fixpoint split_aux (s : string) : string * list string :=
  match s with
  | EmptyString => (EmptyString, [])
  | String a s' =>
      let '(w, ws) := split_aux s' in
      if isspace a then (EmptyString, cons_word w ws) else (String a w, ws)
  end.

Definition split (s : string) : list string :=
  let '(w, ws) := split_aux s in cons_word w ws.

(** [" ".join(ws)] *)
Definition join (ws : list string) : string := String.concat " " ws.

(** The words [ws], a space before each. *)
Fixpoint spaced (ws : list string) : string :=
  match ws with
  | [] => EmptyString
  | w :: ws' => String " " (w ++ spaced ws')
  end.

(** [s.split(sep)] for a separator of one character: the pieces between
    the occurrences of [sep], never an empty list. *)
Fixpoint split_on (sep : ascii) (s : string) : list string :=
  match s with
  | EmptyString => [EmptyString]
  | String a s' =>
      if Ascii.eqb a sep then EmptyString :: split_on sep s'
      else match split_on sep s' with
           | w :: ws => String a w :: ws
           | [] => [String a EmptyString]
           end
  end.

(** [s.rsplit(sep, 1)]: [s] cut at its last [sep], or [s] alone. *)
Fixpoint rcut (sep : ascii) (s : string) : option (string * string) :=
  match s with
  | EmptyString => None
  | String a s' =>
      match rcut sep s' with
      | Some (before, after) => Some (String a before, after)
      | None => if Ascii.eqb a sep then Some (EmptyString, s') else None
      end
  end.

Definition rsplit1 (sep : ascii) (s : string) : list string :=
  match rcut sep s with
  | Some (before, after) => [before; after]
  | None => [s]
  end.

(** [l[-1]] and [l[0]] on a list of strings that is not empty. *)
Definition item_last (l : list string) : string := List.last l EmptyString.
Definition item_first (l : list string) : string := List.hd EmptyString l.

(** [c in s] for one character [c]. *)
Definition has_char (c : ascii) (s : string) : bool :=
  negb (all_chars (fun a => negb (Ascii.eqb a c)) s).

(** Strings without a leading, trailing or repeated space.
    [tidy p s]: read after a character that was a space iff [p], the
    string [s] has single spaces only, each followed by a non-space. *)
Fixpoint tidy (p : bool) (s : string) : bool :=
  match s with
  | EmptyString => negb p
  | String a s' =>
      if isspace a then bool_decide (a = " "%char) && negb p && tidy true s'
      else tidy false s'
  end.

Definition normalized (s : string) : bool :=
  match s with
  | EmptyString => true
  | _ => tidy true s
  end.

End Py.

(** ** Cells, series and frames *)

(** What a cell of a frame holds: one of the three missing markers
    ([pd.NA], the float [nan] the readers write for an empty field, and
    [NaT] of datetime columns), a [str], a number, a [bool] or a
    [Timestamp] (nanoseconds since the epoch).  A number is the exact
    value of a Python [int] or finite [float], which is how Python and
    pandas compare them ([1 == 1.0]), or one of the two infinite
    floats. *)
Inductive number :=
| Rational (x : Qc)
| Infinity (negative : bool).

#[global] Instance number_eq_dec : EqDecision number.
Proof. solve_decision. Defined.

Inductive cell :=
| NA
| NaN
| NaT
| Str (s : string)
| Num (x : number)
| Bool (b : bool)
| Timestamp (ns : Z).

(** A [float] as the parser of numeric literals returns it: [nan], which
    it reads in "nan", or a number. *)
Inductive float64 :=
| Nan
| Value (x : number).

Definition cell_of_float (f : float64) : cell :=
  match f with
  | Nan => NaN
  | Value x => Num x
  end.

#[global] Instance cell_eq_dec : EqDecision cell.
Proof. solve_decision. Defined.

(** [pd.isna] and [pd.notna] on one cell: the empty string is a value. *)
Definition isna (c : cell) : bool :=
  match c with
  | NA | NaN | NaT => true
  | _ => false
  end.

Definition notna (c : cell) : bool := negb (isna c).

(** The dtype of a column.  [numeric] stands for NumPy's integer and
    floating dtypes, which the pipeline never tells apart; a column of
    dtype [object] is what the spec calls a text column. *)
Inductive Dtype := object | numeric | boolean | datetime64.

#[global] Instance Dtype_eq_dec : EqDecision Dtype.
Proof. solve_decision. Defined.

Record Series := mkSeries { dtype : Dtype; values : list cell }.

#[global] Instance Series_eq_dec : EqDecision Series.
Proof. solve_decision. Defined.

(** A frame: the row labels and the named columns, in order.  Column
    names may repeat. *)
Record DataFrame := mkFrame { index : list nat; cols : list (string * Series) }.

#[global] Instance DataFrame_eq_dec : EqDecision DataFrame.
Proof. solve_decision. Defined.

(** [df.columns] *)
Definition columns (d : DataFrame) : list string := fst <$> cols d.

(** Every column has one cell per row label. *)
Definition aligned (d : DataFrame) : Prop :=
  Forall (fun c => length (values c.2) = length (index d)) (cols d).

(** [df.empty]: no row or no column. *)
Definition empty (d : DataFrame) : bool :=
  match index d, cols d with
  | [], _ | _, [] => true
  | _, _ => false
  end.

(** Boolean indexing: the elements of [l] where [m] holds. *)
Fixpoint take_mask {A} (m : list bool) (l : list A) : list A :=
  match m, l with
  | b :: m', x :: l' => if b then x :: take_mask m' l' else take_mask m' l'
  | _, _ => []
  end.

(** [Index.duplicated()], [keep='first']: an element is marked when an
    equal one stands before it. *)
Fixpoint duplicated_from {A} `{EqDecision A} (seen l : list A) : list bool :=
  match l with
  | [] => []
  | x :: l' => bool_decide (x ∈ seen) :: duplicated_from (x :: seen) l'
  end.

Definition duplicated {A} `{EqDecision A} (l : list A) : list bool :=
  duplicated_from [] l.

(** [df.columns = names]; the two lists have the same length wherever
    the pipeline assigns. *)
Definition set_columns (names : list string) (d : DataFrame) : DataFrame :=
  mkFrame (index d) (zip names (snd <$> cols d)).

(** [df.loc[:, m]] *)
Definition loc_columns (m : list bool) (d : DataFrame) : DataFrame :=
  mkFrame (index d) (take_mask m (cols d)).

(** [df[m]] for a boolean row mask [m]. *)
Definition take_rows (m : list bool) (d : DataFrame) : DataFrame :=
  mkFrame (take_mask m (index d))
          ((fun c => (c.1, mkSeries (dtype c.2) (take_mask m (values c.2)))) <$> cols d).

(** The rows of a frame, each the list of its cells in column order. *)
Definition rows (d : DataFrame) : list (list cell) :=
  foldr (fun c rs => zip_with cons (values c.2) rs) (replicate (length (index d)) []) (cols d).

(** [df.applymap(f)].  pandas infers the dtype of each column again from
    the mapped values; with [clean_cell], which sends a string to a
    string or to [pd.NA] and keeps any other cell, the columns of a frame
    that comes from [read_csv] or [read_excel] keep their dtype. *)
Definition applymap (f : cell -> cell) (d : DataFrame) : DataFrame :=
  mkFrame (index d) ((fun c => (c.1, mkSeries (dtype c.2) (f <$> values c.2))) <$> cols d).

(** [df.select_dtypes(include=['object']).columns] *)
Definition select_dtypes_object (d : DataFrame) : list string :=
  fst <$> filter (fun c => dtype c.2 = object) (cols d).

(** [s.notna().sum()] *)
Definition notna_sum (s : Series) : nat := length (filter (fun c => notna c = true) (values s)).

(** ** Exceptions *)

Inductive exn := KeyError | ValueError | TypeError.

#[global] Instance exn_eq_dec : EqDecision exn.
Proof. solve_decision. Defined.

(** [df[col]] is a [Series] when one column bears the name, a frame of
    all the columns of that name when several do, and raises when none
    does. *)
Inductive item := Column (s : Series) | Frame (d : DataFrame).

Definition getitem (d : DataFrame) (col : string) : exn + item :=
  match filter (fun c => c.1 = col) (cols d) with
  | [] => inl KeyError
  | [c] => inr (Column c.2)
  | cs => inr (Frame (mkFrame (index d) cs))
  end.

(** [df[col] = s] *)
Definition setitem (d : DataFrame) (col : string) (s : Series) : DataFrame :=
  mkFrame (index d) ((fun c => if decide (c.1 = col) then (c.1, s) else c) <$> cols d).

(** ** The cell normaliser *)

Definition sentinels : list string := ["null"; "unknown"; "error"].

Definition clean_cell (c : cell) : cell :=
  match c with
  | Str s =>
      let s := Py.strip s in
      let s := Py.re_sub_runs Py.isspace " " s in
      if bool_decide (Py.lower s ∈ sentinels) then NA else Str s
  | _ => c
  end.

(** [df.columns.str.replace(r'[^A-Za-z0-9_]+', '_', regex=True)] on one name *)
Definition replace_special (s : string) : string :=
  Py.re_sub_runs (fun a => negb (Py.isword a)) "_" s.

(** ** Computations that may raise *)

#[global] Instance exn_ret : MRet (sum exn) := fun A x => inr x.
#[global] Instance exn_bind : MBind (sum exn) :=
  fun A B f m => match m with inl e => inl e | inr x => f x end.

(** A [for] loop whose body updates one frame and may raise. *)
Fixpoint for_each (names : list string) (body : string -> DataFrame -> exn + DataFrame)
  (d : DataFrame) : exn + DataFrame :=
  match names with
  | [] => inr d
  | col :: names' => d' ← body col d; for_each names' body d'
  end.

(** ** The pruning calls *)

(** [df.dropna(axis=1, how='all')]: a column stays when [notna] holds of
    one of its cells, so no column of a frame without rows stays. *)
Definition dropna_columns_all (d : DataFrame) : DataFrame :=
  mkFrame (index d) (filter (fun c => existsb notna (values c.2) = true) (cols d)).

(** How [drop_duplicates] compares cells: the missing markers are equal
    to each other, and [True] and [False] are equal to [1] and [0]. *)
Definition cell_key (c : cell) : cell :=
  match c with
  | NA | NaN | NaT => NaN
  | Bool b => Num (Rational (if b then 1 else 0))
  | _ => c
  end.

(** [df.drop_duplicates()]; pandas returns a copy of an [empty] frame. *)
Definition drop_duplicates (d : DataFrame) : DataFrame :=
  if empty d then d
  else take_rows (negb <$> duplicated (map cell_key <$> rows d)) d.

(** [df.dropna()]: the rows whose cells are all [notna]. *)
Definition dropna (d : DataFrame) : DataFrame :=
  take_rows (forallb notna <$> rows d) d.

(** ** The store of frames

    [clean_dataframe] receives a reference to the caller's frame.  Each
    assignment [df = ...] binds the local name to a frame pandas
    allocates; every other statement works on the frame the name is
    bound to. *)

Definition loc := positive.

Definition M (A : Type) : Type :=
  gmap loc DataFrame -> (exn + A) * gmap loc DataFrame.

#[global] Instance M_ret : MRet M := fun A x h => (inr x, h).
#[global] Instance M_bind : MBind M :=
  fun A B f m h =>
    match m h with
    | (inl e, h') => (inl e, h')
    | (inr x, h') => f x h'
    end.

(** A method that returns a new frame. *)
Definition new (f : DataFrame -> DataFrame) (l : loc) : M loc :=
  fun h =>
    match h !! l with
    | Some d => let l' := fresh (dom h) in (inr l', <[l' := f d]> h)
    | None => (inl KeyError, h)
    end.

(** A statement that changes the frame at [l] in place, or raises and
    leaves it as it is. *)
Definition update (f : DataFrame -> exn + DataFrame) (l : loc) : M unit :=
  fun h =>
    match h !! l with
    | Some d =>
        match f d with
        | inr d' => (inr (), <[l := d']> h)
        | inl e => (inl e, h)
        end
    | None => (inl KeyError, h)
    end.

Definition read {A} (f : DataFrame -> A) (l : loc) : M A :=
  fun h =>
    match h !! l with
    | Some d => (inr (f d), h)
    | None => (inl KeyError, h)
    end.

Fixpoint for_ (names : list string) (body : string -> M unit) : M unit :=
  match names with
  | [] => mret ()
  | col :: names' => body col;; for_ names' body
  end.

(** The stores a call can leave: the frame at [l] is replaced by [t0],
    frames are added at locations that were free, nothing else moves. *)
Definition extends (l : loc) (t0 : DataFrame) (h h' : gmap loc DataFrame) : Prop :=
  h' !! l = Some t0 /\
  (forall l', l' ≠ l -> is_Some (h !! l') -> h' !! l' = h !! l').

(** ** Type inference *)

(** [non_null_converted / non_null_original >= 0.8].  The source divides
    two NumPy integers in double precision and compares with the double
    nearest to 0.8; the quotient of [4k] by [5k] rounds to that very
    double, and a quotient below 4/5 is at least [1/(5n)] away from it,
    so for any frame that fits in memory the test is the exact one
    ([ratio_ge_80_double_agrees] evaluates both up to 400 cells). *)
Definition ratio_ge_80 (converted original : nat) : bool :=
  (4 * original <=? 5 * converted)%nat.

(** The same test as the source computes it, in double precision. *)
Definition float_of_nat (n : nat) : float :=
  PrimFloat.of_uint63 (Uint63.of_Z (Z.of_nat n)).

Definition ratio_ge_80_double (converted original : nat) : bool :=
  PrimFloat.leb 0x1.999999999999ap-1%float
    (PrimFloat.div (float_of_nat converted) (float_of_nat original)).

(** The two tests agree on every column of at most [N] cells. *)
Definition ratio_tests_agree (N : nat) : bool :=
  forallb (fun n =>
             forallb (fun p => Bool.eqb (ratio_ge_80_double p (S n)) (ratio_ge_80 p (S n)))
                     (seq 0 (S (S n))))
          (seq 0 N).

Section Inference.

(** The datetime pandas reads in a non-missing cell, if it reads one.
    The first argument is the column the cell stands in: pandas guesses
    a format from the first value of the column. *)
Variable datetime_of : list cell -> cell -> option Z.

(** The float pandas reads in a string that is not empty, if it reads
    one. *)
Variable parse_numeric : string -> option float64.

(** [pd.to_datetime(s, errors='coerce', infer_datetime_format=True)] *)
Definition to_datetime_series (s : Series) : Series :=
  mkSeries datetime64
    ((fun c => if isna c then NaT
               else match datetime_of (values s) c with
                    | Some t => Timestamp t
                    | None => NaT
                    end) <$> values s).

(** On a frame pandas assembles dates from columns named year, month and
    day, and refuses a frame with a repeated column name; [df[col]] is a
    frame only then. *)
Definition to_datetime (arg : item) : exn + Series :=
  match arg with
  | Column s => inr (to_datetime_series s)
  | Frame _ => inl ValueError
  end.

(** [arg.notna().sum()], compared with [0] by the caller; on a frame the
    sum is a series, whose truth value pandas refuses. *)
Definition item_notna_sum (arg : item) : exn + nat :=
  match arg with
  | Column s => inr (notna_sum s)
  | Frame _ => inl ValueError
  end.

(** The number in one cell of an [object] column, [None] where pandas
    raises: a missing cell is a float [nan], and so is the empty string
    ([maybe_convert_numeric] is called with [convert_empty=True]); any
    other string is left to the parser; a datetime is refused. *)
Definition numeric_of (c : cell) : option cell :=
  match c with
  | NA | NaN => Some NaN
  | Str EmptyString => Some NaN
  | Str s => cell_of_float <$> parse_numeric s
  | Num x => Some (Num x)
  | Bool b => Some (Bool b)
  | NaT | Timestamp _ => None
  end.

Definition is_bool (c : cell) : bool :=
  match c with Bool _ => true | _ => false end.

Definition number_of (c : cell) : cell :=
  match c with
  | Bool b => Num (Rational (if b then 1 else 0))
  | _ => c
  end.

(** [pd.to_numeric(s, errors='ignore')]: all the cells convert and the
    result is a numeric (or, of booleans only, a boolean) column, or one
    does not and [s] itself is returned. *)
Definition to_numeric_series (s : Series) : Series :=
  match mapM numeric_of (values s) with
  | Some vs =>
      match vs with
      | _ :: _ => if forallb is_bool vs then mkSeries boolean vs
                  else mkSeries numeric (number_of <$> vs)
      | [] => mkSeries numeric []
      end
  | None => s
  end.

Definition to_numeric (arg : item) : exn + Series :=
  match arg with
  | Column s => inr (to_numeric_series s)
  | Frame _ => inl TypeError
  end.

(** The body of the first loop. *)
Definition convert_dates (col : string) (d : DataFrame) : exn + DataFrame :=
  arg ← getitem d col;
  converted ← to_datetime arg;
  non_null_original ← item_notna_sum arg;
  let non_null_converted := notna_sum converted in
  if (0 <? non_null_original)%nat && ratio_ge_80 non_null_converted non_null_original
  then mret (setitem d col converted)
  else mret d.

(** The body of the second loop. *)
Definition convert_numeric (col : string) (d : DataFrame) : exn + DataFrame :=
  arg ← getitem d col;
  s ← to_numeric arg;
  mret (setitem d col s).

(** ** The pipeline *)

Definition clean_dataframe (df : loc) : M loc :=
  (* df.columns = df.columns.str.strip() *)
  names ← read columns df;
  update (fun d => inr (set_columns (Py.strip <$> names) d)) df;;
  (* df = df.loc[:, ~df.columns.duplicated()] *)
  names ← read columns df;
  df ← new (loc_columns (negb <$> duplicated names)) df;
  (* df.columns = df.columns.str.replace(r'[^A-Za-z0-9_]+', '_', regex=True) *)
  names ← read columns df;
  update (fun d => inr (set_columns (replace_special <$> names) d)) df;;
  (* df = df.applymap(clean_cell) *)
  df ← new (applymap clean_cell) df;
  (* for col in df.select_dtypes(include=['object']).columns: ... *)
  names ← read select_dtypes_object df;
  for_ names (fun col => update (convert_dates col) df);;
  (* for col in df.select_dtypes(include=['object']).columns: ... *)
  names ← read select_dtypes_object df;
  for_ names (fun col => update (convert_numeric col) df);;
  (* df.dropna(axis=1, how='all', inplace=True) *)
  update (fun d => inr (dropna_columns_all d)) df;;
  (* df = df.drop_duplicates() *)
  df ← new drop_duplicates df;
  (* df = df.dropna() *)
  df ← new dropna df;
  mret df.

(** What a caller holding the table [t] gets: the returned frame, or the
    exception. *)
Definition clean (t : DataFrame) : exn + DataFrame :=
  match clean_dataframe 1%positive {[ 1%positive := t ]} with
  | (inr l, h) => match h !! l with Some out => inr out | None => inl KeyError end
  | (inl e, _) => inl e
  end.

(** ** The stages of the pipeline as functions

    The same statements arranged as the four stages of the design, on
    frames rather than on references; [clean_stages] below states that
    [clean] computes their composition. *)

(** Column-name normaliser. *)
Definition normalize_names (t : DataFrame) : DataFrame :=
  let t := set_columns (Py.strip <$> columns t) t in
  let d := loc_columns (negb <$> duplicated (columns t)) t in
  set_columns (replace_special <$> columns d) d.

(** What the first loop does to the column it visits. *)
Definition convert_dates_series (s : Series) : Series :=
  let converted := to_datetime_series s in
  if (0 <? notna_sum s)%nat && ratio_ge_80 (notna_sum converted) (notna_sum s)
  then converted else s.

(** Type inferencer: the two loops. *)
Definition infer_types (d : DataFrame) : exn + DataFrame :=
  d ← for_each (select_dtypes_object d) convert_dates d;
  for_each (select_dtypes_object d) convert_numeric d.

(** Pruner. *)
Definition prune (d : DataFrame) : DataFrame :=
  dropna (drop_duplicates (dropna_columns_all d)).

Definition stages (t : DataFrame) : exn + DataFrame :=
  d ← infer_types (applymap clean_cell (normalize_names t));
  mret (prune d).

(** A text column the type inferencer leaves as it is. *)
Definition stays_text (s : Series) : Prop :=
  convert_dates_series s = s ∧ to_numeric_series s = s.

End Inference.

(** An integer as a cell, and a text column. *)
Definition Int (z : Z) : cell := Num (Rational (Q2Qc (inject_Z z))).

Definition text (l : list string) : Series := mkSeries object (Str <$> l).

(** ** Two small parsers

    Stand-ins for the parsers of pandas, used where a statement below is
    evaluated on a concrete table: dates written [YYYY-MM-DD] and
    integers written in decimal digits. *)

Module Sample.

Definition digit (a : ascii) : option Z :=
  let n := Py.ord a in
  if ((48 <=? n) && (n <=? 57))%N then Some (Z.of_N n - 48)%Z else None.

Fixpoint digits (acc : Z) (s : string) : option Z :=
  match s with
  | EmptyString => Some acc
  | String a s' => d ← digit a; digits (10 * acc + d)%Z s'
  end.

Definition natural (s : string) : option Z :=
  match s with
  | EmptyString => None
  | _ => digits 0 s
  end.

(** Nanoseconds in a day. *)
Definition day_ns : Z := 86400000000000.

Definition date (y m d : Z) : Z := (((y * 12 + m) * 31 + d) * day_ns)%Z.

Definition datetime_of (column : list cell) (c : cell) : option Z :=
  match c with
  | Str s =>
      if bool_decide (String.length s = 10%nat ∧ String.get 4 s = Some "-"%char
                      ∧ String.get 7 s = Some "-"%char)
      then y ← natural (String.substring 0 4 s);
           m ← natural (String.substring 5 2 s);
           d ← natural (String.substring 8 2 s);
           Some (date y m d)
      else None
  | Timestamp t => Some t
  | _ => None
  end.

Definition parse_numeric (s : string) : option float64 :=
  match s with
  | String "-" s' => z ← natural s'; Some (Value (Rational (Q2Qc (inject_Z (- z)))))
  | _ => z ← natural s; Some (Value (Rational (Q2Qc (inject_Z z))))
  end.

Definition clean : DataFrame -> exn + DataFrame := clean datetime_of parse_numeric.

End Sample.

(** ** Tables the statements are evaluated on *)

Module Tables.

(** The scenario of the design: two columns called "Name" once
    stripped, a sentinel, a malformed date and a repeated row. *)
Definition scenario : DataFrame :=
  mkFrame [0; 1; 2; 3; 4]%nat
    [("Name ", text ["Ann"; "unknown"; "Bob"; "Ann"; "Cid"]);
     ("Name", text ["x"; "y"; "z"; "x"; "w"]);
     ("Date", text ["2024-01-05"; "2024-01-06"; "2024-01-07"; "2024-01-05"; "2024-1-8"]);
     ("Amt", text ["10"; "20"; "30"; "10"; "40"])].

Definition scenario_cleaned : DataFrame :=
  mkFrame [0; 2]%nat
    [("Name", text ["Ann"; "Bob"]);
     ("Date", mkSeries datetime64
                [Timestamp (Sample.date 2024 1 5); Timestamp (Sample.date 2024 1 7)]);
     ("Amt", mkSeries numeric [Int 10; Int 30])].

(** Three numeric columns: two names that differ in a special
    character, and a name of one space. *)
Definition names : DataFrame :=
  mkFrame [0]%nat
    [("a b", mkSeries numeric [Int 1]);
     ("a_b", mkSeries numeric [Int 2]);
     (" ", mkSeries numeric [Int 3])].

(** Every row has a missing cell, no column is all missing. *)
Definition sparse : DataFrame :=
  mkFrame [0; 1]%nat
    [("A", mkSeries numeric [Int 1; NaN]);
     ("B", mkSeries numeric [NaN; Int 2])].

Definition sparse_cleaned : DataFrame :=
  mkFrame [] [("A", mkSeries numeric []); ("B", mkSeries numeric [])].

(** One column, all missing, two rows. *)
Definition blank : DataFrame :=
  mkFrame [0; 1]%nat [("A", mkSeries numeric [NaN; NaN])].

(** A text column that is neither dates nor numbers as a whole, but is
    numbers on the rows that remain. *)
Definition mixed : DataFrame :=
  mkFrame [0; 1]%nat [("A", text ["1"; "x"]); ("B", text ["b"; "unknown"])].

Definition mixed_cleaned : DataFrame :=
  mkFrame [0]%nat [("A", text ["1"]); ("B", text ["b"])].

(** A column name with a leading space. *)
Definition padded : DataFrame :=
  mkFrame [0]%nat [(" a", mkSeries numeric [Int 1])].

(** No row, two text columns whose names differ in a special character:
    what [read_csv] returns for a file of the one line [a b,a_b]. *)
Definition header_only : DataFrame :=
  mkFrame [] [("a b", text []); ("a_b", text [])].

(** Five cells, four of them dates; five cells, three of them dates. *)
Definition four_of_five : DataFrame :=
  mkFrame [0; 1; 2; 3; 4]%nat
    [("when", text ["2024-01-05"; "2024-01-06"; "soon"; "2024-01-07"; "2024-01-08"])].

Definition three_of_five : DataFrame :=
  mkFrame [0; 1; 2; 3; 4]%nat
    [("when", text ["2024-01-05"; "later"; "soon"; "2024-01-07"; "2024-01-08"])].

(** What the two loops make of [four_of_five]. *)
Definition four_of_five_dated : DataFrame :=
  mkFrame [0; 1; 2; 3; 4]%nat
    [("when", mkSeries datetime64
                [Timestamp (Sample.date 2024 1 5); Timestamp (Sample.date 2024 1 6); NaT;
                 Timestamp (Sample.date 2024 1 7); Timestamp (Sample.date 2024 1 8)])].

(** A cell of white space in a column of text, in a column of numerals,
    and in a column of its own. *)
Definition blank_text : DataFrame :=
  mkFrame [0; 1]%nat [("A", text [" "; "x"]); ("B", text ["b"; "c"])].

Definition blank_text_cleaned : DataFrame :=
  mkFrame [0; 1]%nat [("A", text [""; "x"]); ("B", text ["b"; "c"])].

Definition blank_number : DataFrame :=
  mkFrame [0; 1]%nat [("A", text [" "; "5"])].

Definition blank_column : DataFrame :=
  mkFrame [0; 1]%nat [("A", text [" "; "  "]); ("B", text ["x"; "y"])].

(** A cell of white space beside a numeral, in a column that is text
    until the row of "x" is dropped. *)
Definition blank_mixed : DataFrame :=
  mkFrame [0; 1; 2]%nat [("A", text [" "; "5"; "x"]); ("B", text ["b"; "c"; "unknown"])].

(** Rows that repeat, with and without a missing cell. *)
Definition repeated : DataFrame :=
  mkFrame [0; 1; 2; 3; 4]%nat
    [("A", mkSeries numeric [Int 1; NaN; Int 1; NaN; Int 5]);
     ("B", mkSeries numeric [Int 2; Int 3; Int 2; Int 3; Int 2])].

End Tables.



(** Two strings equal up to the case of their letters. *)
Definition eq_nocase (a b : string) : Prop := Py.lower a = Py.lower b.

(** [parsedSuccessfully / nonMissingOriginal], for a positive denominator. *)
Definition parse_rate (parsed non_missing : nat) : Q :=
  Z.of_nat parsed # Pos.of_nat non_missing.

(** A cell holding a number: what a column made numeric consists of,
    next to [nan]. *)
Definition is_number (c : cell) : bool :=
  match c with
  | Num _ | Bool _ => true
  | _ => false
  end.

(** A name that matches [^[A-Za-z0-9_]+$]. *)
Definition name_pattern (n : string) : Prop :=
  n <> EmptyString /\ Py.all_chars Py.isword n = true.

(** A column all of whose cells are missing: the columns
    [dropna(axis=1, how='all')] drops. *)
Definition all_missing (s : Series) : Prop :=
  Forall (fun v => isna v = true) (values s).

(** Every cell of the frame satisfies [Q]. *)
Definition cells (Q : cell -> Prop) (d : DataFrame) : Prop :=
  Forall (fun c => Forall Q (values c.2)) (cols d).

Definition not_str (v : cell) : Prop := forall s, v <> Str s.

(** What the loops keep of a frame: row labels, column names, alignment. *)
Definition same_shape (d d' : DataFrame) : Prop :=
  index d' = index d /\ columns d' = columns d /\ (aligned d -> aligned d').

(** A text cell as the cell normaliser leaves it. *)
Definition tidy_text (v : cell) : Prop :=
  forall s, v = Str s ->
    Py.normalized s = true /\ forall x, x ∈ sentinels -> ~ eq_nocase s x.

(** The cells a column of each dtype holds once pandas has typed it. *)
Definition fits (ty : Dtype) (v : cell) : Prop :=
  match ty with
  | object => True
  | numeric => v = NaN \/ exists x, v = Num x
  | boolean => exists b, v = Bool b
  | datetime64 => v = NaT \/ exists t, v = Timestamp t
  end.

Definition series_typed (s : Series) : Prop := Forall (fits (dtype s)) (values s).

Definition well_typed (d : DataFrame) : Prop :=
  Forall (fun c => Forall (fits (dtype c.2)) (values c.2)) (cols d).

(** What the two loops together do to a text column: the date step,
    then the numeric step if the column is still text. *)
Definition infer_series (datetime_of : list cell -> cell -> option Z)
    (parse_numeric : string -> option float64) (s : Series) : Series :=
  let s := convert_dates_series datetime_of s in
  if decide (dtype s = object) then to_numeric_series parse_numeric s else s.

(** [df.drop_duplicates()] without the shortcut for frames without
    columns. *)
Definition keep_first_rows (d : DataFrame) : DataFrame :=
  take_rows (negb <$> duplicated (map cell_key <$> rows d)) d.

(** ** The page

    The script below [clean_dataframe]: for each uploaded file it reads
    a frame, shows it, cleans it, shows the result and offers it for
    download, and reports what is raised on the way.  What it writes to
    the page is a list of events. *)

Inductive event :=
| StError (message : string)
| StSubheader (body : string)
| StDataframe (d : DataFrame)
| StDownloadButton (label : string) (data : string) (file_name : string) (mime : string).

(** An exception of the pipeline, or one of a reader. *)
Inductive exception := Pandas (e : exn) | Reader (description : string).

(** Statements that write to the page and may raise. *)
Definition UI (A : Type) : Type := list event * (exception + A).

#[global] Instance UI_ret : MRet UI := fun A x => ([], inr x).
#[global] Instance UI_bind : MBind UI :=
  fun A B f m =>
    match m with
    | (out, inl e) => (out, inl e)
    | (out, inr x) => let '(out', r) := f x in ((out ++ out')%list, r)
    end.

Definition emit (e : event) : UI unit := ([e], inr ()).

Definition lift {A} (r : exception + A) : UI A := ([], r).

(** [try: body except Exception as e: handler(e)] *)
Definition try_except (body : UI unit) (handler : exception -> UI unit) : UI unit :=
  match body with
  | (out, inl e) => let '(out', r) := handler e in ((out ++ out')%list, r)
  | (out, inr x) => (out, inr x)
  end.

(** [df.head()] *)
Definition head (d : DataFrame) : DataFrame :=
  mkFrame (take 5 (index d))
          ((fun c => (c.1, mkSeries (dtype c.2) (take 5 (values c.2)))) <$> cols d).

(** [file_name.split('.')[-1].lower()] *)
Definition extension (file_name : string) : string :=
  Py.lower (Py.item_last (Py.split_on "." file_name)).

(** [file_name.rsplit('.', 1)[0]] *)
Definition base_name (file_name : string) : string :=
  Py.item_first (Py.rsplit1 "." file_name).

(** [f"clean_{base_name}.csv"] *)
Definition new_file_name (file_name : string) : string :=
  "clean_" ++ base_name file_name ++ ".csv".

Section Page.

(** An uploaded file has a name; the readers, the writer [to_csv] with
    its encoding, and the text [str(e)] of an exception are those of
    pandas and Python.  The widgets of streamlit write to the page and
    return. *)
Variable UploadedFile : Type.
Variable name : UploadedFile -> string.
Variable read_csv read_excel : UploadedFile -> exception + DataFrame.
Variable to_csv_utf8 : DataFrame -> string.
Variable str : exception -> string.
Variable datetime_of : list cell -> cell -> option Z.
Variable parse_numeric : string -> option float64.

(** The body of the [try]. *)
Definition process_body (uploaded_file : UploadedFile) : UI unit :=
  let file_name := name uploaded_file in
  let ext := extension file_name in
  if bool_decide (ext = "csv" \/ ext ∈ ["xlsx"; "xls"]) then
    df ← lift (if bool_decide (ext = "csv") then read_csv uploaded_file
               else read_excel uploaded_file);
    emit (StSubheader ("Raw Data Preview - " ++ file_name));;
    emit (StDataframe (head df));;
    clean_df ← lift (match clean datetime_of parse_numeric df with
                     | inl e => inl (Pandas e)
                     | inr out => inr out
                     end);
    emit (StSubheader ("Cleaned Data Preview - " ++ file_name));;
    emit (StDataframe (head clean_df));;
    let csv_data := to_csv_utf8 clean_df in
    emit (StDownloadButton ("Download Clean CSV for " ++ file_name) csv_data
            (new_file_name file_name) "text/csv")
  else
    (* st.error(...); continue *)
    emit (StError ("Unsupported file type: " ++ file_name)).

(** One turn of the loop. *)
Definition process (uploaded_file : UploadedFile) : UI unit :=
  try_except (process_body uploaded_file)
    (fun e => emit (StError ("An error occurred while processing "
                             ++ name uploaded_file ++ ": " ++ str e))).

(** [if uploaded_files: for uploaded_file in uploaded_files: ...] *)
Fixpoint page (uploaded_files : list UploadedFile) : UI unit :=
  match uploaded_files with
  | [] => mret ()
  | uploaded_file :: rest => process uploaded_file;; page rest
  end.

End Page.

(** What a page offers for download, as pairs of a file name and its
    content, and the error messages it shows, both in the order of
    writing. *)
Definition downloads (out : list event) : list (string * string) :=
  omap (fun e => match e with
                 | StDownloadButton _ data file_name _ => Some (file_name, data)
                 | _ => None
                 end) out.

Definition errors (out : list event) : list string :=
  omap (fun e => match e with StError message => Some message | _ => None end) out.

(** Uploads to run the page on: a file is its name and the frame its
    content stands for; the CSV reader returns that frame, the Excel
    reader refuses every file, [to_csv] writes the header line only. *)
Module Upload.

Definition UploadedFile : Type := string * DataFrame.

Definition name (f : UploadedFile) : string := f.1.

Definition read_csv (f : UploadedFile) : exception + DataFrame := inr f.2.

Definition read_excel (f : UploadedFile) : exception + DataFrame :=
  inl (Reader "File is not a zip file").

Definition to_csv_utf8 (d : DataFrame) : string := String.concat "," (columns d).

Definition str (e : exception) : string :=
  match e with
  | Pandas KeyError => "KeyError"
  | Pandas ValueError => "ValueError"
  | Pandas TypeError => "TypeError"
  | Reader description => description
  end.

Definition process : UploadedFile -> UI unit :=
  process UploadedFile name read_csv read_excel to_csv_utf8 str
    Sample.datetime_of Sample.parse_numeric.

Definition page : list UploadedFile -> UI unit :=
  page UploadedFile name read_csv read_excel to_csv_utf8 str
    Sample.datetime_of Sample.parse_numeric.

Definition people : UploadedFile := ("people.CSV", Tables.scenario).

End Upload.

(** * Facts about the string operations *)

Module PyFacts.
Import Py.

Lemma isword_not_space a : isword a = true -> isspace a = false.
Proof.
  destruct a as [[] [] [] [] [] [] [] []]; vm_compute; congruence.
Qed.

Lemma space_is_space : isspace " " = true.
Proof. reflexivity. Qed.

Lemma all_chars_impl (P Q : ascii -> bool) s :
  (forall a, P a = true -> Q a = true) ->
  all_chars P s = true -> all_chars Q s = true.
Proof.
  intros HPQ. induction s as [|a s IH]; simpl; [done|].
  rewrite !andb_true_iff. intros [Ha Hs]. auto.
Qed.

(** ** [rstrip], [lstrip], [strip] *)

Lemma rstrip_no_space s :
  all_chars (fun a => negb (isspace a)) s = true -> rstrip s = s.
Proof.
  induction s as [|a s IH]; simpl; [done|].
  rewrite andb_true_iff, negb_true_iff. intros [Ha Hs].
  rewrite (IH Hs), Ha. by destruct s.
Qed.

Lemma lstrip_head a s : isspace a = false -> lstrip (String a s) = String a s.
Proof. simpl. by intros ->. Qed.

Lemma rstrip_head a s :
  isspace a = false -> exists r, rstrip (String a s) = String a r.
Proof.
  intros Ha. simpl. destruct (rstrip s); rewrite ?Ha; eauto.
Qed.

Lemma lstrip_shape s :
  lstrip s = EmptyString \/ exists a r, lstrip s = String a r /\ isspace a = false.
Proof.
  induction s as [|a s IH]; simpl; [by left|].
  destruct (isspace a) eqn:Ha; [done|]. right. eauto.
Qed.

Lemma rstrip_idemp s : rstrip (rstrip s) = rstrip s.
Proof.
  induction s as [|a s IH]; simpl; [done|].
  destruct (rstrip s) as [|b r] eqn:Hr.
  - destruct (isspace a) eqn:Ha; simpl; [done|]. by rewrite Ha.
  - simpl in *. by rewrite IH.
Qed.

(** The fixed points of [rstrip]: the tail is one, and the last
    character is not a space. *)
Lemma rstrip_fixed_inv a s :
  rstrip (String a s) = String a s ->
  rstrip s = s /\ (s = EmptyString -> isspace a = false).
Proof.
  simpl. destruct (rstrip s) as [|b r] eqn:Hr.
  - destruct (isspace a) eqn:Ha; [done|]. intros [= <-]. done.
  - intros [= <-]. done.
Qed.

Lemma strip_shape s :
  strip s = EmptyString \/
  exists a r, strip s = String a r /\ isspace a = false.
Proof.
  unfold strip. destruct (lstrip_shape s) as [->|(a & r & -> & Ha)]; [by left|].
  right. destruct (rstrip_head a r Ha) as [r' ->]. eauto.
Qed.

Lemma strip_no_space s :
  all_chars (fun a => negb (isspace a)) s = true -> strip s = s.
Proof.
  intros Hs. unfold strip. destruct s as [|a s]; [done|].
  pose proof Hs as Hs'. simpl in Hs'. apply andb_true_iff in Hs' as [Ha _].
  apply negb_true_iff in Ha. rewrite lstrip_head by done.
  by apply rstrip_no_space.
Qed.

Lemma strip_all_space s : all_chars isspace s = true -> strip s = EmptyString.
Proof.
  unfold strip. induction s as [|a s IH]; simpl; [done|].
  rewrite andb_true_iff. intros [-> Hs]. auto.
Qed.

(** ** [re.sub] of runs *)

Lemma sub_runs_chars cls r b s :
  cls r = false ->
  all_chars (fun a => negb (cls a)) (sub_runs cls r b s) = true.
Proof.
  intros Hr. revert b. induction s as [|a s IH]; intros b; simpl; [done|].
  destruct (cls a) eqn:Ha.
  - destruct b; simpl; rewrite ?Hr; simpl; auto.
  - simpl. rewrite Ha. simpl. auto.
Qed.

Lemma sub_runs_fixed cls r b s :
  all_chars (fun a => negb (cls a)) s = true -> sub_runs cls r b s = s.
Proof.
  revert b. induction s as [|a s IH]; intros b; simpl; [done|].
  rewrite andb_true_iff, negb_true_iff. intros [-> Hs]. by rewrite IH.
Qed.

Lemma re_sub_runs_empty cls r s :
  re_sub_runs cls r s = EmptyString <-> s = EmptyString.
Proof.
  unfold re_sub_runs. destruct s as [|a s]; simpl; [done|].
  destruct (cls a); split; discriminate.
Qed.

(** ** Strings without a leading, trailing or repeated space *)

Lemma tidy_rstrip p s : tidy p s = true -> s <> EmptyString -> rstrip s = s.
Proof.
  revert p. induction s as [|a s IH]; intros p; simpl; [done|].
  intros Ht _. destruct s as [|b s].
  - simpl in *. destruct (isspace a); [|done].
    rewrite andb_false_r in Ht. done.
  - assert (exists q, tidy q (String b s) = true) as [q Hq].
    { destruct (isspace a); [|by eauto].
      apply andb_true_iff in Ht as [_ Ht]. eauto. }
    rewrite (IH q Hq) by done. done.
Qed.

Lemma tidy_sub_runs p b s :
  tidy p s = true -> (b = true -> p = true) ->
  sub_runs isspace " " b s = s.
Proof.
  revert p b. induction s as [|a s IH]; intros p b; simpl; [done|].
  destruct (isspace a) eqn:Ha.
  - rewrite !andb_true_iff, bool_decide_eq_true, negb_true_iff.
    intros [[-> ->] Ht] Hb. destruct b; [by specialize (Hb eq_refl)|].
    by rewrite (IH true true).
  - intros Ht _. by rewrite (IH false false).
Qed.

Lemma normalized_strip s : normalized s = true -> strip s = s.
Proof.
  destruct s as [|a s]; [done|]. intros Ht. unfold strip.
  assert (isspace a = false) as Ha.
  { simpl in Ht. destruct (isspace a); [|done]. by rewrite andb_false_r in Ht. }
  rewrite lstrip_head by done. by eapply tidy_rstrip.
Qed.

Lemma normalized_sub_runs s :
  normalized s = true -> re_sub_runs isspace " " s = s.
Proof.
  destruct s as [|a s]; [done|]. intros Ht. unfold re_sub_runs.
  assert (isspace a = false) as Ha.
  { simpl in Ht. destruct (isspace a); [|done]. by rewrite andb_false_r in Ht. }
  simpl in *. rewrite Ha in *. by rewrite (tidy_sub_runs false false).
Qed.

Lemma sub_runs_tidy b s :
  rstrip s = s -> (s = EmptyString -> b = false) ->
  tidy b (sub_runs isspace " " b s) = true.
Proof.
  revert b. induction s as [|a s IH]; intros b.
  - simpl. intros _ Hb. by rewrite Hb.
  - intros Hfix _. apply rstrip_fixed_inv in Hfix as [Hs Hlast].
    simpl. destruct (isspace a) eqn:Ha.
    + assert (s <> EmptyString) by (intros ->; by specialize (Hlast eq_refl)).
      destruct b.
      * by apply IH.
      * simpl. rewrite IH by done. done.
    + simpl. rewrite Ha. by apply IH.
Qed.

Lemma collapse_strip_normalized s :
  normalized (re_sub_runs isspace " " (strip s)) = true.
Proof.
  unfold re_sub_runs.
  assert (rstrip (strip s) = strip s) as Hfix by apply rstrip_idemp.
  destruct (strip_shape s) as [->|(a & r & Hs & Ha)]; [done|].
  rewrite Hs in *. apply rstrip_fixed_inv in Hfix as [Hr _].
  simpl. rewrite Ha. simpl. rewrite Ha. by apply sub_runs_tidy.
Qed.

(** ** Words *)

Lemma append_cons a s t : String a s ++ t = String a (s ++ t).
Proof. reflexivity. Qed.

Lemma append_empty_r s : s ++ "" = s.
Proof. induction s as [|a s IH]; [done|]. by rewrite append_cons, IH. Qed.

Lemma concat_spaced w ws : String.concat " " (w :: ws) = w ++ spaced ws.
Proof.
  revert w. induction ws as [|x ws IH]; intros w.
  - simpl. by rewrite append_empty_r.
  - change (String.concat " " (w :: x :: ws)) with (w ++ " " ++ String.concat " " (x :: ws)).
    rewrite IH. done.
Qed.

Lemma spaced_concat ws : ws <> [] -> spaced ws = String " " (String.concat " " ws).
Proof. destruct ws as [|w ws]; [done|]. intros _. by rewrite concat_spaced. Qed.

Lemma rstrip_cons_nospace a s :
  isspace a = false -> rstrip (String a s) = String a (rstrip s).
Proof. intros Ha. simpl. destruct (rstrip s); by rewrite ?Ha. Qed.

Lemma rstrip_cons_space a s :
  isspace a = true ->
  rstrip (String a s) = if bool_decide (rstrip s = "") then "" else String a (rstrip s).
Proof. intros Ha. simpl. destruct (rstrip s); by rewrite ?Ha. Qed.

Lemma cons_word_nil w ws : cons_word w ws = [] <-> w = "" /\ ws = [].
Proof. destruct w; simpl; [|split; [done|by intros [? _]]]. split; [done|by intros [_ ?]]. Qed.

(** The runs replaced in a right-stripped string, read off its words. *)
Lemma sub_runs_words s :
  let '(w, ws) := split_aux s in
  sub_runs isspace " " false (rstrip s) = w ++ spaced ws
  /\ sub_runs isspace " " true (rstrip s) = join (cons_word w ws)
  /\ (rstrip s = "" <-> w = "" /\ ws = []).
Proof.
  induction s as [|a s IH]; [done|].
  simpl split_aux. destruct (split_aux s) as [w ws]. destruct IH as (IHf & IHt & IHe).
  destruct (isspace a) eqn:Ha.
  - rewrite (rstrip_cons_space _ _ Ha). case_bool_decide as Hr.
    + destruct (proj1 IHe Hr) as [-> ->]. done.
    + assert (cons_word w ws <> []) as Hne.
      { intros Hnil%cons_word_nil. by apply Hr, IHe. }
      simpl. rewrite Ha. simpl. rewrite IHt. split; [|split].
      * by rewrite spaced_concat.
      * done.
      * split; [done|]. intros [_ Hnil]. done.
  - rewrite (rstrip_cons_nospace _ _ Ha). simpl. rewrite Ha, IHf. split; [done|split].
    + unfold join. by rewrite concat_spaced.
    + split; [done|by intros [? _]].
Qed.

Lemma split_lstrip s : split (lstrip s) = split s.
Proof.
  induction s as [|a s IH]; [done|]. simpl lstrip.
  destruct (isspace a) eqn:Ha; [|done].
  rewrite IH. unfold split. simpl. rewrite Ha. by destruct (split_aux s).
Qed.

(** Stripping and collapsing is splitting into words and joining them
    with one space. *)
Lemma collapse_strip_words s :
  re_sub_runs isspace " " (strip s) = join (split s).
Proof.
  unfold re_sub_runs, strip. rewrite <- split_lstrip.
  pose proof (sub_runs_words (lstrip s)) as Hw. unfold split.
  destruct (lstrip_shape s) as [->|(a & r & Hs & Ha)]; [done|].
  rewrite Hs in *. simpl split_aux in *. rewrite Ha in *.
  destruct (split_aux r) as [w ws]. destruct Hw as (-> & _ & _).
  unfold join. simpl cons_word. by rewrite concat_spaced.
Qed.

End PyFacts.

(** * Facts about masks, duplicates and rows *)

Section Masks.
Context {A : Type}.
Implicit Types (m : list bool) (l : list A).

Lemma take_mask_nil_r m : take_mask m (@nil A) = [].
Proof. by destruct m. Qed.

Lemma take_mask_sublist m l : take_mask m l `sublist_of` l.
Proof.
  revert l. induction m as [|b m IH]; intros [|x l]; simpl;
    try apply sublist_nil_l.
  destruct b; [by apply sublist_skip | by apply sublist_cons].
Qed.

Lemma take_mask_all_true m l :
  Forall (fun b => b = true) m -> length m = length l -> take_mask m l = l.
Proof.
  intros Hm. revert l. induction Hm as [|b m -> _ IH]; intros [|x l]; simpl;
    try done.
  intros [= Hlen]. by rewrite IH.
Qed.

Lemma take_mask_fmap {B} (f : A -> B) m l :
  f <$> take_mask m l = take_mask m (f <$> l).
Proof.
  revert l. induction m as [|b m IH]; intros [|x l]; simpl; try done.
  destruct b; simpl; by rewrite IH.
Qed.

Lemma take_mask_replicate {B} m (idx : list B) n (x : A) :
  length idx = n ->
  take_mask m (replicate n x) = replicate (length (take_mask m idx)) x.
Proof.
  revert idx n. induction m as [|b m IH]; intros idx n Hn; simpl.
  - done.
  - destruct idx as [|i idx]; simpl in *; subst n; simpl; [done|].
    destruct b; simpl; by rewrite (IH idx).
Qed.

(** The elements a test keeps satisfy it. *)
Lemma take_mask_test (f : A -> bool) l :
  Forall (fun x => f x = true) (take_mask (f <$> l) l).
Proof.
  induction l as [|x l IH]; simpl; [done|].
  destruct (f x) eqn:Hx; [by constructor | done].
Qed.

Lemma take_mask_test_all (f : A -> bool) l :
  Forall (fun x => f x = true) l -> take_mask (f <$> l) l = l.
Proof.
  induction 1 as [|x l Hx _ IH]; simpl; [done|]. rewrite Hx. f_equal. exact IH.
Qed.

End Masks.

Lemma Forall_sublist_of {A} (P : A -> Prop) (l k : list A) :
  Forall P l -> k `sublist_of` l -> Forall P k.
Proof.
  rewrite !Forall_forall. intros Hl Hsub x Hx. apply Hl.
  by eapply elem_of_sublist.
Qed.

Lemma take_mask_zip_with {A B C} (f : A -> B -> C) m (l : list A) (k : list B) :
  take_mask m (zip_with f l k) = zip_with f (take_mask m l) (take_mask m k).
Proof.
  revert l k. induction m as [|b m IH]; intros [|x l] [|y k]; simpl; try done.
  - by rewrite zip_with_nil_r.
  - destruct b; simpl; by rewrite IH.
Qed.

Section Duplicates.
Context {A : Type} `{EqDecision A}.
Implicit Types (l seen : list A).

Lemma duplicated_from_length seen l : length (duplicated_from seen l) = length l.
Proof. revert seen. induction l as [|x l IH]; intros seen; simpl; [done|]. by rewrite IH. Qed.

(** What [~duplicated()] keeps has no repetition, and nothing seen before. *)
Lemma kept_from_NoDup seen l :
  let kept := take_mask (negb <$> duplicated_from seen l) l in
  NoDup kept /\ (forall x, x ∈ kept -> x ∉ seen) /\ (forall x, x ∈ l -> x ∈ seen \/ x ∈ kept).
Proof.
  revert seen. induction l as [|x l IH]; intros seen; simpl.
  - split; [constructor|]. split; intros x Hx; by apply elem_of_nil in Hx.
  - destruct (IH (x :: seen)) as (Hnd & Hnot & Hall).
    destruct (bool_decide_reflect (x ∈ seen)) as [Hx|Hx]; simpl.
    + split; [done|]. split.
      * intros y Hy Hys. apply (Hnot y Hy). by right.
      * intros y [->|Hy]%elem_of_cons; [by left|].
        destruct (Hall y Hy) as [[->|?]%elem_of_cons|?]; auto.
    + split; [|split].
      * constructor; [|done]. intros Hin. apply (Hnot x Hin). by left.
      * intros y [->|Hy]%elem_of_cons; [done|].
        intros Hys. apply (Hnot y Hy). by right.
      * intros y [->|Hy]%elem_of_cons; [right; by left|].
        destruct (Hall y Hy) as [[->|?]%elem_of_cons|?]; auto.
        -- right. by left.
        -- right. by right.
Qed.

Lemma kept_NoDup l : NoDup (take_mask (negb <$> duplicated l) l).
Proof. apply (kept_from_NoDup [] l). Qed.

Lemma kept_elem_of l x : x ∈ take_mask (negb <$> duplicated l) l <-> x ∈ l.
Proof.
  split.
  - intros Hx. eapply elem_of_sublist; [done|apply take_mask_sublist].
  - intros Hx. destruct (kept_from_NoDup [] l) as (_ & _ & Hall).
    destruct (Hall x Hx) as [Hnil|?]; [by apply elem_of_nil in Hnil|done].
Qed.

Lemma duplicated_from_NoDup seen l :
  NoDup l -> (forall x, x ∈ l -> x ∉ seen) ->
  Forall (fun b => b = true) (negb <$> duplicated_from seen l).
Proof.
  intros Hnd. revert seen. induction Hnd as [|x l Hx Hnd IH]; intros seen Hs; simpl.
  - constructor.
  - constructor.
    + rewrite bool_decide_eq_false_2; [done|]. apply Hs. by left.
    + apply IH. intros y Hy [->|Hys]%elem_of_cons; [done|].
      apply (Hs y); [by right|done].
Qed.

Lemma duplicated_NoDup l :
  NoDup l -> Forall (fun b => b = true) (negb <$> duplicated l).
Proof.
  intros Hnd. apply duplicated_from_NoDup; [done|].
  intros x _ Hx. by apply elem_of_nil in Hx.
Qed.

Lemma duplicated_length l : length (duplicated l) = length l.
Proof. apply duplicated_from_length. Qed.

End Duplicates.

(** Keeping the first row of each key leaves rows with distinct keys. *)
Lemma kept_keys_NoDup {A B} `{EqDecision B} (k : A -> B) (l : list A) :
  NoDup (k <$> take_mask (negb <$> duplicated (k <$> l)) l).
Proof. rewrite take_mask_fmap. apply kept_NoDup. Qed.

Lemma Forall_zip_with_cons {A} (P : A -> Prop) (v : list A) (rs : list (list A)) :
  length v = length rs ->
  Forall (Forall P) (zip_with cons v rs) ->
  Forall P v /\ Forall (Forall P) rs.
Proof.
  revert rs. induction v as [|x v IH]; intros [|r rs]; simpl; try done.
  intros [= Hlen]. inversion 1 as [|? ? Hxr Hrest]; subst.
  inversion Hxr; subst. destruct (IH rs Hlen Hrest). split; by constructor.
Qed.

Section Rows.
Implicit Types (d : DataFrame) (m : list bool).

Lemma rows_take_rows m d : rows (take_rows m d) = take_mask m (rows d).
Proof.
  unfold rows, take_rows. simpl. induction (cols d) as [|c cs IH]; csimpl.
  - symmetry. by apply take_mask_replicate.
  - by rewrite IH, take_mask_zip_with.
Qed.

Lemma rows_length d : aligned d -> length (rows d) = length (index d).
Proof.
  unfold rows, aligned. induction 1 as [|c cs Hc _ IH]; simpl.
  - apply length_replicate.
  - rewrite length_zip_with, IH, Hc. lia.
Qed.

Lemma columns_take_rows m d : columns (take_rows m d) = columns d.
Proof. unfold columns, take_rows. simpl. by rewrite <- list_fmap_compose. Qed.

Lemma take_rows_all m d :
  aligned d -> Forall (fun b => b = true) m -> length m = length (index d) ->
  take_rows m d = d.
Proof.
  intros Hal Hm Hlen. destruct d as [idx cs]. unfold take_rows, aligned in *.
  simpl in *. f_equal; [by apply take_mask_all_true|].
  rewrite <- (list_fmap_id cs) at 2. apply Forall_fmap_ext.
  eapply Forall_impl; [exact Hal|].
  intros [n [t v]] Hc; simpl in *. by rewrite take_mask_all_true by congruence.
Qed.

Lemma aligned_take_rows m d : aligned d -> length m = length (index d) -> aligned (take_rows m d).
Proof.
  unfold aligned, take_rows. simpl. intros Hal Hlen.
  apply Forall_fmap. eapply Forall_impl; [done|]. simpl. intros c Hc.
  clear Hal. revert Hc Hlen. generalize (values c.2) (index d). clear.
  intros v idx. revert v idx. induction m as [|b m IH]; intros [|x v] [|i idx]; simpl; try done.
  intros [= Hv] [= Hm]. destruct b; simpl; by rewrite (IH v idx).
Qed.

(** With aligned columns, a property of all the cells of all the rows is
    one of all the cells of all the columns. *)
Lemma rows_cells (P : cell -> Prop) d :
  aligned d ->
  Forall (Forall P) (rows d) ->
  Forall (fun c => Forall P (values c.2)) (cols d).
Proof.
  unfold rows, aligned. generalize (length (index d)) as n.
  intros n Hal. induction Hal as [|c cs Hc Hal IH]; simpl; [done|].
  set (rs := foldr _ _ cs).
  assert (length rs = n) as Hrs.
  { subst rs. clear -Hal. induction Hal as [|c cs Hc _ IH]; simpl.
    - apply length_replicate.
    - rewrite length_zip_with, IH, Hc. lia. }
  intros Hz.
  destruct (Forall_zip_with_cons P (values c.2) rs) as [Hv Hr]; [congruence|done|].
  constructor; [done|by apply IH].
Qed.

Lemma cells_rows (P : cell -> Prop) d :
  Forall (fun c => Forall P (values c.2)) (cols d) ->
  Forall (Forall P) (rows d).
Proof.
  unfold rows. generalize (length (index d)) as n.
  intros n. induction 1 as [|c cs Hc _ IH]; simpl.
  - apply Forall_replicate. constructor.
  - revert IH. generalize (foldr (fun c rs => zip_with cons (values c.2) rs) (replicate n []) cs).
    revert Hc. generalize (values c.2). clear.
    intros v Hv. induction Hv as [|x v Hx _ IH]; intros [|r rs]; simpl; try done.
    inversion 1; subst. constructor; [by constructor|by apply IH].
Qed.

End Rows.

(** * Running [clean_dataframe] on a store *)

Section Run.
Variable datetime_of : list cell -> cell -> option Z.
Variable parse_numeric : string -> option float64.

#[local] Abbreviation clean_dataframe := (clean_dataframe datetime_of parse_numeric).
#[local] Abbreviation clean := (clean datetime_of parse_numeric).
#[local] Abbreviation stages := (stages datetime_of parse_numeric).
#[local] Abbreviation infer_types := (infer_types datetime_of parse_numeric).
#[local] Abbreviation convert_dates := (convert_dates datetime_of).
#[local] Abbreviation convert_numeric := (convert_numeric parse_numeric).

Implicit Types (h : gmap loc DataFrame) (l : loc) (d t : DataFrame).

Lemma bind_run {A B} (m : M A) (f : A -> M B) h x h1 :
  m h = (inr x, h1) -> (m ≫= f) h = f x h1.
Proof. unfold mbind, M_bind. by intros ->. Qed.

Lemma bind_raise {A B} (m : M A) (f : A -> M B) h e h1 :
  m h = (inl e, h1) -> (m ≫= f) h = (inl e, h1).
Proof. unfold mbind, M_bind. by intros ->. Qed.

Lemma read_run {A} (f : DataFrame -> A) l h d :
  h !! l = Some d -> read f l h = (inr (f d), h).
Proof. unfold read. by intros ->. Qed.

Lemma update_run (f : DataFrame -> DataFrame) l h d :
  h !! l = Some d -> update (fun d => inr (f d)) l h = (inr (), <[l := f d]> h).
Proof. unfold update. by intros ->. Qed.

Lemma new_run (f : DataFrame -> DataFrame) l h d :
  h !! l = Some d ->
  new f l h = (inr (fresh (dom h)), <[fresh (dom h) := f d]> h).
Proof. unfold new. by intros ->. Qed.

Lemma fresh_lookup h : h !! fresh (dom h) = None.
Proof. apply not_elem_of_dom, is_fresh. Qed.

(** A loop over the frame at [l] leaves a frame at [l], the one the loop
    on frames computes when nothing is raised. *)
Lemma for_run names (body : string -> DataFrame -> exn + DataFrame) l h d :
  h !! l = Some d ->
  exists d',
    for_ names (fun col => update (body col) l) h
    = (match for_each names body d with inr _ => inr () | inl e => inl e end,
       <[l := d']> h)
    /\ (forall d'', for_each names body d = inr d'' -> d' = d'').
Proof.
  revert h d. induction names as [|col names IH]; intros h d Hd; simpl.
  - exists d. split; [|by intros ? [= <-]].
    unfold mret, M_ret. by rewrite insert_id.
  - unfold mbind at 1, M_bind. unfold update at 1. rewrite Hd.
    destruct (body col d) as [e|d1] eqn:Hb; simpl.
    + exists d. split; [|done]. by rewrite insert_id.
    + destruct (IH (<[l := d1]> h) d1) as (d' & Hrun & Hd'); [apply lookup_insert_eq|].
      exists d'. split; [|done]. rewrite Hrun. by rewrite insert_insert_eq.
Qed.

Lemma extends_insert l t0 h h' d :
  extends l t0 h h' -> is_Some (h !! l) -> extends l t0 h (<[fresh (dom h') := d]> h').
Proof.
  intros [Hl Hframe] Hsome.
  assert (fresh (dom h') ≠ l) as Hne.
  { intros Heq. pose proof (fresh_lookup h') as Hf. rewrite Heq, Hl in Hf. done. }
  split.
  - by rewrite lookup_insert_ne.
  - intros l' Hl' Hin. rewrite lookup_insert_ne; [by apply Hframe|].
    intros Heq. pose proof (fresh_lookup h') as Hf.
    rewrite Heq, (Hframe l' Hl' Hin) in Hf. rewrite Hf in Hin. by destruct Hin.
Qed.

Lemma extends_update l t0 h h' l1 d :
  extends l t0 h h' -> l1 ≠ l -> h !! l1 = None -> extends l t0 h (<[l1 := d]> h').
Proof.
  intros [Hl Hframe] Hne Hnone. split.
  - by rewrite lookup_insert_ne.
  - intros l' Hl' Hin. rewrite lookup_insert_ne; [by apply Hframe|].
    intros <-. rewrite Hnone in Hin. by destruct Hin.
Qed.

Lemma extends_fresh l t0 h h' :
  extends l t0 h h' -> is_Some (h !! l) ->
  fresh (dom h') ≠ l /\ h !! fresh (dom h') = None.
Proof.
  intros [Hl Hframe] Hsome.
  assert (fresh (dom h') ≠ l) as Hne.
  { intros Heq. pose proof (fresh_lookup h') as Hf. rewrite Heq, Hl in Hf. done. }
  split; [done|].
  destruct (h !! fresh (dom h')) eqn:Hh; [|done].
  pose proof (fresh_lookup h') as Hf.
  rewrite (Hframe _ Hne) in Hf by (by rewrite Hh). congruence.
Qed.

Theorem clean_dataframe_run h l t :
  h !! l = Some t ->
  exists r h',
    clean_dataframe l h = (r, h')
    /\ extends l (set_columns (Py.strip <$> columns t) t) h h'
    /\ match r with
       | inr l' => h !! l' = None /\ exists out, stages t = inr out /\ h' !! l' = Some out
       | inl e => stages t = inl e
       end.
Proof.
  intros Ht. unfold clean_dataframe.
  assert (is_Some (h !! l)) as Hsome by (by rewrite Ht).
  set (t0 := set_columns (Py.strip <$> columns t) t).
  (* df.columns = df.columns.str.strip() *)
  erewrite bind_run by (by apply read_run).
  erewrite bind_run by (by apply update_run). fold t0.
  set (h0 := <[l := t0]> h).
  assert (extends l t0 h h0) as E0.
  { split; [apply lookup_insert_eq|]. intros l' Hl' _. by apply lookup_insert_ne. }
  (* df = df.loc[:, ~df.columns.duplicated()] *)
  erewrite bind_run by (apply read_run, E0).
  erewrite bind_run by (apply new_run, E0).
  set (d1 := loc_columns _ t0). set (l1 := fresh (dom h0)).
  destruct (extends_fresh _ _ _ _ E0 Hsome) as [Hl1 Hl1'].
  pose proof (extends_insert _ _ _ _ d1 E0 Hsome) as E1. fold l1 in E1, Hl1, Hl1'.
  (* df.columns = df.columns.str.replace(...) *)
  erewrite bind_run by (apply read_run, lookup_insert_eq).
  erewrite bind_run by (apply update_run, lookup_insert_eq).
  rewrite insert_insert_eq.
  set (d1' := set_columns _ d1).
  assert (extends l t0 h (<[l1 := d1']> h0)) as E1' by (by apply extends_update).
  clear E1. set (h1 := <[l1 := d1']> h0) in *.
  (* df = df.applymap(clean_cell) *)
  erewrite bind_run by (apply new_run, lookup_insert_eq).
  set (d2 := applymap clean_cell d1'). set (l2 := fresh (dom h1)).
  destruct (extends_fresh _ _ _ _ E1' Hsome) as [Hl2 Hl2'].
  pose proof (extends_insert _ _ _ _ d2 E1' Hsome) as E2. fold l2 in E2, Hl2, Hl2'.
  set (h2 := <[l2 := d2]> h1) in *.
  assert (d1' = normalize_names t) as Hd1' by done.
  unfold stages, infer_types. rewrite <- Hd1'. fold d2.
  (* the first loop *)
  erewrite bind_run by (apply read_run, lookup_insert_eq).
  destruct (for_run (select_dtypes_object d2) convert_dates l2 h2 d2)
    as (d3 & Hrun & Hd3); [apply lookup_insert_eq|].
  destruct (for_each (select_dtypes_object d2) convert_dates d2) as [e|d3'] eqn:Hloop1.
  { erewrite bind_raise by exact Hrun. eexists _, _. split; [done|].
    split; [|done]. by apply extends_update. }
  erewrite bind_run by exact Hrun. rewrite <- (Hd3 d3' eq_refl). clear Hd3 Hrun.
  subst h2. rewrite insert_insert_eq.
  assert (extends l t0 h (<[l2 := d3]> h1)) as E3 by (by apply extends_update).
  clear E2. set (h3 := <[l2 := d3]> h1) in *.
  (* the second loop *)
  erewrite bind_run by (apply read_run, lookup_insert_eq).
  destruct (for_run (select_dtypes_object d3) convert_numeric l2 h3 d3)
    as (d4 & Hrun & Hd4); [apply lookup_insert_eq|].
  simpl.
  destruct (for_each (select_dtypes_object d3) convert_numeric d3) as [e|d4'] eqn:Hloop2.
  { erewrite bind_raise by exact Hrun. eexists _, _. split; [done|].
    split; [|done]. by apply extends_update. }
  erewrite bind_run by exact Hrun. rewrite <- (Hd4 d4' eq_refl). clear Hd4 Hrun.
  subst h3. rewrite insert_insert_eq.
  (* df.dropna(axis=1, how='all', inplace=True) *)
  erewrite bind_run by (apply update_run, lookup_insert_eq).
  rewrite insert_insert_eq.
  set (d5 := dropna_columns_all d4).
  assert (extends l t0 h (<[l2 := d5]> h1)) as E5 by (by apply extends_update).
  clear E3. set (h5 := <[l2 := d5]> h1) in *.
  (* df = df.drop_duplicates() *)
  erewrite bind_run by (apply new_run, lookup_insert_eq).
  set (d6 := drop_duplicates d5). set (l3 := fresh (dom h5)).
  pose proof (extends_insert _ _ _ _ d6 E5 Hsome) as E6. fold l3 in E6.
  set (h6 := <[l3 := d6]> h5) in *.
  (* df = df.dropna() *)
  erewrite bind_run by (apply new_run, lookup_insert_eq).
  set (d7 := dropna d6). set (l4 := fresh (dom h6)).
  destruct (extends_fresh _ _ _ _ E6 Hsome) as [Hl4 Hl4'].
  pose proof (extends_insert _ _ _ _ d7 E6 Hsome) as E7. fold l4 in E7, Hl4, Hl4'.
  eexists _, _. split; [done|]. split; [done|]. split; [done|].
  exists d7. split; [done|]. apply lookup_insert_eq.
Qed.

(** [clean] computes the composition of the four stages. *)
Theorem clean_stages t : clean t = stages t.
Proof.
  unfold clean.
  destruct (clean_dataframe_run {[ 1%positive := t ]} 1%positive t)
    as (r & h' & -> & _ & Hr); [apply lookup_singleton_eq|].
  destruct r as [e|l'].
  - by rewrite Hr.
  - destruct Hr as (_ & out & -> & ->). done.
Qed.

End Run.

(** * The cell normaliser *)

Lemma lower_sentinel x : x ∈ sentinels -> Py.lower x = x.
Proof.
  unfold sentinels. rewrite !elem_of_cons, elem_of_nil.
  intros [->|[->|[->|[]]]]; reflexivity.
Qed.

Lemma clean_cell_Str s :
  let r := Py.re_sub_runs Py.isspace " " (Py.strip s) in
  clean_cell (Str s) = if bool_decide (Py.lower r ∈ sentinels) then NA else Str r.
Proof. done. Qed.

Lemma clean_cell_idemp c : clean_cell (clean_cell c) = clean_cell c.
Proof.
  destruct c as [| | |s| | |]; try done.
  rewrite clean_cell_Str. simpl. case_bool_decide as Hs; [done|].
  rewrite clean_cell_Str. simpl.
  pose proof (PyFacts.collapse_strip_normalized s) as Hn.
  rewrite (PyFacts.normalized_strip _ Hn), (PyFacts.normalized_sub_runs _ Hn).
  by rewrite bool_decide_eq_false_2.
Qed.

(** C7.  On a string the cell normaliser strips the white space at both
    ends and collapses every run of white space to one space, so that the
    result [r] is the words of the string joined by single spaces, with
    no leading, trailing or repeated white space and no white space
    other than the space; the cell becomes the missing marker
    exactly when [r] equals "null", "unknown" or "error" up to case, and
    the cell [r] otherwise.  "NULL", "Unknown" and " error " become
    missing, "nullable" does not, "a   b<TAB> c" becomes "a b c", and a
    cell that is not a string is returned as it is. *)
Theorem clean_cell_spec :
  (forall s,
     let r := Py.re_sub_runs Py.isspace " " (Py.strip s) in
     r = Py.join (Py.split s)
     /\ Py.normalized r = true
     /\ (clean_cell (Str s) = NA <-> exists x, x ∈ sentinels /\ eq_nocase r x)
     /\ ((forall x, x ∈ sentinels -> ~ eq_nocase r x) -> clean_cell (Str s) = Str r))
  /\ clean_cell (Str "NULL") = NA
  /\ clean_cell (Str "Unknown") = NA
  /\ clean_cell (Str " error ") = NA
  /\ clean_cell (Str "nullable") = Str "nullable"
  /\ clean_cell (Str (String "a" (String " " (String " " (String " " (String "b"
       (String (ascii_of_nat 9) (String " " (String "c" EmptyString))))))))) = Str "a b c"
  /\ (forall c, (forall s, c <> Str s) -> clean_cell c = c).
Proof.
  split; [|repeat split; try reflexivity].
  - intros s r. split; [apply PyFacts.collapse_strip_words|].
    split; [apply PyFacts.collapse_strip_normalized|].
    rewrite clean_cell_Str. fold r. unfold eq_nocase. split; [split|].
    + case_bool_decide as Hs; [|done]. intros _. exists (Py.lower r).
      split; [done|]. symmetry. by apply lower_sentinel.
    + intros (x & Hx & Heq). rewrite bool_decide_eq_true_2; [done|].
      rewrite Heq, lower_sentinel; done.
    + intros Hno. rewrite bool_decide_eq_false_2; [done|].
      intros Hin. apply (Hno _ Hin). by rewrite (lower_sentinel _ Hin).
  - intros c Hc. destruct c; try done. by destruct (Hc s).
Qed.

Lemma take_mask_test_elem {A} (f : A -> bool) (l : list A) x :
  x ∈ l -> f x = true -> x ∈ take_mask (f <$> l) l.
Proof.
  induction 1 as [x l|x y l _ IH]; intros Hx; simpl.
  - rewrite Hx. by left.
  - destruct (f y); [right|]; by apply IH.
Qed.

(** * The type inferencer, column by column *)

Lemma ratio_ge_80_rate parsed non_missing :
  0 < non_missing ->
  ratio_ge_80 parsed non_missing = true <-> (8 # 10 <= parse_rate parsed non_missing)%Q.
Proof.
  intros Hn. unfold ratio_ge_80, parse_rate, Qle. simpl.
  rewrite Nat.leb_le.
  replace (Z.pos (Pos.of_nat non_missing)) with (Z.of_nat non_missing); [lia|].
  destruct non_missing as [|k]; [lia|].
  by rewrite <- Pos.of_nat_succ, Zpos_P_of_succ_nat, Nat2Z.inj_succ.
Qed.

(** In double precision 4/5 is the double nearest to 0.8, and the
    quotients of smaller counts fall on the side of 0.8 they belong
    to. *)
Lemma ratio_ge_80_double_exact : ratio_tests_agree 400 = true.
Proof. vm_compute. reflexivity. Qed.

Lemma ratio_ge_80_double_agrees parsed non_missing :
  0 < non_missing <= 400 -> parsed <= non_missing ->
  ratio_ge_80_double parsed non_missing = ratio_ge_80 parsed non_missing.
Proof.
  intros [Hpos Hle] Hp. destruct non_missing as [|n]; [lia|].
  pose proof ratio_ge_80_double_exact as Hall. unfold ratio_tests_agree in Hall.
  rewrite forallb_forall in Hall.
  assert (In n (seq 0 400)) as Hn by (apply in_seq; lia).
  specialize (Hall n Hn). rewrite forallb_forall in Hall.
  apply eqb_prop, Hall, in_seq. lia.
Qed.

Section Columns.
Variable datetime_of : list cell -> cell -> option Z.
Variable parse_numeric : string -> option float64.

#[local] Abbreviation to_datetime_series := (to_datetime_series datetime_of).
#[local] Abbreviation to_numeric_series := (to_numeric_series parse_numeric).
#[local] Abbreviation convert_dates_series := (convert_dates_series datetime_of).
#[local] Abbreviation convert_dates := (convert_dates datetime_of).
#[local] Abbreviation convert_numeric := (convert_numeric parse_numeric).
#[local] Abbreviation numeric_of := (numeric_of parse_numeric).

Implicit Types (d : DataFrame) (s : Series) (col : string).

(** ** One column of a given name *)

Lemma getitem_Column d col s :
  getitem d col = inr (Column s) ->
  exists c, filter (fun c => c.1 = col) (cols d) = [c] /\ c.2 = s.
Proof.
  unfold getitem. destruct (filter _ (cols d)) as [|c [|c' cs]]; try done.
  intros [= <-]. eauto.
Qed.

Lemma getitem_Column_elem_of d col s :
  getitem d col = inr (Column s) -> (col, s) ∈ cols d.
Proof.
  intros (c & Hf & <-)%getitem_Column.
  assert (c ∈ filter (fun c => c.1 = col) (cols d)) as Hc by (rewrite Hf; by left).
  apply list_elem_of_filter in Hc as [<- Hc]. by destruct c.
Qed.

Lemma getitem_Column_only d col s c :
  getitem d col = inr (Column s) -> c ∈ cols d -> c.1 = col -> c.2 = s.
Proof.
  intros (c0 & Hf & <-)%getitem_Column Hc Hn.
  assert (c ∈ filter (fun c => c.1 = col) (cols d)) as Hin
    by (by apply list_elem_of_filter).
  rewrite Hf in Hin. by apply list_elem_of_singleton in Hin as ->.
Qed.

Lemma setitem_same d col s : getitem d col = inr (Column s) -> setitem d col s = d.
Proof.
  intros Hg. destruct d as [idx cs]. unfold setitem. simpl. f_equal.
  rewrite <- (list_fmap_id cs) at 2. apply Forall_fmap_ext, Forall_forall.
  intros c Hc. case_decide as Hn; [|done].
  rewrite <- (getitem_Column_only _ _ _ c Hg Hc Hn). by destruct c.
Qed.

Lemma setitem_inv d col s s' :
  getitem d col = inr (Column s) -> setitem d col s' = d -> s' = s.
Proof.
  intros Hg Heq. pose proof (getitem_Column_elem_of _ _ _ Hg) as Hin.
  destruct d as [idx cs]. unfold setitem in Heq. simpl in *.
  injection Heq as Heq. rewrite <- (list_fmap_id cs) in Heq at 2.
  apply Forall_fmap_ext in Heq. rewrite Forall_forall in Heq.
  specialize (Heq _ Hin). simpl in Heq. rewrite decide_True in Heq by done.
  by injection Heq.
Qed.

Lemma convert_dates_Column d col s :
  getitem d col = inr (Column s) ->
  convert_dates col d = inr (setitem d col (convert_dates_series s)).
Proof.
  intros Hg. unfold convert_dates, convert_dates_series.
  rewrite Hg. simpl.
  destruct (_ && _); simpl; [done|]. by rewrite setitem_same.
Qed.

Lemma convert_numeric_Column d col s :
  getitem d col = inr (Column s) ->
  convert_numeric col d = inr (setitem d col (to_numeric_series s)).
Proof. intros Hg. unfold convert_numeric. by rewrite Hg. Qed.

(** ** The date threshold *)

Lemma to_datetime_series_cells s :
  Forall2 (fun c c' =>
             (c' = NaT /\ (isna c = true \/ datetime_of (values s) c = None))
             \/ (exists t, c' = Timestamp t /\ isna c = false
                           /\ datetime_of (values s) c = Some t))
          (values s) (values (to_datetime_series s)).
Proof.
  unfold to_datetime_series. simpl.
  apply Forall2_fmap_r, Forall2_same_length_lookup_2; [done|].
  intros i c c' Hc Hc'. rewrite Hc in Hc'. injection Hc' as <-. simpl.
  destruct (isna c); [left; auto|].
  destruct (datetime_of (values s) c) as [t|]; [right; eauto|left; auto].
Qed.

(** C5.  The first loop visits a text column [s] of the frame, with
    [n] cells that are not missing, [p] of which parse as dates.  When
    [n > 0] the column is replaced by the parsed column (a datetime
    column where each cell that did not parse is the missing datetime)
    exactly when [p / n >= 0.8], and is left as it is exactly when
    [p / n < 0.8]; so 4 of 5 convert and fewer than 4 of 5 do not.  When
    [n = 0] the column is left as it is. *)
Theorem date_threshold d col s :
  getitem d col = inr (Column s) -> dtype s = object ->
  let converted := to_datetime_series s in
  let n := notna_sum s in
  let p := notna_sum converted in
  (0 < n ->
     (convert_dates col d = inr (setitem d col converted)
      <-> (8 # 10 <= parse_rate p n)%Q)
     /\ (convert_dates col d = inr d <-> (parse_rate p n < 8 # 10)%Q))
  /\ (n = 5 -> p = 4 -> convert_dates col d = inr (setitem d col converted))
  /\ (n = 5 -> p < 4 -> convert_dates col d = inr d)
  /\ (n = 0 -> convert_dates col d = inr d)
  /\ dtype converted = datetime64
  /\ Forall2 (fun c c' =>
                (c' = NaT /\ (isna c = true \/ datetime_of (values s) c = None))
                \/ (exists t, c' = Timestamp t /\ isna c = false
                              /\ datetime_of (values s) c = Some t))
             (values s) (values converted).
Proof.
  intros Hg Hobj converted n p.
  assert (setitem d col converted <> d) as Hne.
  { intros Heq. apply (setitem_inv _ _ _ _ Hg) in Heq.
    assert (dtype converted = dtype s) as Hd by (by rewrite Heq).
    rewrite Hobj in Hd. done. }
  assert (forall b, ((0 <? n)%nat && ratio_ge_80 p n) = b ->
            convert_dates col d = inr (if b then setitem d col converted else d)) as Hrun.
  { intros b <-. rewrite (convert_dates_Column _ _ _ Hg).
    unfold convert_dates_series. fold converted n p.
    destruct (_ && _); [done|]. by rewrite (setitem_same _ _ _ Hg). }
  assert (0 < n -> ratio_ge_80 p n = true -> convert_dates col d = inr (setitem d col converted)) as Hyes.
  { intros Hn Hr. apply (Hrun true). rewrite Hr, andb_true_r. by apply Nat.ltb_lt. }
  assert (ratio_ge_80 p n = false -> convert_dates col d = inr d) as Hno.
  { intros Hr. apply (Hrun false). by rewrite Hr, andb_false_r. }
  split; [|split; [|split; [|split; [|split]]]].
  - intros Hn. pose proof (ratio_ge_80_rate p n Hn) as Hrate.
    destruct (ratio_ge_80 p n) eqn:Hr.
    + pose proof (proj1 Hrate eq_refl) as Hge. rewrite (Hyes Hn eq_refl). split.
      * split; [done|by intros _].
      * split; [by intros [= ?]|]. intros Hlt. by apply Qlt_not_le in Hlt.
    + assert (parse_rate p n < 8 # 10)%Q as Hlt.
      { apply Qnot_le_lt. intros Hge. apply Hrate in Hge. done. }
      rewrite (Hno eq_refl). split.
      * split; [intros [= ?]; by destruct Hne|]. intros Hge. by apply Qlt_not_le in Hlt.
      * split; [done|by intros _].
  - intros Hn5 Hp4. apply Hyes; [lia|]. by rewrite Hn5, Hp4.
  - intros Hn5 Hp4. apply Hno. rewrite Hn5. unfold ratio_ge_80. apply Nat.leb_gt. lia.
  - intros Hn0. apply (Hrun false). by rewrite Hn0.
  - done.
  - apply to_datetime_series_cells.
Qed.

(** ** Numeric inference *)

Lemma numeric_of_isna c c' : numeric_of c = Some c' -> isna c = true -> isna c' = true.
Proof.
  destruct c as [| | |x| | |]; simpl; try done; try by intros [= <-].
Qed.

Lemma numeric_of_blank : numeric_of (Str "") = Some NaN.
Proof. reflexivity. Qed.

(** What the numeric step makes missing: a missing cell, the empty
    string, and a string the parser reads as [nan]. *)
Lemma numeric_of_missing c c' :
  numeric_of c = Some c' -> isna c' = true ->
  isna c = true \/ c = Str "" \/ exists x, c = Str x /\ parse_numeric x = Some Nan.
Proof.
  destruct c as [| | |x| | |]; simpl; try (intros [= <-]; auto; fail); try done.
  destruct x as [|a x]; [auto|].
  destruct (parse_numeric (String a x)) as [[|y]|] eqn:Hp; simpl; try done.
  - intros _ _. right. right. by exists (String a x).
  - by intros [= <-].
Qed.

Lemma numeric_of_number c c' :
  numeric_of c = Some c' -> c' = NaN \/ is_number c' = true.
Proof.
  destruct c as [| | |x| | |]; simpl; try (intros [= <-]; auto; fail); try done.
  destruct x as [|a x]; [intros [= <-]; auto|].
  destruct (parse_numeric (String a x)) as [[|y]|]; simpl; [| |done]; intros [= <-]; auto.
Qed.

Lemma number_of_isna c : isna (number_of c) = isna c.
Proof. by destruct c. Qed.

(** The cells of the column [to_numeric] returns, when it returns
    another column than [s]. *)
Lemma to_numeric_series_cells s vs :
  mapM numeric_of (values s) = Some vs ->
  dtype (to_numeric_series s) <> object
  /\ Forall (fun c => c = NaN \/ is_number c = true) (values (to_numeric_series s))
  /\ Forall2 (fun c c' => exists v, numeric_of c = Some v /\ (c' = v \/ c' = number_of v))
       (values s) (values (to_numeric_series s)).
Proof.
  intros Hm. unfold to_numeric_series. rewrite Hm. apply mapM_Some in Hm.
  assert (Forall (fun c => c = NaN \/ is_number c = true) vs) as Hnum.
  { clear -Hm. induction Hm as [|c c' l l' Hc _ IH]; constructor; [|done].
    by eapply numeric_of_number. }
  destruct vs as [|v vs].
  { split; [done|]. split; [done|]. cbn [values]. by inversion Hm. }
  destruct (forallb is_bool (v :: vs)); cbn [dtype values].
  - split; [done|]. split; [done|].
    eapply Forall2_impl; [exact Hm|]. intros c c' Hc. exists c'. auto.
  - split; [done|]. split.
    + apply Forall_fmap. eapply Forall_impl; [exact Hnum|].
      intros c [->|Hc]; [by left|right]. by destruct c.
    + apply Forall2_fmap_r. eapply Forall2_impl; [exact Hm|].
      intros c c' Hc. exists c'. auto.
Qed.

(** C6, as the code has it.  [to_numeric] on a text column is
    whole-column: when one cell holds no number, the column returned is
    the text column itself, no cell of it coerced; when every cell
    holds one, the column returned is not a text column and each cell
    is the number read in the cell it replaces.  A missing cell is read
    as [nan], and so is the empty string, which was a value: a cell is
    missing afterwards only if it was missing before, was the empty
    string, or was a string the parser reads as [nan].  The second loop
    assigns the column returned to the name it visits. *)
Theorem numeric_all_or_nothing s :
  dtype s = object ->
  let s' := to_numeric_series s in
  ((exists c, c ∈ values s /\ numeric_of c = None) -> s' = s)
  /\ ((forall c, c ∈ values s -> is_Some (numeric_of c)) ->
        dtype s' <> object
        /\ Forall (fun c => c = NaN \/ is_number c = true) (values s')
        /\ Forall2 (fun c c' => exists v, numeric_of c = Some v
                                          /\ (c' = v \/ c' = number_of v))
             (values s) (values s'))
  /\ (s' = s \/ (dtype s' <> object
                 /\ Forall (fun c => c = NaN \/ is_number c = true) (values s')))
  /\ Forall2 (fun c c' => isna c = true -> isna c' = true) (values s) (values s')
  /\ Forall2 (fun c c' =>
                isna c' = true ->
                isna c = true \/ c = Str ""
                \/ exists x, c = Str x /\ parse_numeric x = Some Nan)
       (values s) (values s')
  /\ (forall i, values s !! i = Some (Str "") -> s' = s \/ values s' !! i = Some NaN)
  /\ (forall d col, getitem d col = inr (Column s) ->
        convert_numeric col d = inr (setitem d col s')).
Proof.
  intros Hobj s'. subst s'.
  assert (forall d col, getitem d col = inr (Column s) ->
            convert_numeric col d = inr (setitem d col (to_numeric_series s))) as Hloop.
  { intros d col Hg. by rewrite (convert_numeric_Column _ _ _ Hg). }
  destruct (mapM numeric_of (values s)) as [vs|] eqn:Hm.
  - destruct (to_numeric_series_cells s vs Hm) as (Hdt & Hnum & Hrel).
    apply mapM_Some in Hm.
    split; [|split; [|split; [|split; [|split; [|split]]]]]; [| | | | | |exact Hloop].
    + intros (c & Hc & Hnone). exfalso.
      apply list_elem_of_lookup in Hc as [i Hi].
      destruct (Forall2_lookup_l _ _ _ _ _ Hm Hi) as (c' & _ & Hsome). congruence.
    + done.
    + by right.
    + eapply Forall2_impl; [exact Hrel|]. intros c c' (v & Hv & [->| ->]) Hc.
      * by eapply numeric_of_isna.
      * rewrite number_of_isna. by eapply numeric_of_isna.
    + eapply Forall2_impl; [exact Hrel|]. intros c c' (v & Hv & [->| ->]) Hc.
      * by eapply numeric_of_missing.
      * rewrite number_of_isna in Hc. by eapply numeric_of_missing.
    + intros i Hi. right.
      destruct (Forall2_lookup_l _ _ _ _ _ Hrel Hi) as (c' & -> & v & Hv & Hc').
      rewrite numeric_of_blank in Hv. injection Hv as <-. by destruct Hc' as [->| ->].
  - assert (to_numeric_series s = s) as Hs by (unfold to_numeric_series; by rewrite Hm).
    rewrite Hs in *.
    split; [|split; [|split; [|split; [|split; [|split]]]]]; [| | | | | |exact Hloop].
    + done.
    + intros Hall. exfalso.
      assert (is_Some (mapM numeric_of (values s))) as [? ?]; [|congruence].
      apply mapM_is_Some, Forall_forall. done.
    + by left.
    + apply Forall2_same_length_lookup_2; [done|]. intros i c c' Hc Hc'. congruence.
    + apply Forall2_same_length_lookup_2; [done|]. intros i c c' Hc Hc' Hna.
      left. congruence.
    + intros i _. by left.
Qed.

End Columns.

(** * Shapes: names, row labels and alignment through the stages *)

Section Shapes.
Implicit Types (d t : DataFrame) (m : list bool).

Lemma columns_set_columns (f : string -> string) d :
  columns (set_columns (f <$> columns d) d) = f <$> columns d.
Proof.
  unfold columns, set_columns. simpl. induction (cols d) as [|c cs IH]; csimpl; [done|].
  by rewrite IH.
Qed.

Lemma set_columns_fmap (f : string -> string) d :
  set_columns (f <$> columns d) d = mkFrame (index d) ((fun c => (f c.1, c.2)) <$> cols d).
Proof.
  unfold columns, set_columns. f_equal. induction (cols d) as [|c cs IH]; csimpl; [done|].
  by rewrite IH.
Qed.

Lemma aligned_set_columns (f : string -> string) d :
  aligned d -> aligned (set_columns (f <$> columns d) d).
Proof.
  rewrite set_columns_fmap. unfold aligned. simpl. intros Hal.
  apply Forall_fmap. eapply Forall_impl; [exact Hal|]. done.
Qed.

Lemma set_columns_id (f : string -> string) d :
  Forall (fun n => f n = n) (columns d) -> set_columns (f <$> columns d) d = d.
Proof.
  rewrite set_columns_fmap. destruct d as [idx cs]. unfold columns. simpl.
  intros Hf. f_equal. rewrite <- (list_fmap_id cs) at 2.
  apply Forall_fmap_ext. apply Forall_fmap in Hf.
  eapply Forall_impl; [exact Hf|]. intros [n s] Hn. simpl in *. by rewrite Hn.
Qed.

Lemma columns_loc_columns m d : columns (loc_columns m d) = take_mask m (columns d).
Proof. unfold columns, loc_columns. simpl. apply take_mask_fmap. Qed.

Lemma aligned_loc_columns m d : aligned d -> aligned (loc_columns m d).
Proof.
  unfold aligned, loc_columns. simpl. intros Hal.
  eapply Forall_sublist_of; [exact Hal|]. apply take_mask_sublist.
Qed.

Lemma columns_applymap f d : columns (applymap f d) = columns d.
Proof. unfold columns, applymap. simpl. by rewrite <- list_fmap_compose. Qed.

Lemma aligned_applymap f d : aligned d -> aligned (applymap f d).
Proof.
  unfold aligned, applymap. simpl. intros Hal. apply Forall_fmap.
  eapply Forall_impl; [exact Hal|]. intros c Hc. simpl. by rewrite length_fmap.
Qed.

Lemma columns_setitem d col s : columns (setitem d col s) = columns d.
Proof.
  unfold columns, setitem. simpl. rewrite <- list_fmap_compose.
  apply list_fmap_ext. intros i c _. simpl. by case_decide.
Qed.

Lemma aligned_setitem d col s :
  aligned d -> length (values s) = length (index d) -> aligned (setitem d col s).
Proof.
  unfold aligned, setitem. simpl. intros Hal Hs. apply Forall_fmap.
  eapply Forall_impl; [exact Hal|]. intros c Hc. simpl. by case_decide.
Qed.

Lemma columns_dropna_columns_all d :
  columns (dropna_columns_all d) `sublist_of` columns d.
Proof.
  unfold columns, dropna_columns_all. simpl. apply fmap_sublist, sublist_filter.
Qed.

Lemma aligned_dropna_columns_all d : aligned d -> aligned (dropna_columns_all d).
Proof.
  unfold aligned, dropna_columns_all. simpl. intros Hal.
  eapply Forall_sublist_of; [exact Hal|]. apply sublist_filter.
Qed.

Lemma columns_drop_duplicates d : columns (drop_duplicates d) = columns d.
Proof. unfold drop_duplicates. destruct (empty d); [done|apply columns_take_rows]. Qed.

Lemma aligned_drop_duplicates d : aligned d -> aligned (drop_duplicates d).
Proof.
  intros Hal. unfold drop_duplicates. destruct (empty d); [done|].
  apply aligned_take_rows; [done|].
  by rewrite length_fmap, duplicated_length, length_fmap, rows_length.
Qed.

Lemma columns_dropna d : columns (dropna d) = columns d.
Proof. apply columns_take_rows. Qed.

Lemma aligned_dropna d : aligned d -> aligned (dropna d).
Proof.
  intros Hal. apply aligned_take_rows; [done|]. by rewrite length_fmap, rows_length.
Qed.

Lemma cols_nil_take_rows m d : cols d = [] -> cols (take_rows m d) = [].
Proof. unfold take_rows. simpl. by intros ->. Qed.

Lemma columns_nil d : columns d = [] <-> cols d = [].
Proof. unfold columns. split; [apply fmap_nil_inv|by intros ->]. Qed.

End Shapes.

(** * The two loops on a frame *)

Section Loops.
Variable datetime_of : list cell -> cell -> option Z.
Variable parse_numeric : string -> option float64.

#[local] Abbreviation to_datetime_series := (to_datetime_series datetime_of).
#[local] Abbreviation to_numeric_series := (to_numeric_series parse_numeric).
#[local] Abbreviation convert_dates_series := (convert_dates_series datetime_of).
#[local] Abbreviation convert_dates := (convert_dates datetime_of).
#[local] Abbreviation convert_numeric := (convert_numeric parse_numeric).
#[local] Abbreviation infer_types := (infer_types datetime_of parse_numeric).

Implicit Types (d : DataFrame) (s : Series) (col : string).

Lemma same_shape_refl d : same_shape d d.
Proof. done. Qed.

Lemma same_shape_trans d1 d2 d3 :
  same_shape d1 d2 -> same_shape d2 d3 -> same_shape d1 d3.
Proof.
  intros (Hi & Hc & Ha) (Hi' & Hc' & Ha'). repeat split; [congruence..|auto].
Qed.

Lemma length_convert_dates_series s :
  length (values (convert_dates_series s)) = length (values s).
Proof.
  unfold convert_dates_series. destruct (_ && _); [|done].
  simpl. apply length_fmap.
Qed.

Lemma length_to_numeric_series s :
  length (values (to_numeric_series s)) = length (values s).
Proof.
  unfold to_numeric_series.
  destruct (mapM _ (values s)) as [vs|] eqn:Hm; [|done].
  apply length_mapM in Hm. rewrite Hm.
  destruct vs as [|v vs]; [done|]. destruct (forallb _ _); [done|].
  cbn [values]. by rewrite length_fmap.
Qed.

Lemma setitem_shape d col s s' :
  getitem d col = inr (Column s) -> length (values s') = length (values s) ->
  same_shape d (setitem d col s').
Proof.
  intros Hg Hlen. split; [done|]. split; [apply columns_setitem|].
  intros Hal. apply aligned_setitem; [done|]. rewrite Hlen.
  pose proof (getitem_Column_elem_of _ _ _ Hg) as Hin.
  unfold aligned in Hal. rewrite Forall_forall in Hal. apply (Hal _ Hin).
Qed.

Lemma convert_dates_shape col d d' : convert_dates col d = inr d' -> same_shape d d'.
Proof.
  destruct (getitem d col) as [e|[s|f]] eqn:Hg.
  - unfold convert_dates. by rewrite Hg.
  - rewrite (convert_dates_Column _ _ _ _ Hg). intros [= <-].
    eapply setitem_shape; [done|apply length_convert_dates_series].
  - unfold convert_dates. by rewrite Hg.
Qed.

Lemma convert_numeric_shape col d d' : convert_numeric col d = inr d' -> same_shape d d'.
Proof.
  destruct (getitem d col) as [e|[s|f]] eqn:Hg.
  - unfold convert_numeric. by rewrite Hg.
  - rewrite (convert_numeric_Column _ _ _ _ Hg). intros [= <-].
    eapply setitem_shape; [done|apply length_to_numeric_series].
  - unfold convert_numeric. by rewrite Hg.
Qed.

Lemma for_each_shape (body : string -> DataFrame -> exn + DataFrame) names d d' :
  (forall col d d', body col d = inr d' -> same_shape d d') ->
  for_each names body d = inr d' -> same_shape d d'.
Proof.
  intros Hbody. revert d. induction names as [|col names IH]; intros d; simpl.
  - intros [= <-]. apply same_shape_refl.
  - destruct (body col d) as [e|d1] eqn:Hb; simpl; [done|].
    intros Hrest. eapply same_shape_trans; eauto.
Qed.

Lemma infer_types_shape d d' : infer_types d = inr d' -> same_shape d d'.
Proof.
  unfold infer_types.
  destruct (for_each _ convert_dates d) as [e|d1] eqn:H1; simpl; [done|].
  intros H2. eapply same_shape_trans.
  - eapply for_each_shape; [apply convert_dates_shape|done].
  - eapply for_each_shape; [apply convert_numeric_shape|done].
Qed.

(** ** Frames whose visited names are borne by one column each *)

(** ** Frames whose visited names are borne by one column each *)

Lemma filter_name_setitem (cs : list (string * Series)) col col' s :
  col' <> col ->
  filter (fun c : string * Series => c.1 = col')
    ((fun c => if decide (c.1 = col) then (c.1, s) else c) <$> cs)
  = filter (fun c => c.1 = col') cs.
Proof.
  intros Hne. induction cs as [|c cs IH]; [done|].
  rewrite fmap_cons, !filter_cons, IH. 
  destruct (decide (c.1 = col)) as [Hc|Hc]; simpl; [|done].
  rewrite !decide_False by congruence. done.
Qed.

Lemma getitem_setitem_ne d col col' s :
  col' <> col -> getitem (setitem d col s) col' = getitem d col'.
Proof.
  intros Hne. unfold getitem, setitem. simpl.
  by rewrite filter_name_setitem.
Qed.

Lemma filter_name_NoDup (cs : list (string * Series)) col s :
  NoDup (fst <$> cs) -> (col, s) ∈ cs ->
  filter (fun c : string * Series => c.1 = col) cs = [(col, s)].
Proof.
  induction cs as [|c cs IH]; intros Hnd Hin; [by apply elem_of_nil in Hin|].
  rewrite fmap_cons in Hnd. apply NoDup_cons in Hnd as [Hc Hnd].
  rewrite filter_cons. apply elem_of_cons in Hin as [<-|Hin].
  - simpl. rewrite decide_True by done. f_equal.
    destruct (filter (fun c : string * Series => c.1 = col) cs) as [|c' l] eqn:Hf; [done|].
    exfalso. apply Hc. simpl.
    assert (c' ∈ filter (fun c : string * Series => c.1 = col) cs) as Hc' by (rewrite Hf; by left).
    apply list_elem_of_filter in Hc' as [<- Hc']. by apply list_elem_of_fmap_2.
  - rewrite decide_False; [by apply IH|].
    intros Heq. apply Hc. rewrite Heq. by apply (list_elem_of_fmap_2 fst _ (col, s)).
Qed.

Lemma getitem_NoDup d col s :
  NoDup (columns d) -> (col, s) ∈ cols d -> getitem d col = inr (Column s).
Proof.
  unfold columns, getitem. intros Hnd Hin. by rewrite (filter_name_NoDup _ _ s).
Qed.

(** A loop whose body assigns [f] of the column to each name it visits
    maps [f] over the visited columns. *)
Lemma for_each_map (f : Series -> Series) (body : string -> DataFrame -> exn + DataFrame)
    names d :
  (forall col d s, getitem d col = inr (Column s) ->
                   body col d = inr (setitem d col (f s))) ->
  NoDup names ->
  (forall col, col ∈ names -> exists s, getitem d col = inr (Column s)) ->
  for_each names body d
  = inr (mkFrame (index d)
           ((fun c => if bool_decide (c.1 ∈ names) then (c.1, f c.2) else c) <$> cols d)).
Proof.
  intros Hbody Hnd. revert d. induction Hnd as [|col names Hcol Hnd IH]; intros d Hget.
  - simpl. destruct d as [idx cs]. simpl. do 2 f_equal.
    rewrite <- (list_fmap_id cs) at 1. apply list_fmap_ext. done.
  - destruct (Hget col) as [s Hs]; [by left|].
    simpl. rewrite (Hbody _ _ _ Hs). simpl. rewrite IH.
    + simpl. do 2 f_equal. rewrite <- list_fmap_compose.
      apply Forall_fmap_ext, Forall_forall. intros c Hc. simpl.
      case_decide as Hn; simpl.
      * rewrite bool_decide_eq_false_2 by (by rewrite Hn).
        rewrite bool_decide_eq_true_2 by (rewrite Hn; by left).
        by rewrite (getitem_Column_only _ _ _ c Hs Hc Hn).
      * destruct (bool_decide_reflect (c.1 ∈ names)) as [Hin|Hin].
        -- rewrite bool_decide_eq_true_2; [done|by right].
        -- rewrite bool_decide_eq_false_2; [done|].
           intros [?|?]%elem_of_cons; done.
    + intros col' Hcol'. destruct (Hget col') as [s' Hs']; [by right|].
      exists s'. rewrite getitem_setitem_ne; [done|]. intros ->. done.
Qed.

Lemma for_each_fixed (f : Series -> Series) (body : string -> DataFrame -> exn + DataFrame)
    names d :
  (forall col d s, getitem d col = inr (Column s) ->
                   body col d = inr (setitem d col (f s))) ->
  NoDup names ->
  (forall col, col ∈ names -> exists s, getitem d col = inr (Column s)) ->
  (forall c, c ∈ cols d -> c.1 ∈ names -> f c.2 = c.2) ->
  for_each names body d = inr d.
Proof.
  intros Hbody Hnd Hget Hfix. rewrite (for_each_map f) by done.
  destruct d as [idx cs]. simpl in *. do 2 f_equal.
  rewrite <- (list_fmap_id cs) at 2. apply Forall_fmap_ext, Forall_forall.
  intros c Hc. simpl. case_bool_decide as Hn; [|done].
  rewrite (Hfix c Hc Hn). by destruct c.
Qed.

Lemma select_dtypes_object_elem_of d col :
  col ∈ select_dtypes_object d <-> exists s, (col, s) ∈ cols d /\ dtype s = object.
Proof.
  unfold select_dtypes_object. rewrite list_elem_of_fmap. split.
  - intros ([n s] & -> & [Hobj Hin]%list_elem_of_filter). eauto.
  - intros (s & Hin & Hobj). exists (col, s). split; [done|].
    by apply list_elem_of_filter.
Qed.

Lemma select_dtypes_object_NoDup d :
  NoDup (columns d) -> NoDup (select_dtypes_object d).
Proof.
  intros Hnd. eapply sublist_NoDup; [exact Hnd|].
  unfold select_dtypes_object, columns. apply fmap_sublist, sublist_filter.

Qed.
End Loops.

(** * The table [clean] returns *)

Section Output.
Variable datetime_of : list cell -> cell -> option Z.
Variable parse_numeric : string -> option float64.

#[local] Abbreviation clean := (clean datetime_of parse_numeric).
#[local] Abbreviation stages := (stages datetime_of parse_numeric).
#[local] Abbreviation infer_types := (infer_types datetime_of parse_numeric).

Implicit Types (d t out : DataFrame).

Lemma stages_inr t out :
  stages t = inr out ->
  exists d, infer_types (applymap clean_cell (normalize_names t)) = inr d /\ out = prune d.
Proof.
  unfold stages.
  destruct (infer_types _) as [e|d]; simpl; [done|]. intros [= <-]. eauto.
Qed.

Lemma columns_normalize_names t :
  columns (normalize_names t)
  = replace_special <$> take_mask (negb <$> duplicated (Py.strip <$> columns t))
                                  (Py.strip <$> columns t).
Proof.
  unfold normalize_names. rewrite columns_set_columns, columns_loc_columns.
  by rewrite columns_set_columns.
Qed.

Lemma aligned_normalize_names t : aligned t -> aligned (normalize_names t).
Proof.
  intros Hal. unfold normalize_names.
  by apply aligned_set_columns, aligned_loc_columns, aligned_set_columns.
Qed.


Lemma columns_prune d : columns (prune d) `sublist_of` columns d.
Proof.
  unfold prune. rewrite columns_dropna, columns_drop_duplicates.
  apply columns_dropna_columns_all.
Qed.

Lemma aligned_prune d : aligned d -> aligned (prune d).
Proof.
  intros Hal. unfold prune.
  by apply aligned_dropna, aligned_drop_duplicates, aligned_dropna_columns_all.
Qed.

(** What is known of the frame the pruner receives. *)
Lemma stages_shape t out :
  stages t = inr out ->
  exists d, out = prune d
            /\ columns d = columns (normalize_names t)
            /\ index d = index t
            /\ (aligned t -> aligned d).
Proof.
  intros (d & Hd & ->)%stages_inr. exists d. split; [done|].
  apply infer_types_shape in Hd as (Hi & Hc & Ha).
  rewrite columns_applymap in Hc. split; [done|]. split; [done|].
  intros Hal. by apply Ha, aligned_applymap, aligned_normalize_names.
Qed.

Lemma replace_special_word s : Py.all_chars Py.isword (replace_special s) = true.
Proof.
  unfold replace_special, Py.re_sub_runs.
  eapply PyFacts.all_chars_impl; [|apply PyFacts.sub_runs_chars; reflexivity].
  intros a. simpl. by rewrite negb_involutive.
Qed.

Lemma replace_special_fixed s :
  Py.all_chars Py.isword s = true -> replace_special s = s.
Proof.
  intros Hs. apply PyFacts.sub_runs_fixed.
  eapply PyFacts.all_chars_impl; [|exact Hs]. intros a. simpl. by rewrite negb_involutive.
Qed.

Lemma strip_word s : Py.all_chars Py.isword s = true -> Py.strip s = s.
Proof.
  intros Hs. apply PyFacts.strip_no_space.
  eapply PyFacts.all_chars_impl; [|exact Hs].
  intros a Ha. by rewrite (PyFacts.isword_not_space a Ha).
Qed.

(** The names of the output are among the replaced names of the columns
    that [~duplicated()] keeps. *)
Lemma columns_stages t out :
  stages t = inr out ->
  columns out `sublist_of`
    replace_special <$> take_mask (negb <$> duplicated (Py.strip <$> columns t))
                                  (Py.strip <$> columns t).
Proof.
  intros (d & -> & Hc & _)%stages_shape.
  rewrite <- columns_normalize_names, <- Hc. apply columns_prune.
Qed.

Lemma columns_stages_word t out :
  stages t = inr out -> Forall (fun n => Py.all_chars Py.isword n = true) (columns out).
Proof.
  intros Hsub%columns_stages. eapply Forall_sublist_of; [|exact Hsub].
  apply Forall_fmap, Forall_forall. intros n _. apply replace_special_word.
Qed.

(** C1, as the code has it.  Every column name of the table [clean]
    returns consists of letters, digits and underscores only (so it has
    no white space); it is not empty, and so matches the pattern,
    provided no input column name is empty or white space only; and the
    names are pairwise distinct provided the replacement of special
    characters sends no two different stripped input names to one
    name. *)
Theorem output_names t out :
  clean t = inr out ->
  Forall (fun n => Py.all_chars Py.isword n = true) (columns out)
  /\ (Forall (fun n => Py.strip n <> "") (columns t) ->
      Forall name_pattern (columns out))
  /\ ((forall a b, a ∈ columns t -> b ∈ columns t ->
         replace_special (Py.strip a) = replace_special (Py.strip b) ->
         Py.strip a = Py.strip b) ->
      NoDup (columns out)).
Proof.
  rewrite clean_stages. intros Hst. pose proof (columns_stages t out Hst) as Hsub.
  set (stripped := Py.strip <$> columns t) in *.
  set (kept := take_mask (negb <$> duplicated stripped) stripped) in *.
  assert (forall n, n ∈ kept -> exists n0, n = Py.strip n0 /\ n0 ∈ columns t) as Hkept.
  { intros n Hn.
    assert (n ∈ stripped) as Hin
      by (eapply elem_of_sublist; [exact Hn|apply take_mask_sublist]).
    by apply list_elem_of_fmap in Hin. }
  split; [by apply (columns_stages_word t)|split].
  - intros Hne. eapply Forall_sublist_of; [|exact Hsub].
    apply Forall_fmap, Forall_forall. intros n Hn. split; [|apply replace_special_word].
    simpl. intros Hempty%PyFacts.re_sub_runs_empty.
    destruct (Hkept n Hn) as (n0 & -> & Hn0).
    rewrite Forall_forall in Hne. by apply (Hne n0).
  - intros Hinj. eapply sublist_NoDup; [|exact Hsub].
    apply NoDup_fmap_2_strong; [|apply kept_NoDup].
    intros a b Ha Hb Heq.
    destruct (Hkept a Ha) as (a0 & -> & Ha0). destruct (Hkept b Hb) as (b0 & -> & Hb0).
    by apply Hinj.
Qed.

Lemma empty_true d : empty d = true -> index d = [] \/ cols d = [].
Proof. unfold empty. destruct (index d), (cols d); auto. discriminate. Qed.

Lemma empty_false d : empty d = false -> index d <> [] /\ cols d <> [].
Proof. unfold empty. destruct (index d), (cols d); done. Qed.

Lemma rows_no_index d : aligned d -> index d = [] -> rows d = [].
Proof.
  intros Hal Hi. apply length_zero_iff_nil. by rewrite rows_length, Hi.
Qed.

Lemma cols_dropna d : cols (dropna d) = [] <-> cols d = [].
Proof. rewrite <- !columns_nil. by rewrite columns_dropna. Qed.

Lemma cols_drop_duplicates d : cols (drop_duplicates d) = [] <-> cols d = [].
Proof. rewrite <- !columns_nil. by rewrite columns_drop_duplicates. Qed.

(** Rows without repetition, as [drop_duplicates] compares them. *)
Lemma drop_duplicates_keys d :
  aligned d -> cols d <> [] -> NoDup (map cell_key <$> rows (drop_duplicates d)).
Proof.
  intros Hal Hcols. unfold drop_duplicates. destruct (empty d) eqn:He.
  - apply empty_true in He as [Hi|Hc]; [|done].
    rewrite (rows_no_index d Hal Hi). constructor.
  - rewrite rows_take_rows. apply kept_keys_NoDup.
Qed.

Lemma dropna_rows d :
  Forall (Forall (fun v => isna v = false)) (rows (dropna d)).
Proof.
  unfold dropna. rewrite rows_take_rows.
  eapply Forall_impl; [apply take_mask_test|]. simpl. intros r Hr.
  apply Forall_forall. intros v Hv%list_elem_of_In.
  rewrite forallb_forall in Hr. specialize (Hr v Hv). by apply negb_true_iff in Hr.
Qed.

Lemma dropna_keys d :
  NoDup (map cell_key <$> rows d) -> NoDup (map cell_key <$> rows (dropna d)).
Proof.
  intros Hnd. unfold dropna. rewrite rows_take_rows.
  eapply sublist_NoDup; [|apply fmap_sublist, take_mask_sublist]. done.
Qed.

(** What the pruner guarantees. *)
Lemma prune_spec d :
  aligned d ->
  let out := prune d in
  aligned out
  /\ Forall (Forall (fun v => isna v = false)) (rows out)
  /\ Forall (fun c => Forall (fun v => isna v = false) (values c.2)) (cols out)
  /\ (cols out <> [] -> NoDup (map cell_key <$> rows out)).
Proof.
  intros Hal out.
  assert (aligned out) as Hout by (by apply aligned_prune).
  pose proof (dropna_rows (drop_duplicates (dropna_columns_all d))) as Hrows.
  fold (prune d) in Hrows. fold out in Hrows.
  split; [done|]. split; [done|]. split; [by apply rows_cells|].
  intros Hcols. apply dropna_keys, drop_duplicates_keys.
  - by apply aligned_dropna_columns_all.
  - intros Hnil. apply Hcols. subst out. unfold prune.
    by apply cols_dropna, cols_drop_duplicates.
Qed.

(** C2, as the code has it.  In the table [clean] returns for an aligned
    input no cell is missing, so no row holds a missing cell; no column
    is all missing provided the table has a row; and no two rows are
    identical provided the table has a column. *)
Theorem pruned_output t out :
  aligned t -> clean t = inr out ->
  Forall (Forall (fun v => isna v = false)) (rows out)
  /\ Forall (fun c => Forall (fun v => isna v = false) (values c.2)) (cols out)
  /\ (index out <> [] -> Forall (fun c => ~ all_missing c.2) (cols out))
  /\ (cols out <> [] -> NoDup (rows out)).
Proof.
  intros Hal. rewrite clean_stages. intros (d & -> & _ & _ & Hd)%stages_shape.
  destruct (prune_spec d (Hd Hal)) as (Hout & Hrows & Hcells & Hkeys).
  split; [done|]. split; [done|]. split.
  - intros Hidx. unfold aligned in Hout.
    apply Forall_forall. intros c Hc Hmiss.
    rewrite Forall_forall in Hout, Hcells. specialize (Hout c Hc). specialize (Hcells c Hc).
    unfold all_missing in Hmiss.
    destruct (values c.2) as [|v vs].
    + simpl in Hout. symmetry in Hout. by apply length_zero_iff_nil in Hout.
    + inversion Hmiss; subst. inversion Hcells; subst. congruence.
  - intros Hcols. by eapply NoDup_fmap_1, Hkeys.
Qed.


(** ** Tables without rows *)




(** ** When the loops raise nothing *)

Lemma infer_types_NoDup d :
  NoDup (columns d) -> exists d', infer_types d = inr d'.
Proof.
  intros Hnd. unfold infer_types.
  assert (forall d, NoDup (columns d) ->
            forall col, col ∈ select_dtypes_object d ->
                        exists s, getitem d col = inr (Column s)) as Hget.
  { intros d0 Hnd0 col (s & Hin & _)%select_dtypes_object_elem_of.
    exists s. by apply getitem_NoDup. }
  rewrite (for_each_map (convert_dates_series datetime_of));
    [|intros; by apply convert_dates_Column|by apply select_dtypes_object_NoDup|by apply Hget].
  simpl. set (d1 := mkFrame _ _).
  assert (columns d1 = columns d) as Hc1.
  { unfold columns, d1. simpl. rewrite <- list_fmap_compose.
    apply list_fmap_ext. intros i c _. simpl. by case_bool_decide. }
  rewrite <- Hc1 in Hnd.
  rewrite (for_each_map (to_numeric_series parse_numeric));
    [|intros; by apply convert_numeric_Column|by apply select_dtypes_object_NoDup|by apply Hget].
  eauto.
Qed.

(** [clean] returns when no two columns are given the same name. *)
Lemma clean_returns t :
  NoDup (columns (normalize_names t)) -> exists out, clean t = inr out.
Proof.
  intros Hnd. rewrite clean_stages. unfold stages.
  destruct (infer_types_NoDup (applymap clean_cell (normalize_names t))) as [d ->].
  - by rewrite columns_applymap.
  - simpl. eauto.
Qed.

(** ** What a second pass finds *)

Lemma for_each_preserves (P : DataFrame -> Prop)
    (body : string -> DataFrame -> exn + DataFrame) names d d' :
  (forall col d d', body col d = inr d' -> P d -> P d') ->
  for_each names body d = inr d' -> P d -> P d'.
Proof.
  intros Hbody. revert d. induction names as [|col names IH]; intros d; simpl.
  - by intros [= <-].
  - destruct (body col d) as [e|d1] eqn:Hb; simpl; [done|]. eauto.
Qed.

Lemma cells_setitem Q d col s : cells Q d -> Forall Q (values s) -> cells Q (setitem d col s).
Proof.
  unfold cells, setitem. simpl. intros Hd Hs. apply Forall_fmap.
  eapply Forall_impl; [exact Hd|]. intros c Hc. simpl. by case_decide.
Qed.

Lemma cells_take_rows Q m d : cells Q d -> cells Q (take_rows m d).
Proof.
  unfold cells, take_rows. simpl. intros Hd. apply Forall_fmap.
  eapply Forall_impl; [exact Hd|]. intros c Hc. simpl.
  eapply Forall_sublist_of; [exact Hc|apply take_mask_sublist].
Qed.

Lemma cells_prune Q d : cells Q d -> cells Q (prune d).
Proof.
  intros Hd. unfold prune, dropna. apply cells_take_rows.
  unfold drop_duplicates. destruct (empty _); [|apply cells_take_rows].
  all: unfold cells, dropna_columns_all; simpl;
    eapply Forall_sublist_of; [exact Hd|apply sublist_filter].
Qed.

Lemma cells_applymap_clean d : cells (fun v => clean_cell v = v) (applymap clean_cell d).
Proof.
  unfold cells, applymap. simpl. apply Forall_fmap, Forall_forall. intros c _. simpl.
  apply Forall_fmap, Forall_forall. intros v _. apply clean_cell_idemp.
Qed.

Lemma not_str_clean v : not_str v -> clean_cell v = v.
Proof. intros Hv. destruct v; try done. by destruct (Hv s). Qed.

Lemma to_datetime_series_not_str s :
  Forall not_str (values (to_datetime_series datetime_of s)).
Proof.
  unfold to_datetime_series. simpl. apply Forall_fmap, Forall_forall. intros c _. simpl.
  destruct (isna c); [done|]. by destruct (datetime_of _ c).
Qed.

Lemma to_numeric_series_clean s :
  Forall (fun v => clean_cell v = v) (values s) ->
  Forall (fun v => clean_cell v = v) (values (to_numeric_series parse_numeric s)).
Proof.
  intros Hs. unfold to_numeric_series.
  destruct (mapM _ (values s)) as [vs|] eqn:Hm; [|done].
  apply mapM_Some in Hm.
  assert (Forall not_str vs) as Hvs.
  { clear -Hm. induction Hm as [|c c' l l' Hc _ IH]; constructor; [|done].
    destruct (numeric_of_number parse_numeric c c' Hc) as [->|Hn]; [done|].
    by destruct c'. }
  destruct vs as [|v vs]; [done|]. destruct (forallb _ _); cbn [values].
  - eapply Forall_impl; [exact Hvs|]. apply not_str_clean.
  - apply Forall_fmap. eapply Forall_impl; [exact Hvs|].
    intros c Hc. simpl. apply not_str_clean. by destruct c.
Qed.

Lemma infer_types_cells d d' :
  infer_types d = inr d' ->
  cells (fun v => clean_cell v = v) d -> cells (fun v => clean_cell v = v) d'.
Proof.
  unfold infer_types.
  destruct (for_each _ _ d) as [e|d1] eqn:H1; simpl; [done|].
  intros H2 Hd.
  assert (forall d col s, cells (fun v => clean_cell v = v) d ->
            getitem d col = inr (Column s) ->
            Forall (fun v => clean_cell v = v) (values s)) as Hcol.
  { intros d0 col s Hd0 Hg. apply getitem_Column_elem_of in Hg.
    unfold cells in Hd0. rewrite Forall_forall in Hd0. apply (Hd0 _ Hg). }
  eapply (for_each_preserves _ _ _ _ _ _ H2).
  eapply (for_each_preserves _ _ _ _ _ _ H1). exact Hd.
  Unshelve.
  - intros col d0 d0' Hb Hd0.
    destruct (getitem d0 col) as [e|[s|f]] eqn:Hg.
    + unfold convert_numeric in Hb. by rewrite Hg in Hb.
    + rewrite (convert_numeric_Column _ _ _ _ Hg) in Hb. injection Hb as <-.
      apply cells_setitem; [done|]. apply to_numeric_series_clean. by eapply Hcol.
    + unfold convert_numeric in Hb. by rewrite Hg in Hb.
  - intros col d0 d0' Hb Hd0.
    destruct (getitem d0 col) as [e|[s|f]] eqn:Hg.
    + unfold convert_dates in Hb. by rewrite Hg in Hb.
    + rewrite (convert_dates_Column _ _ _ _ Hg) in Hb. injection Hb as <-.
      apply cells_setitem; [done|]. unfold convert_dates_series.
      destruct (_ && _); [|by eapply Hcol].
      eapply Forall_impl; [apply to_datetime_series_not_str|]. apply not_str_clean.
    + unfold convert_dates in Hb. by rewrite Hg in Hb.
Qed.

Lemma stages_cells t out :
  stages t = inr out -> cells (fun v => clean_cell v = v) out.
Proof.
  intros (d & Hd & ->)%stages_inr. apply cells_prune.
  eapply infer_types_cells; [exact Hd|]. apply cells_applymap_clean.
Qed.

Lemma applymap_id f d : cells (fun v => f v = v) d -> applymap f d = d.
Proof.
  destruct d as [idx cs]. unfold cells, applymap. simpl. intros Hd. f_equal.
  rewrite <- (list_fmap_id cs) at 2. apply Forall_fmap_ext.
  eapply Forall_impl; [exact Hd|]. intros [n [ty vs]] Hc. simpl in *. do 2 f_equal.
  rewrite <- (list_fmap_id vs) at 2. by apply Forall_fmap_ext.
Qed.

Lemma normalize_names_id d :
  Forall (fun n => Py.all_chars Py.isword n = true) (columns d) ->
  NoDup (columns d) -> normalize_names d = d.
Proof.
  intros Hw Hnd. unfold normalize_names.
  rewrite (set_columns_id Py.strip d)
    by (eapply Forall_impl; [exact Hw|]; apply strip_word).
  assert (loc_columns (negb <$> duplicated (columns d)) d = d) as ->.
  { destruct d as [idx cs]. unfold loc_columns, columns in *. simpl in *. f_equal.
    apply take_mask_all_true; [by apply duplicated_NoDup|].
    by rewrite length_fmap, duplicated_length, length_fmap. }
  apply set_columns_id. eapply Forall_impl; [exact Hw|]. apply replace_special_fixed.
Qed.

Lemma filter_all {A} (P : A -> Prop) `{forall x, Decision (P x)} (l : list A) :
  Forall P l -> filter P l = l.
Proof.
  induction 1 as [|x l Hx _ IH]; [done|]. by rewrite filter_cons_True, IH.
Qed.

Lemma prune_id d :
  aligned d -> index d <> [] \/ cols d = [] ->
  cells (fun v => isna v = false) d ->
  (cols d <> [] -> NoDup (map cell_key <$> rows d)) ->
  prune d = d.
Proof.
  intros Hal Hrows Hcells Hkeys. unfold prune.
  assert (dropna_columns_all d = d) as ->.
  { destruct d as [idx cs]. unfold dropna_columns_all, cells, aligned in *. simpl in *.
    f_equal. apply filter_all. apply Forall_forall. intros c Hc.
    rewrite Forall_forall in Hal, Hcells. specialize (Hal c Hc). specialize (Hcells c Hc).
    destruct Hrows as [Hidx| ->]; [|by apply elem_of_nil in Hc].
    destruct (values c.2) as [|v vs].
    - simpl in Hal. symmetry in Hal. by apply length_zero_iff_nil in Hal.
    - inversion Hcells as [|? ? Hv _]; subst. simpl. unfold notna. by rewrite Hv. }
  assert (drop_duplicates d = d) as ->.
  { unfold drop_duplicates. destruct (empty d) eqn:He; [done|].
    apply empty_false in He as [_ Hc]. apply take_rows_all; [done| |].
    - by apply duplicated_NoDup, Hkeys.
    - by rewrite length_fmap, duplicated_length, length_fmap, rows_length. }
  unfold dropna. apply take_rows_all; [done| |by rewrite length_fmap, rows_length].
  apply Forall_fmap. eapply Forall_impl; [apply (cells_rows _ _ Hcells)|].
  intros r Hr. simpl. apply forallb_forall. intros v Hv%list_elem_of_In.
  rewrite Forall_forall in Hr. unfold notna. by rewrite (Hr v Hv).
Qed.

Lemma infer_types_id d :
  NoDup (columns d) ->
  Forall (fun c => dtype c.2 = object -> stays_text datetime_of parse_numeric c.2) (cols d) ->
  infer_types d = inr d.
Proof.
  intros Hnd Htext. unfold infer_types.
  assert (forall col, col ∈ select_dtypes_object d ->
                      exists s, getitem d col = inr (Column s)) as Hget.
  { intros col (s & Hin & _)%select_dtypes_object_elem_of.
    exists s. by apply getitem_NoDup. }
  assert (forall c, c ∈ cols d -> c.1 ∈ select_dtypes_object d ->
                    stays_text datetime_of parse_numeric c.2) as Hfix.
  { intros c Hc (s & Hin & Hobj)%select_dtypes_object_elem_of.
    rewrite Forall_forall in Htext. apply (Htext c Hc).
    pose proof (getitem_NoDup _ _ _ Hnd Hin) as Hg.
    by rewrite (getitem_Column_only _ _ _ c Hg Hc eq_refl). }
  rewrite (for_each_fixed (convert_dates_series datetime_of));
    [|intros; by apply convert_dates_Column|by apply select_dtypes_object_NoDup
     |done|intros c Hc Hn; by apply Hfix].
  simpl.
  rewrite (for_each_fixed (to_numeric_series parse_numeric));
    [done|intros; by apply convert_numeric_Column|by apply select_dtypes_object_NoDup
     |done|intros c Hc Hn; by apply Hfix].
Qed.

End Output.

(** * What [clean] can raise *)

Section Raising.
Variable datetime_of : list cell -> cell -> option Z.
Variable parse_numeric : string -> option float64.

#[local] Abbreviation clean := (clean datetime_of parse_numeric).
#[local] Abbreviation stages := (stages datetime_of parse_numeric).
#[local] Abbreviation infer_types := (infer_types datetime_of parse_numeric).
#[local] Abbreviation convert_dates := (convert_dates datetime_of).
#[local] Abbreviation convert_numeric := (convert_numeric parse_numeric).
Implicit Types (d t out : DataFrame) (col : string).

Lemma filter_name_fst (cs : list (string * Series)) col :
  fst <$> filter (fun c : string * Series => c.1 = col) cs
  = filter (fun n => n = col) (fst <$> cs).
Proof.
  induction cs as [|c cs IH]; [done|].
  rewrite fmap_cons, !filter_cons. simpl. case_decide; [|done].
  by rewrite fmap_cons, IH.
Qed.

(** Whether [df[col]] is a series depends on the column names alone. *)
Lemma getitem_Column_iff d col :
  (exists s, getitem d col = inr (Column s))
  <-> length (filter (fun n => n = col) (columns d)) = 1.
Proof.
  unfold columns. rewrite <- filter_name_fst, length_fmap. unfold getitem.
  destruct (filter _ (cols d)) as [|c [|c' cs]]; simpl; split; try done.
  - by intros [s ?].
  - eauto.
  - by intros [s ?].
Qed.

Lemma getitem_KeyError d col e :
  getitem d col = inl e -> col ∉ columns d.
Proof.
  unfold getitem, columns.
  destruct (filter _ (cols d)) as [|c [|c' cs]] eqn:Hf; try done.
  intros _ (c & -> & Hc)%list_elem_of_fmap.
  assert (c ∈ filter (fun c' : string * Series => c'.1 = c.1) (cols d)) as Hin
    by (by apply list_elem_of_filter).
  rewrite Hf in Hin. by apply elem_of_nil in Hin.
Qed.

(** The first loop raises nothing but [ValueError], and when it raises
    nothing each name it visited is borne by one column. *)
Lemma convert_dates_loop names d :
  (forall col, col ∈ names -> col ∈ columns d) ->
  match for_each names convert_dates d with
  | inl e => e = ValueError
  | inr _ => forall col, col ∈ names -> exists s, getitem d col = inr (Column s)
  end.
Proof.
  revert d. induction names as [|col names IH]; intros d Hin; simpl.
  - intros col Hcol. by apply elem_of_nil in Hcol.
  - destruct (getitem d col) as [e|[s|f]] eqn:Hg.
    + exfalso. apply (getitem_KeyError _ _ _ Hg), Hin. by left.
    + rewrite (convert_dates_Column _ _ _ _ Hg). simpl.
      set (d1 := setitem d col _).
      assert (columns d1 = columns d) as Hc by apply columns_setitem.
      specialize (IH d1). rewrite Hc in IH.
      destruct (for_each names convert_dates d1) as [e|d'].
      * apply IH. intros col' Hcol'. apply Hin. by right.
      * intros col' [->|Hcol']%elem_of_cons; [eauto|].
        apply getitem_Column_iff. rewrite <- Hc. apply getitem_Column_iff.
        apply IH; [|done]. intros col'' Hcol''. apply Hin. by right.
    + unfold convert_dates. rewrite Hg. done.
Qed.

(** The second loop raises nothing when each name it visits is borne by
    one column. *)
Lemma convert_numeric_loop names d :
  (forall col, col ∈ names -> exists s, getitem d col = inr (Column s)) ->
  exists d', for_each names convert_numeric d = inr d'.
Proof.
  revert d. induction names as [|col names IH]; intros d Hget; simpl; [eauto|].
  destruct (Hget col) as [s Hs]; [by left|].
  rewrite (convert_numeric_Column _ _ _ _ Hs). simpl. apply IH.
  intros col' Hcol'. apply getitem_Column_iff. rewrite columns_setitem.
  apply getitem_Column_iff, Hget. by right.
Qed.

(** The text columns after the first loop bear names of text columns
    before it. *)
Lemma convert_dates_loop_object (N : list string) names d d' :
  for_each names convert_dates d = inr d' ->
  (forall col, col ∈ names -> col ∈ N) ->
  (forall col, col ∈ select_dtypes_object d -> col ∈ N) ->
  forall col, col ∈ select_dtypes_object d' -> col ∈ N.
Proof.
  revert d. induction names as [|col names IH]; intros d; simpl.
  - by intros [= <-].
  - destruct (getitem d col) as [e|[s|f]] eqn:Hg.
    + unfold convert_dates. by rewrite Hg.
    + rewrite (convert_dates_Column _ _ _ _ Hg). simpl.
      set (d1 := setitem d col _). intros Hloop Hnames Hd.
      apply (IH d1 Hloop); [intros c Hc; apply Hnames; by right|].
      intros c (s' & Hin & Hobj)%select_dtypes_object_elem_of.
      unfold d1, setitem in Hin. simpl in Hin.
      apply list_elem_of_fmap in Hin as ([n s0] & Heq & Hin). simpl in Heq.
      case_decide as Hn; simplify_eq.
      * apply Hnames. by left.
      * apply Hd, select_dtypes_object_elem_of. eauto.
    + unfold convert_dates. by rewrite Hg.
Qed.

Lemma select_dtypes_object_columns d col :
  col ∈ select_dtypes_object d -> col ∈ columns d.
Proof.
  intros (s & Hin & _)%select_dtypes_object_elem_of.
  unfold columns. by apply (list_elem_of_fmap_2 fst _ (col, s)).
Qed.

(** The type inferencer raises nothing but the [ValueError] of the
    first loop. *)
Lemma infer_types_raises d e : infer_types d = inl e -> e = ValueError.
Proof.
  unfold infer_types.
  pose proof (convert_dates_loop (select_dtypes_object d) d
                (select_dtypes_object_columns d)) as H1.
  destruct (for_each _ convert_dates d) as [e1|d1] eqn:Hloop; simpl.
  - by intros [= <-].
  - destruct (convert_numeric_loop (select_dtypes_object d1) d1) as [d' ->]; [|done].
    intros col Hcol. apply getitem_Column_iff.
    assert (columns d1 = columns d) as ->.
    { eapply for_each_shape; [|exact Hloop]. apply convert_dates_shape. }
    apply getitem_Column_iff, H1.
    by apply (convert_dates_loop_object _ _ _ _ Hloop).
Qed.

(** [clean] raises nothing but [ValueError], and only when two columns
    were given the same name. *)
Lemma clean_raises t e :
  clean t = inl e -> e = ValueError /\ ~ NoDup (columns (normalize_names t)).
Proof.
  intros Hc. split.
  - rewrite clean_stages in Hc. unfold stages in Hc.
    destruct (infer_types _) as [e'|d] eqn:Hi; simpl in Hc; [|done].
    injection Hc as <-. by eapply infer_types_raises.
  - intros Hnd. destruct (clean_returns datetime_of parse_numeric t Hnd) as [out Hout].
    congruence.
Qed.

End Raising.

(** * A second pass, and the caller's frame *)

Section Passes.
Variable datetime_of : list cell -> cell -> option Z.
Variable parse_numeric : string -> option float64.

#[local] Abbreviation clean := (clean datetime_of parse_numeric).
#[local] Abbreviation stages := (stages datetime_of parse_numeric).
#[local] Abbreviation infer_types := (infer_types datetime_of parse_numeric).
Implicit Types (d t out : DataFrame).

(** C4, as the code has it.  A second pass returns the table of the
    first pass itself, with its names, rows and types, provided that
    table has a row or no column, has pairwise distinct column names,
    and has no text column that the type inferencer would now
    convert. *)
Theorem second_pass t out :
  aligned t -> clean t = inr out ->
  index out <> [] \/ cols out = [] ->
  NoDup (columns out) ->
  Forall (fun c => dtype c.2 = object -> stays_text datetime_of parse_numeric c.2) (cols out) ->
  clean out = inr out.
Proof.
  intros Hal Hout Hrows Hnd Htext. rewrite clean_stages in *.
  pose proof (columns_stages_word _ _ _ _ Hout) as Hword.
  pose proof (stages_cells _ _ _ _ Hout) as Hclean.
  destruct (stages_shape _ _ _ _ Hout) as (d & -> & _ & _ & Hd).
  destruct (prune_spec d (Hd Hal)) as (Hal' & _ & Hcells & Hkeys).
  unfold stages.
  rewrite (normalize_names_id _ Hword Hnd), (applymap_id _ _ Hclean).
  rewrite (infer_types_id _ _ _ Hnd Htext). simpl.
  by rewrite prune_id.
Qed.

(** C3, as the code has it.  A call on the frame [t] at [l] leaves at
    [l] a frame with the row labels, the dtypes and the cells of [t]
    and with the stripped names of [t]; it leaves every other frame of
    the store as it is; and what it returns, a reference to a new frame
    or an exception, is what [clean] computes from [t] alone. *)
Theorem clean_dataframe_effect (h : gmap loc DataFrame) (l : loc) t :
  h !! l = Some t ->
  exists r h',
    clean_dataframe datetime_of parse_numeric l h = (r, h')
    /\ (exists t', h' !! l = Some t'
                   /\ index t' = index t
                   /\ snd <$> cols t' = snd <$> cols t
                   /\ columns t' = Py.strip <$> columns t)
    /\ (forall l', l' ≠ l -> is_Some (h !! l') -> h' !! l' = h !! l')
    /\ match r with
       | inr l' => h !! l' = None /\ exists out, h' !! l' = Some out /\ clean t = inr out
       | inl e => clean t = inl e
       end.
Proof.
  intros Ht.
  destruct (clean_dataframe_run datetime_of parse_numeric h l t Ht)
    as (r & h' & Hrun & [Hl Hframe] & Hr).
  exists r, h'. split; [done|]. split; [|split; [done|]].
  - eexists. split; [exact Hl|]. split; [done|]. split; [|apply columns_set_columns].
    rewrite set_columns_fmap. simpl. rewrite <- list_fmap_compose.
    by apply list_fmap_ext.
  - rewrite clean_stages. destruct r as [e|l']; [done|].
    destruct Hr as (Hfree & out & Hst & Hout). eauto.
Qed.

End Passes.

(** * More of the pipeline *)

Section Lists.
Context {A : Type} `{EqDecision A}.
Implicit Types (l seen : list A).

(** A sub-sequence whose elements occur once in the whole list has no
    repetition. *)
Lemma sublist_once_NoDup l k :
  k `sublist_of` l ->
  (forall x, x ∈ k -> length (filter (fun y => y = x) l) = 1) ->
  NoDup k.
Proof.
  induction 1 as [|x k l Hsub IH|x k l Hsub IH]; intros Honce.
  - constructor.
  - assert (x ∉ k) as Hx.
    { intros Hin. specialize (Honce x (list_elem_of_here _ _)).
      rewrite filter_cons_True in Honce by done. simpl in Honce.
      assert (x ∈ filter (fun y => y = x) l) as Hf
        by (apply list_elem_of_filter; split; [done|by eapply elem_of_sublist]).
      destruct (filter _ l); [by apply elem_of_nil in Hf|]. simpl in Honce. lia. }
    constructor; [done|]. apply IH. intros y Hy.
    specialize (Honce y (list_elem_of_further _ _ _ Hy)).
    rewrite filter_cons_False in Honce; [done|]. intros ->. done.
  - apply IH. intros y Hy. specialize (Honce y Hy).
    destruct (decide (x = y)) as [->|Hne].
    + rewrite filter_cons_True in Honce by done. simpl in Honce.
      assert (y ∈ filter (fun z => z = y) l) as Hf
        by (apply list_elem_of_filter; split; [done|by eapply elem_of_sublist]).
      destruct (filter _ l); [by apply elem_of_nil in Hf|]. simpl in Honce. lia.
    + by rewrite filter_cons_False in Honce.
Qed.

(** The mark of [duplicated] at one position. *)
Lemma duplicated_from_lookup seen l i x :
  l !! i = Some x ->
  duplicated_from seen l !! i = Some (bool_decide (x ∈ seen \/ x ∈ take i l)).
Proof.
  revert seen i. induction l as [|y l IH]; intros seen i Hi; [done|].
  destruct i as [|i]; simpl in *.
  - injection Hi as ->. f_equal. apply bool_decide_ext.
    rewrite elem_of_nil. tauto.
  - rewrite (IH _ _ Hi). f_equal. apply bool_decide_ext.
    rewrite !elem_of_cons. tauto.
Qed.

End Lists.

Lemma take_mask_lookup {A} (m : list bool) (l : list A) i x :
  m !! i = Some true -> l !! i = Some x -> x ∈ take_mask m l.
Proof.
  revert l i. induction m as [|b m IH]; intros [|y l] [|i] Hm Hl; simplify_eq/=.
  - left.
  - destruct b; [right|]; by eapply IH.
Qed.

Lemma take_mask_elem_of {A} (m : list bool) (l : list A) x :
  x ∈ take_mask m l -> exists i, m !! i = Some true /\ l !! i = Some x.
Proof.
  revert l. induction m as [|b m IH]; intros [|y l]; simpl;
    try (by intros ?%elem_of_nil).
  destruct b.
  - intros [->|Hx]%elem_of_cons; [by exists 0|].
    destruct (IH _ Hx) as (i & ? & ?). by exists (S i).
  - intros Hx. destruct (IH _ Hx) as (i & ? & ?). by exists (S i).
Qed.

Section More.
Variable datetime_of : list cell -> cell -> option Z.
Variable parse_numeric : string -> option float64.

#[local] Abbreviation clean := (clean datetime_of parse_numeric).
#[local] Abbreviation stages := (stages datetime_of parse_numeric).
#[local] Abbreviation infer_types := (infer_types datetime_of parse_numeric).
#[local] Abbreviation convert_dates := (convert_dates datetime_of).
#[local] Abbreviation convert_numeric := (convert_numeric parse_numeric).
#[local] Abbreviation convert_dates_series := (convert_dates_series datetime_of).
#[local] Abbreviation to_datetime_series := (to_datetime_series datetime_of).
#[local] Abbreviation to_numeric_series := (to_numeric_series parse_numeric).
Implicit Types (d t out : DataFrame) (col : string) (s : Series).

Lemma convert_dates_loop_total names d :
  (forall col, col ∈ names -> exists s, getitem d col = inr (Column s)) ->
  exists d', for_each names convert_dates d = inr d'.
Proof.
  revert d. induction names as [|col names IH]; intros d Hget; simpl; [eauto|].
  destruct (Hget col) as [s Hs]; [by left|].
  rewrite (convert_dates_Column _ _ _ _ Hs). simpl. apply IH.
  intros col' Hcol'. apply getitem_Column_iff. rewrite columns_setitem.
  apply getitem_Column_iff, Hget. by right.
Qed.

Lemma select_dtypes_object_applymap f d :
  select_dtypes_object (applymap f d) = select_dtypes_object d.
Proof.
  unfold select_dtypes_object, applymap. simpl.
  induction (cols d) as [|c cs IH]; [done|].
  rewrite fmap_cons, !filter_cons. simpl. case_decide; [|done].
  by rewrite !fmap_cons, IH.
Qed.

(** The type inferencer raises exactly when a text column bears a name
    that another column bears as well. *)
Lemma infer_types_raises_iff d e :
  infer_types d = inl e
  <-> e = ValueError
      /\ exists col, col ∈ select_dtypes_object d
                     /\ length (filter (fun n => n = col) (columns d)) <> 1.
Proof.
  pose proof (convert_dates_loop datetime_of (select_dtypes_object d) d
                (select_dtypes_object_columns d)) as Hloop.
  split.
  - intros Hraise. split; [by eapply infer_types_raises|].
    destruct (Forall_Exists_dec
                (fun col => length (filter (fun n => n = col) (columns d)) = 1)
                (fun col => length (filter (fun n => n = col) (columns d)) <> 1)
                (fun col => decide _) (select_dtypes_object d)) as [Hall|Hex].
    + exfalso. rewrite Forall_forall in Hall.
      destruct (convert_dates_loop_total (select_dtypes_object d) d) as [d1 Hd1].
      { intros col Hcol. by apply getitem_Column_iff, Hall. }
      unfold infer_types in Hraise. rewrite Hd1 in Hraise, Hloop. simpl in Hraise.
      destruct (convert_numeric_loop parse_numeric (select_dtypes_object d1) d1)
        as [d' Hd']; [|congruence].
      intros col Hcol. apply getitem_Column_iff.
      assert (columns d1 = columns d) as ->.
      { eapply for_each_shape; [|exact Hd1]. apply convert_dates_shape. }
      apply Hall. by apply (convert_dates_loop_object datetime_of _ _ _ _ Hd1).
    + apply Exists_exists in Hex as (col & Hcol & Hne). eauto.
  - intros (-> & col & Hcol & Hne). unfold infer_types.
    destruct (for_each _ convert_dates d) as [e|d1]; simpl.
    + by rewrite Hloop.
    + exfalso. apply Hne, getitem_Column_iff, Hloop, Hcol.
Qed.

Lemma clean_raises_when t e :
  clean t = inl e
  <-> e = ValueError
      /\ exists col, col ∈ select_dtypes_object (normalize_names t)
                     /\ length (filter (fun n => n = col) (columns (normalize_names t))) <> 1.
Proof.
  rewrite clean_stages. unfold stages.
  rewrite <- (select_dtypes_object_applymap clean_cell),
          <- (columns_applymap clean_cell (normalize_names t)).
  rewrite <- infer_types_raises_iff.
  destruct (infer_types _) as [e'|d]; simpl; [done|]. split; discriminate.
Qed.

(** X1.  [clean] raises exactly when, once the names are normalised, a text
    column bears a name that another column bears as well; what it
    raises then is [ValueError]. *)
Theorem clean_raises_iff t e :
  clean t = inl e
  <-> e = ValueError
      /\ exists col, col ∈ select_dtypes_object (normalize_names t)
                     /\ length (filter (fun n => n = col) (columns (normalize_names t))) <> 1.
Proof. apply clean_raises_when. Qed.

(** X2.  The table [clean] returns lies within its input: its row labels are
    row labels of the input, in their order, and its column names are
    the replaced stripped names of input columns, in their order. *)
Theorem output_within_input t out :
  clean t = inr out ->
  index out `sublist_of` index t
  /\ columns out `sublist_of` (fun n => replace_special (Py.strip n)) <$> columns t
  /\ length (index out) <= length (index t)
  /\ length (cols out) <= length (cols t).
Proof.
  rewrite clean_stages. intros Hst.
  assert (index out `sublist_of` index t) as Hidx.
  { destruct (stages_shape _ _ _ _ Hst) as (d & -> & _ & <- & _).
    unfold prune, dropna, take_rows. simpl.
    etrans; [apply take_mask_sublist|].
    unfold drop_duplicates. destruct (empty _); [done|]. apply take_mask_sublist. }
  assert (columns out `sublist_of` (fun n => replace_special (Py.strip n)) <$> columns t)
    as Hcols.
  { etrans; [by apply (columns_stages datetime_of parse_numeric t)|].
    rewrite (list_fmap_compose Py.strip replace_special).
    apply fmap_sublist, take_mask_sublist. }
  split; [done|]. split; [done|]. split; [by apply sublist_length|].
  apply sublist_length in Hcols. unfold columns in Hcols.
  by rewrite !length_fmap in Hcols.
Qed.

End More.

Section Names.
Implicit Types (d t : DataFrame).

Lemma cols_normalize_names t :
  cols (normalize_names t)
  = (fun c => (replace_special (Py.strip c.1), c.2))
      <$> take_mask (negb <$> duplicated (Py.strip <$> columns t)) (cols t).
Proof.
  unfold normalize_names.
  rewrite (columns_set_columns Py.strip t).
  rewrite (set_columns_fmap replace_special).
  unfold loc_columns at 1. cbn [cols index].
  rewrite (set_columns_fmap Py.strip t). cbn [cols index].
  unfold loc_columns. cbn [cols index].
  rewrite <- take_mask_fmap, <- list_fmap_compose. done.
Qed.

(** X3.  Duplicate columns collapse on the first: of the input columns that
    bear one name once stripped, the name normaliser keeps the first,
    with its cells, and drops the others; it keeps a column for every
    stripped name, and nothing else. *)
Theorem first_column_kept t :
  let stripped c := Py.strip c.1 in
  let kept := take_mask (negb <$> duplicated (Py.strip <$> columns t)) (cols t) in
  cols (normalize_names t) = (fun c => (replace_special (Py.strip c.1), c.2)) <$> kept
  /\ NoDup (stripped <$> kept)
  /\ (forall c, c ∈ cols t -> exists c', c' ∈ kept /\ stripped c' = stripped c)
  /\ (forall i c, cols t !! i = Some c ->
        (forall j c', j < i -> cols t !! j = Some c' -> stripped c' <> stripped c) ->
        c ∈ kept)
  /\ (forall c, c ∈ kept ->
        exists i, cols t !! i = Some c
                  /\ forall j c', j < i -> cols t !! j = Some c' -> stripped c' <> stripped c).
Proof.
  intros stripped kept.
  assert (stripped <$> kept
          = take_mask (negb <$> duplicated (Py.strip <$> columns t)) (Py.strip <$> columns t))
    as Hkept.
  { unfold kept, columns. rewrite take_mask_fmap. by rewrite <- list_fmap_compose. }
  assert (forall i c, cols t !! i = Some c ->
            (forall j c', j < i -> cols t !! j = Some c' -> stripped c' <> stripped c) ->
            c ∈ kept) as Hfirst.
  { intros i c Hi Hnone. eapply take_mask_lookup; [|exact Hi].
    rewrite list_lookup_fmap.
    assert ((Py.strip <$> columns t) !! i = Some (stripped c)) as Hs.
    { unfold columns. by rewrite <- list_fmap_compose, list_lookup_fmap, Hi. }
    unfold duplicated. rewrite (duplicated_from_lookup _ _ _ _ Hs). simpl. f_equal.
    apply negb_true_iff, bool_decide_eq_false. intros [[]%elem_of_nil|Hin].
    apply list_elem_of_lookup in Hin as (j & Hj).
    apply lookup_take_Some in Hj as [Hj Hlt].
    unfold columns in Hj. rewrite <- list_fmap_compose, list_lookup_fmap in Hj.
    destruct (cols t !! j) as [c'|] eqn:Hc'; [|done]. injection Hj as Hj.
    by apply (Hnone j c'). }
  split; [apply cols_normalize_names|]. split; [rewrite Hkept; apply kept_NoDup|].
  split; [|split; [exact Hfirst|]].
  - intros c Hc.
    assert (stripped c ∈ stripped <$> kept) as Hin.
    { rewrite Hkept. apply kept_elem_of. unfold columns.
      rewrite <- list_fmap_compose. by apply (list_elem_of_fmap_2 stripped). }
    apply list_elem_of_fmap in Hin as (c' & Heq & Hc'). eauto.
  - intros c (i & Hm & Hi)%take_mask_elem_of. exists i. split; [done|].
    intros j c' Hlt Hc' Heq.
    assert ((Py.strip <$> columns t) !! i = Some (stripped c)) as Hs.
    { unfold columns. by rewrite <- list_fmap_compose, list_lookup_fmap, Hi. }
    rewrite list_lookup_fmap in Hm. unfold duplicated in Hm.
    rewrite (duplicated_from_lookup _ _ _ _ Hs) in Hm. simpl in Hm.
    injection Hm as Hm. apply negb_true_iff, bool_decide_eq_false in Hm.
    apply Hm. right. apply list_elem_of_lookup. exists j.
    apply lookup_take_Some. split; [|done].
    unfold columns. rewrite <- list_fmap_compose, list_lookup_fmap, Hc'. simpl.
    f_equal. exact Heq.
Qed.

Lemma sub_runs_length cls r b s :
  String.length (Py.sub_runs cls r b s) <= String.length s.
Proof.
  revert b. induction s as [|a s IH]; intros b; simpl; [done|].
  destruct (cls a); [destruct b|]; simpl;
    pose proof (IH true); pose proof (IH false); lia.
Qed.

(** X4.  Names as the normaliser writes them are fixed by it: stripping or
    replacing again changes nothing, and no replaced name is longer than
    the name it comes from. *)
Theorem replace_special_stable (n : string) :
  let n' := replace_special (Py.strip n) in
  Py.strip n' = n'
  /\ replace_special n' = n'
  /\ String.length (replace_special n) <= String.length n
  /\ (Py.all_chars Py.isword n = true -> replace_special (Py.strip n) = n).
Proof.
  intros n'. pose proof (replace_special_word (Py.strip n)) as Hw. fold n' in Hw.
  split; [by apply strip_word|]. split; [by apply replace_special_fixed|]. split.
  - apply sub_runs_length.
  - intros Hn. rewrite (strip_word n Hn). by apply replace_special_fixed.
Qed.

End Names.

Section Inferred.
Variable datetime_of : list cell -> cell -> option Z.
Variable parse_numeric : string -> option float64.

#[local] Abbreviation clean := (clean datetime_of parse_numeric).
#[local] Abbreviation stages := (stages datetime_of parse_numeric).
#[local] Abbreviation infer_types := (infer_types datetime_of parse_numeric).
#[local] Abbreviation infer_series := (infer_series datetime_of parse_numeric).
#[local] Abbreviation convert_dates := (convert_dates datetime_of).
#[local] Abbreviation convert_numeric := (convert_numeric parse_numeric).
#[local] Abbreviation convert_dates_series := (convert_dates_series datetime_of).
#[local] Abbreviation to_datetime_series := (to_datetime_series datetime_of).
#[local] Abbreviation to_numeric_series := (to_numeric_series parse_numeric).
Implicit Types (d t out : DataFrame) (col : string) (s : Series).

(** In a frame where the text columns bear names of their own, the
    visited names are the names of the text columns. *)
Lemma select_dtypes_object_single d c :
  (forall col, col ∈ select_dtypes_object d ->
               exists s, getitem d col = inr (Column s)) ->
  c ∈ cols d ->
  c.1 ∈ select_dtypes_object d <-> dtype c.2 = object.
Proof.
  intros Hsingle Hc. split.
  - intros Hin. destruct (Hsingle _ Hin) as [s Hs].
    apply select_dtypes_object_elem_of in Hin as (s' & Hin & Hobj).
    rewrite (getitem_Column_only _ _ _ c Hs Hc eq_refl).
    by rewrite <- (getitem_Column_only _ _ _ (c.1, s') Hs Hin eq_refl).
  - intros Hobj. apply select_dtypes_object_elem_of. exists c.2.
    split; [by destruct c|done].
Qed.

Lemma select_dtypes_object_once_NoDup d :
  (forall col, col ∈ select_dtypes_object d ->
               exists s, getitem d col = inr (Column s)) ->
  NoDup (select_dtypes_object d).
Proof.
  intros Hsingle. apply (sublist_once_NoDup (columns d)).
  - unfold select_dtypes_object, columns. apply fmap_sublist, sublist_filter.
  - intros col Hcol. by apply getitem_Column_iff, Hsingle.
Qed.

Lemma infer_types_by_column d d' :
  infer_types d = inr d' ->
  d' = mkFrame (index d)
         ((fun c => if decide (dtype c.2 = object) then (c.1, infer_series c.2) else c)
            <$> cols d).
Proof.
  intros Hinf.
  unfold infer_types in Hinf.
    pose proof (convert_dates_loop datetime_of (select_dtypes_object d) d
                  (select_dtypes_object_columns d)) as Hloop.
    destruct (for_each _ convert_dates d) as [e|d1] eqn:H1; simpl in Hinf; [done|].
    pose proof H1 as H1'.
    rewrite (for_each_map convert_dates_series) in H1';
      [|intros; by apply convert_dates_Column
       |by apply select_dtypes_object_once_NoDup|done].
    injection H1' as H1'.
    assert (cols d1 = (fun c => if decide (dtype c.2 = object)
                                then (c.1, convert_dates_series c.2) else c) <$> cols d)
      as Hd1.
    { rewrite <- H1'. simpl. apply Forall_fmap_ext, Forall_forall. intros c Hc.
      pose proof (select_dtypes_object_single d c Hloop Hc) as Hiff.
      case_bool_decide as Hn; case_decide as Ho; tauto. }
    assert (index d1 = index d) as Hi1 by (by rewrite <- H1').
    assert (forall col, col ∈ select_dtypes_object d1 ->
                        exists s, getitem d1 col = inr (Column s)) as Hsingle1.
    { intros col Hcol. apply getitem_Column_iff.
      assert (columns d1 = columns d) as ->.
      { eapply for_each_shape; [|exact H1]. apply convert_dates_shape. }
      apply getitem_Column_iff, Hloop.
      by apply (convert_dates_loop_object datetime_of _ _ _ _ H1). }
    rewrite (for_each_map to_numeric_series) in Hinf;
      [|intros; by apply convert_numeric_Column
       |by apply select_dtypes_object_once_NoDup|done].
    injection Hinf as <-. rewrite Hi1. f_equal.
    rewrite Hd1, <- list_fmap_compose.
    apply Forall_fmap_ext, Forall_forall. intros c Hc. simpl.
    set (c1 := if decide (dtype c.2 = object)
               then (c.1, convert_dates_series c.2) else c).
    assert (c1 ∈ cols d1) as Hc1.
    { rewrite Hd1. apply list_elem_of_fmap. by exists c. }
    pose proof (select_dtypes_object_single d1 c1 Hsingle1 Hc1) as Hiff.
    unfold infer_series. subst c1.
    destruct (decide (dtype c.2 = object)) as [Ho|Ho]; simpl in *.
    - case_bool_decide as Hn; case_decide as Ho1; tauto || done.
    - case_bool_decide as Hn; [tauto|done].
Qed.

(** X5.  The loops act column by column: when they raise nothing, every
    column that is not text is left as it is, and every text column is
    replaced by its date step followed, if it is still text, by its
    numeric step. *)
Theorem infer_types_columns d d' :
  infer_types d = inr d' ->
  d' = mkFrame (index d)
         ((fun c => if decide (dtype c.2 = object) then (c.1, infer_series c.2) else c)
            <$> cols d)
  /\ Forall2 (fun c c' => c'.1 = c.1 /\ (dtype c.2 <> object -> c' = c)) (cols d) (cols d').
Proof.
  intros Hinf. apply infer_types_by_column in Hinf as ->.
  split; [done|]. simpl.
  apply Forall2_fmap_r, Forall2_same_length_lookup_2; [done|].
  intros i c c' Hc Hc'. rewrite Hc in Hc'. injection Hc' as <-.
  simpl. split; [by case_decide|]. intros Hn. by rewrite decide_False.
Qed.

(** ** Missing cells through the type inferencer *)

Lemma to_datetime_series_isna s :
  Forall2 (fun c c' => isna c = true -> isna c' = true)
          (values s) (values (to_datetime_series s)).
Proof.
  unfold to_datetime_series. simpl.
  apply Forall2_fmap_r, Forall2_same_length_lookup_2; [done|].
  intros i c c' Hc Hc'. rewrite Hc in Hc'. injection Hc' as <-. simpl.
  by intros ->.
Qed.

Lemma to_numeric_series_isna s :
  Forall2 (fun c c' => isna c = true -> isna c' = true)
          (values s) (values (to_numeric_series s)).
Proof.
  destruct (mapM (numeric_of parse_numeric) (values s)) as [vs|] eqn:Hm.
  - destruct (to_numeric_series_cells parse_numeric s vs Hm) as (_ & _ & Hrel).
    eapply Forall2_impl; [exact Hrel|]. intros c c' (v & Hv & [->| ->]) Hc.
    + by eapply numeric_of_isna.
    + rewrite number_of_isna. by eapply numeric_of_isna.
  - unfold to_numeric_series. rewrite Hm.
    apply Forall2_same_length_lookup_2; [done|]. intros i c c' Hc Hc'. congruence.
Qed.

Lemma notna_sum_le (l k : list cell) :
  Forall2 (fun c c' => isna c = true -> isna c' = true) l k ->
  length (filter (fun c => notna c = true) k) <= length (filter (fun c => notna c = true) l).
Proof.
  induction 1 as [|c c' l k Hc _ IH]; [done|].
  rewrite !filter_cons. repeat case_decide; simpl; try lia.
  exfalso. unfold notna in *. destruct (isna c); [|done].
  rewrite (Hc eq_refl) in *. done.
Qed.

(** X6.  The type inferencer repairs no missing cell: a cell that is missing
    is missing in the column the two steps return, so the dates that
    parse are never more than the cells that were not missing. *)
Theorem inference_keeps_missing s :
  Forall2 (fun c c' => isna c = true -> isna c' = true) (values s) (values (infer_series s))
  /\ notna_sum (to_datetime_series s) <= notna_sum s
  /\ length (values (infer_series s)) = length (values s).
Proof.
  assert (Forall2 (fun c c' => isna c = true -> isna c' = true)
            (values s) (values (convert_dates_series s))) as Hdates.
  { unfold convert_dates_series. destruct (_ && _); [apply to_datetime_series_isna|].
    apply Forall2_same_length_lookup_2; [done|]. intros i c c' Hc Hc'. congruence. }
  assert (Forall2 (fun c c' => isna c = true -> isna c' = true)
            (values s) (values (infer_series s))) as Hall.
  { unfold infer_series. case_decide; [|done].
    eapply Forall2_trans; [|exact Hdates|apply to_numeric_series_isna].
    simpl. intros c c' c'' H1 H2 Hc. auto. }
  split; [done|]. split; [apply notna_sum_le, to_datetime_series_isna|].
  symmetry. by eapply Forall2_length.
Qed.

End Inferred.

(** ** The cell normaliser, again *)

(** X7.  The cell normaliser is idempotent, and what it returns for a string
    is the missing marker or a string that it leaves as it is: tidy, and
    none of the sentinels in any case. *)
Theorem clean_cell_twice (c : cell) :
  clean_cell (clean_cell c) = clean_cell c
  /\ tidy_text (clean_cell c)
  /\ (forall s, c = Str s -> clean_cell c = NA \/ exists r, clean_cell c = Str r)
  /\ (isna c = true -> clean_cell c = c).
Proof.
  split; [apply clean_cell_idemp|]. split; [|split].
  - intros r Hr. destruct c as [| | |s| | |]; try done.
    rewrite clean_cell_Str in Hr. simpl in Hr. case_bool_decide as Hs; [done|].
    injection Hr as <-. split; [apply PyFacts.collapse_strip_normalized|].
    intros x Hx Heq. apply Hs. unfold eq_nocase in Heq.
    by rewrite Heq, (lower_sentinel x Hx).
  - intros s ->. rewrite clean_cell_Str. simpl. case_bool_decide; eauto.
  - by destruct c.
Qed.

Section Typed.
Variable datetime_of : list cell -> cell -> option Z.
Variable parse_numeric : string -> option float64.

#[local] Abbreviation clean := (clean datetime_of parse_numeric).
#[local] Abbreviation stages := (stages datetime_of parse_numeric).
#[local] Abbreviation infer_types := (infer_types datetime_of parse_numeric).
#[local] Abbreviation infer_series := (infer_series datetime_of parse_numeric).
#[local] Abbreviation convert_dates_series := (convert_dates_series datetime_of).
#[local] Abbreviation to_datetime_series := (to_datetime_series datetime_of).
#[local] Abbreviation to_numeric_series := (to_numeric_series parse_numeric).
Implicit Types (d t out : DataFrame) (col : string) (s : Series).

(** X8.  Every text cell of the table [clean] returns is tidy: stripped, with
    single spaces, and none of "null", "unknown" and "error" in any
    case. *)
Theorem cleaned_text_cells t out :
  clean t = inr out -> cells tidy_text out.
Proof.
  rewrite clean_stages. intros Hst%stages_cells. unfold cells in *.
  eapply Forall_impl; [exact Hst|]. intros c Hc. simpl in *.
  eapply Forall_impl; [exact Hc|]. intros v Hv s ->.
  rewrite clean_cell_Str in Hv. simpl in Hv. case_bool_decide as Hs; [done|].
  injection Hv as Hv. split.
  - rewrite <- Hv. apply PyFacts.collapse_strip_normalized.
  - intros x Hx Heq. apply Hs. unfold eq_nocase in Heq.
    by rewrite Hv, Heq, (lower_sentinel x Hx).
Qed.

(** ** Dtypes and cells *)


Lemma to_datetime_series_typed s : series_typed (to_datetime_series s).
Proof.
  unfold series_typed, to_datetime_series. simpl.
  apply Forall_fmap, Forall_forall. intros c _. simpl.
  destruct (isna c); [by left|]. destruct (datetime_of _ c); [right; eauto|by left].
Qed.

Lemma to_numeric_series_typed s : series_typed s -> series_typed (to_numeric_series s).
Proof.
  intros Hs. unfold to_numeric_series.
  destruct (mapM _ (values s)) as [vs|] eqn:Hm; [|done].
  apply mapM_Some in Hm.
  assert (Forall (fun v => v = NaN \/ is_number v = true) vs) as Hnum.
  { clear -Hm. induction Hm as [|c c' l l' Hc _ IH]; constructor; [|done].
    by eapply numeric_of_number. }
  destruct vs as [|v vs]; [constructor|].
  destruct (forallb is_bool (v :: vs)) eqn:Hb; unfold series_typed; cbn [dtype values].
  - apply Forall_forall. intros c Hc%list_elem_of_In.
    rewrite forallb_forall in Hb. specialize (Hb c Hc). destruct c; try done. simpl. eauto.
  - apply Forall_fmap. eapply Forall_impl; [exact Hnum|].
    intros c [->|Hc]; simpl; [by left|right]. destruct c; try done; simpl; eauto.
Qed.

Lemma infer_series_typed s : series_typed s -> series_typed (infer_series s).
Proof.
  intros Hs. unfold infer_series.
  assert (series_typed (convert_dates_series s)) as Hd.
  { unfold convert_dates_series. destruct (_ && _); [apply to_datetime_series_typed|done]. }
  case_decide; [by apply to_numeric_series_typed|done].
Qed.

Lemma well_typed_applymap d : well_typed d -> well_typed (applymap clean_cell d).
Proof.
  unfold well_typed, applymap. simpl. intros Hd. apply Forall_fmap.
  eapply Forall_impl; [exact Hd|]. intros c Hc. simpl.
  apply Forall_fmap. eapply Forall_impl; [exact Hc|]. intros v Hv. simpl.
  destruct (dtype c.2); simpl in *; [done| | |].
  - destruct Hv as [->|[x ->]]; simpl; eauto.
  - destruct Hv as [b ->]; simpl; eauto.
  - destruct Hv as [->|[x ->]]; simpl; eauto.
Qed.

Lemma well_typed_take_rows m d : well_typed d -> well_typed (take_rows m d).
Proof.
  unfold well_typed, take_rows. simpl. intros Hd. apply Forall_fmap.
  eapply Forall_impl; [exact Hd|]. intros c Hc. simpl.
  eapply Forall_sublist_of; [exact Hc|apply take_mask_sublist].
Qed.

Lemma well_typed_prune d : well_typed d -> well_typed (prune d).
Proof.
  intros Hd. unfold prune, dropna. apply well_typed_take_rows.
  unfold drop_duplicates. destruct (empty _); [|apply well_typed_take_rows].
  all: unfold well_typed, dropna_columns_all; simpl;
    eapply Forall_sublist_of; [exact Hd|apply sublist_filter].
Qed.

(** X9.  Dtypes and cells agree in the table [clean] returns when they agree
    in its input: a numeric column holds numbers, a boolean column
    booleans and a datetime column timestamps, none of them missing. *)
Theorem output_well_typed t out :
  aligned t -> well_typed t -> clean t = inr out ->
  well_typed out
  /\ Forall (fun c => Forall (fun v =>
               match dtype c.2 with
               | object => isna v = false
               | numeric => exists x, v = Num x
               | boolean => exists b, v = Bool b
               | datetime64 => exists ns, v = Timestamp ns
               end) (values c.2)) (cols out).
Proof.
  intros Hal Hty Hc. rewrite clean_stages in Hc.
  assert (well_typed out) as Hout.
  { destruct (stages_inr _ _ _ _ Hc) as (d & Hd & ->). apply well_typed_prune.
    apply infer_types_by_column in Hd as ->. unfold well_typed. simpl.
    assert (well_typed (applymap clean_cell (normalize_names t))) as Hd.
    { apply well_typed_applymap. unfold well_typed. rewrite cols_normalize_names.
      apply Forall_fmap. eapply Forall_sublist_of; [|apply take_mask_sublist].
      exact Hty. }
    apply Forall_fmap. eapply Forall_impl; [exact Hd|]. intros c Hcc. simpl.
    case_decide; [|done]. simpl. by apply infer_series_typed. }
  split; [done|].
  destruct (stages_shape _ _ _ _ Hc) as (d & -> & _ & _ & Hd).
  destruct (prune_spec d (Hd Hal)) as (_ & _ & Hcells & _).
  unfold well_typed in Hout. rewrite Forall_forall in Hout, Hcells.
  apply Forall_forall. intros c Hcc. specialize (Hout c Hcc). specialize (Hcells c Hcc).
  rewrite Forall_forall in Hout, Hcells. apply Forall_forall. intros v Hv.
  specialize (Hout v Hv). specialize (Hcells v Hv).
  destruct (dtype c.2); simpl in *; [done| |done|].
  - destruct Hout as [->|?]; [done|done].
  - destruct Hout as [->|?]; [done|done].
Qed.

End Typed.

(** * The pruner, call by call *)

Section Pruner.
Implicit Types (d : DataFrame) (m : list bool).

Lemma take_rows_no_index m d : aligned d -> index d = [] -> take_rows m d = d.
Proof.
  intros Hal Hi. destruct d as [idx cs]. unfold take_rows, aligned in *. simpl in *.
  subst idx. rewrite take_mask_nil_r. f_equal.
  rewrite <- (list_fmap_id cs) at 2. apply Forall_fmap_ext.
  eapply Forall_impl; [exact Hal|]. intros [n [ty vs]] Hc. simpl in *.
  apply length_zero_iff_nil in Hc as ->. by rewrite take_mask_nil_r.
Qed.

(** With a column, [drop_duplicates] keeps the first row of each key. *)
Lemma drop_duplicates_keep_first d :
  aligned d -> cols d <> [] -> drop_duplicates d = keep_first_rows d.
Proof.
  intros Hal Hc. unfold drop_duplicates, keep_first_rows.
  destruct (empty d) eqn:He; [|done].
  apply empty_true in He as [Hi|?]; [|done]. by rewrite take_rows_no_index.
Qed.

Lemma notna_cell_key c : notna (cell_key c) = notna c.
Proof. by destruct c. Qed.

Lemma complete_key (r : list cell) : forallb notna (map cell_key r) = forallb notna r.
Proof. induction r as [|c r IH]; simpl; [done|]. by rewrite notna_cell_key, IH. Qed.

(** X10.  Of the rows that bear one key [drop_duplicates] keeps the first and
    drops the others; a frame without columns is returned with all its
    row labels. *)
Theorem drop_duplicates_first d :
  aligned d ->
  let key (r : list cell) := map cell_key r in
  (cols d = [] -> drop_duplicates d = d)
  /\ (cols d <> [] ->
      rows (drop_duplicates d) `sublist_of` rows d
      /\ NoDup (key <$> rows (drop_duplicates d))
      /\ (forall r, r ∈ rows d -> key r ∈ key <$> rows (drop_duplicates d))
      /\ (forall i r, rows d !! i = Some r ->
            (forall j r', j < i -> rows d !! j = Some r' -> key r' <> key r) ->
            r ∈ rows (drop_duplicates d))).
Proof.
  intros Hal key. split.
  - intros Hc. unfold drop_duplicates, empty. rewrite Hc. by destruct (index d).
  - intros Hc. rewrite (drop_duplicates_keep_first d Hal Hc).
    unfold keep_first_rows. rewrite rows_take_rows.
    split; [apply take_mask_sublist|]. split; [apply kept_keys_NoDup|]. split.
    + intros r Hr. rewrite take_mask_fmap. apply kept_elem_of.
      by apply (list_elem_of_fmap_2 key).
    + intros i r Hi Hnone. eapply take_mask_lookup; [|exact Hi].
      rewrite list_lookup_fmap.
      assert ((key <$> rows d) !! i = Some (key r)) as Hk
        by (by rewrite list_lookup_fmap, Hi).
      unfold duplicated. rewrite (duplicated_from_lookup _ _ _ _ Hk). simpl. f_equal.
      apply negb_true_iff, bool_decide_eq_false. intros [[]%elem_of_nil|Hin].
      apply list_elem_of_lookup in Hin as (j & Hj).
      apply lookup_take_Some in Hj as [Hj Hlt]. rewrite list_lookup_fmap in Hj.
      destruct (rows d !! j) as [r'|] eqn:Hr'; [|done]. injection Hj as Hj.
      by apply (Hnone j r').
Qed.

(** Keeping first rows and keeping rows of a kind, in either order. *)
Lemma take_mask_first_of_kind {K B} `{EqDecision K} (P : K -> bool)
    (seen seen' : list K) (ks : list K) (l : list B) :
  (forall k, P k = true -> k ∈ seen' <-> k ∈ seen) ->
  take_mask (negb <$> duplicated_from seen' (take_mask (P <$> ks) ks))
            (take_mask (P <$> ks) l)
  = take_mask (take_mask (negb <$> duplicated_from seen ks) (P <$> ks))
              (take_mask (negb <$> duplicated_from seen ks) l).
Proof.
  revert seen seen' l. induction ks as [|k ks IH]; intros seen seen' l Hseen.
  - reflexivity.
  - destruct l as [|x l]; [by rewrite !take_mask_nil_r|].
    rewrite !fmap_cons. cbn [duplicated_from fmap list_fmap take_mask].
    destruct (P k) eqn:Hk.
    + cbn [duplicated_from fmap list_fmap take_mask].
      rewrite (bool_decide_ext (k ∈ seen') (k ∈ seen)) by (by apply Hseen).
      assert (IH' := IH (k :: seen) (k :: seen') l).
      destruct (bool_decide (k ∈ seen)); cbn [negb take_mask];
        [apply IH'|f_equal; apply IH'];
        intros k' Hk'; rewrite !elem_of_cons, (Hseen k' Hk'); done.
    + assert (IH' := IH (k :: seen) seen' l).
      destruct (bool_decide (k ∈ seen)); cbn [negb take_mask]; apply IH';
        intros k' Hk'; rewrite elem_of_cons, (Hseen k' Hk'); split; auto;
        intros [->|?]; [congruence|done|congruence|done].
Qed.

(** X11.  The two row prunings commute: dropping the repeated rows and then
    the rows with a missing cell gives the frame that dropping the rows
    with a missing cell and then the repeated rows gives. *)
Theorem prune_rows_commute d :
  aligned d -> dropna (drop_duplicates d) = drop_duplicates (dropna d).
Proof.
  intros Hal. destruct (decide (cols d = [])) as [Hc|Hc].
  - assert (drop_duplicates d = d) as ->.
    { unfold drop_duplicates, empty. rewrite Hc. by destruct (index d). }
    unfold drop_duplicates, empty.
    rewrite (proj2 (cols_dropna d) Hc). by destruct (index (dropna d)).
  - rewrite (drop_duplicates_keep_first d Hal Hc).
    rewrite (drop_duplicates_keep_first (dropna d));
      [|by apply aligned_dropna|by rewrite cols_dropna].
    unfold keep_first_rows, dropna. rewrite !rows_take_rows.
    set (R := rows d). set (key := map cell_key).
    assert (forallb notna <$> R = forallb notna <$> (key <$> R)) as HC.
    { rewrite <- list_fmap_compose. apply list_fmap_ext.
      intros i r _. simpl. symmetry. apply complete_key. }
    rewrite !take_mask_fmap.
    rewrite HC. set (K := key <$> R).
    unfold take_rows. simpl. unfold duplicated. f_equal.
    + symmetry. by apply take_mask_first_of_kind.
    + rewrite <- !list_fmap_compose. apply list_fmap_ext. intros i c _. simpl.
      do 2 f_equal. symmetry. by apply take_mask_first_of_kind.
Qed.

End Pruner.

(** * File names *)

Section FileNames.
Variable sep : ascii.
Implicit Types (s b e : string).

Lemma has_char_cons a s :
  Py.has_char sep (String a s) = Ascii.eqb a sep || Py.has_char sep s.
Proof. unfold Py.has_char. simpl. by destruct (Ascii.eqb a sep). Qed.

Lemma has_char_app b e :
  Py.has_char sep (b ++ e) = Py.has_char sep b || Py.has_char sep e.
Proof.
  induction b as [|a b IH]; [done|].
  rewrite PyFacts.append_cons, !has_char_cons, IH. apply orb_assoc.
Qed.

Lemma split_on_cons s : exists w ws, Py.split_on sep s = w :: ws.
Proof.
  destruct s as [|a s]; simpl; [by eexists _, _|].
  destruct (Ascii.eqb a sep); [by eexists _, _|].
  destruct (Py.split_on sep s); by eexists _, _.
Qed.

Lemma split_on_none s : Py.has_char sep s = false -> Py.split_on sep s = [s].
Proof.
  induction s as [|a s IH]; [done|]. rewrite has_char_cons.
  intros [Ha Hs]%orb_false_iff. simpl. by rewrite Ha, (IH Hs).
Qed.

Lemma split_on_single s w : Py.split_on sep s = [w] -> Py.has_char sep s = false.
Proof.
  revert w. induction s as [|a s IH]; intros w Hw; [done|].
  rewrite has_char_cons. simpl in Hw. destruct (Ascii.eqb a sep) eqn:Ha.
  - destruct (split_on_cons s) as (? & ? & Hs). rewrite Hs in Hw. discriminate.
  - simpl. destruct (split_on_cons s) as (w' & ws' & Hs). rewrite Hs in Hw.
    injection Hw as _ ->. by apply (IH w').
Qed.

Lemma last_split_on_cons a s :
  Py.has_char sep s = true ->
  Py.item_last (Py.split_on sep (String a s)) = Py.item_last (Py.split_on sep s).
Proof.
  intros Hs. simpl. destruct (split_on_cons s) as (w & ws & Hw).
  assert (ws <> []) as Hws.
  { intros ->. apply split_on_single in Hw. congruence. }
  rewrite Hw. unfold Py.item_last.
  destruct (Ascii.eqb a sep), ws; done.
Qed.

Lemma last_split_on_app b e :
  Py.has_char sep e = false ->
  Py.item_last (Py.split_on sep (b ++ String sep e)) = e.
Proof.
  intros He. induction b as [|a b IH].
  - change (EmptyString ++ String sep e) with (String sep e). simpl.
    rewrite Ascii.eqb_refl, (split_on_none e He). done.
  - rewrite PyFacts.append_cons, last_split_on_cons; [done|].
    rewrite has_char_app, has_char_cons, Ascii.eqb_refl. apply orb_true_r.
Qed.

Lemma rcut_none s : Py.has_char sep s = false -> Py.rcut sep s = None.
Proof.
  induction s as [|a s IH]; [done|]. rewrite has_char_cons.
  intros [Ha Hs]%orb_false_iff. simpl. by rewrite (IH Hs), Ha.
Qed.

Lemma rcut_app b e :
  Py.has_char sep e = false -> Py.rcut sep (b ++ String sep e) = Some (b, e).
Proof.
  intros He. induction b as [|a b IH].
  - change (EmptyString ++ String sep e) with (String sep e). simpl.
    by rewrite (rcut_none e He), Ascii.eqb_refl.
  - rewrite PyFacts.append_cons. simpl. by rewrite IH.
Qed.

(** A string with the separator is cut at its last one. *)
Lemma last_cut s :
  Py.has_char sep s = true ->
  exists b e, s = b ++ String sep e /\ Py.has_char sep e = false.
Proof.
  induction s as [|a s IH]; [done|]. rewrite has_char_cons.
  destruct (Py.has_char sep s) eqn:Hs.
  - intros _. destruct (IH eq_refl) as (b & e & -> & He).
    exists (String a b), e. by rewrite PyFacts.append_cons.
  - rewrite orb_false_r. intros ->%Ascii.eqb_eq. by exists EmptyString, s.
Qed.

End FileNames.

Lemma append_assoc (s t u : string) : (s ++ t) ++ u = s ++ (t ++ u).
Proof. induction s as [|a s IH]; [done|]. by rewrite !PyFacts.append_cons, IH. Qed.

Lemma file_name_cut b e :
  Py.has_char "." e = false ->
  base_name (b ++ "." ++ e) = b /\ extension (b ++ "." ++ e) = Py.lower e.
Proof.
  intros He. unfold base_name, extension, Py.rsplit1.
  change ("." ++ e) with (String "." e).
  by rewrite (rcut_app _ b e He), (last_split_on_app _ b e He).
Qed.

(** X12.  The parts of a file name.  A name without a dot is its own stem and,
    in lower case, its own extension; a name with a dot is cut at its
    last dot, into the stem and what the extension is the lower case
    of, and one of the two cases holds. *)
Theorem file_name_parts (file_name : string) :
  (Py.has_char "." file_name = false ->
     base_name file_name = file_name /\ extension file_name = Py.lower file_name)
  /\ (forall b e, file_name = b ++ "." ++ e -> Py.has_char "." e = false ->
        base_name file_name = b /\ extension file_name = Py.lower e)
  /\ (Py.has_char "." file_name = true ->
        exists e, file_name = base_name file_name ++ "." ++ e
                  /\ Py.has_char "." e = false).
Proof.
  split; [|split].
  - intros Hn. unfold base_name, extension, Py.rsplit1.
    by rewrite (rcut_none _ _ Hn), (split_on_none _ _ Hn).
  - intros b e -> He. by apply file_name_cut.
  - intros Hn. destruct (last_cut _ _ Hn) as (b & e & -> & He).
    destruct (file_name_cut b e He) as [Hb _].
    change ("." ++ e) with (String "." e) in Hb. exists e. by rewrite Hb.
Qed.

(** X13.  The name of the download: the stem of the upload between [clean_]
    and [.csv], whatever the extension of the upload was; the page
    takes a file of that name for a CSV file. *)
Theorem new_file_name_csv (file_name : string) :
  extension (new_file_name file_name) = "csv"
  /\ base_name (new_file_name file_name) = "clean_" ++ base_name file_name
  /\ forall other, base_name other = base_name file_name ->
       new_file_name other = new_file_name file_name.
Proof.
  unfold new_file_name.
  rewrite <- (append_assoc "clean_" (base_name file_name) ".csv").
  change (".csv") with ("." ++ "csv").
  destruct (file_name_cut ("clean_" ++ base_name file_name) "csv" eq_refl) as [Hb He].
  split; [exact He|]. split; [exact Hb|]. by intros other ->.
Qed.

(** * The page *)

Section Preview.
Implicit Types (d : DataFrame).

(** X14.  The preview [df.head()]: the first five rows under the same column
    names, and the frame itself when it has no more than five rows. *)
Theorem head_rows d :
  aligned d ->
  rows (head d) = take 5 (rows d)
  /\ columns (head d) = columns d
  /\ aligned (head d)
  /\ (length (index d) <= 5 -> head d = d).
Proof.
  intros Hal. split; [|split; [|split]].
  - unfold rows, head. cbn [index cols]. destruct d as [idx cs]. cbn [index cols] in *.
    clear Hal. induction cs as [|c cs IH].
    + simpl. rewrite length_take. rewrite take_replicate. done.
    + rewrite fmap_cons. cbn [foldr]. rewrite IH. cbn [snd values].
      by rewrite zip_with_take.
  - unfold columns, head. cbn [cols]. rewrite <- list_fmap_compose.
    by apply list_fmap_ext.
  - unfold aligned, head in *. cbn [index cols]. apply Forall_fmap.
    eapply Forall_impl; [exact Hal|]. intros c Hc. simpl.
    by rewrite !length_take, Hc.
  - intros Hle. destruct d as [idx cs]. unfold head, aligned in *. cbn [index cols] in *.
    rewrite take_ge by lia. f_equal.
    rewrite <- (list_fmap_id cs) at 2. apply Forall_fmap_ext.
    eapply Forall_impl; [exact Hal|]. intros [n [ty vs]] Hc. simpl in *.
    by rewrite take_ge by lia.
Qed.

End Preview.

Section PageFacts.
Variable UploadedFile : Type.
Variable name : UploadedFile -> string.
Variable read_csv read_excel : UploadedFile -> exception + DataFrame.
Variable to_csv_utf8 : DataFrame -> string.
Variable str : exception -> string.
Variable datetime_of : list cell -> cell -> option Z.
Variable parse_numeric : string -> option float64.

#[local] Abbreviation clean := (clean datetime_of parse_numeric).
#[local] Abbreviation process :=
  (process UploadedFile name read_csv read_excel to_csv_utf8 str datetime_of parse_numeric).
#[local] Abbreviation process_body :=
  (process_body UploadedFile name read_csv read_excel to_csv_utf8 datetime_of parse_numeric).
#[local] Abbreviation page :=
  (page UploadedFile name read_csv read_excel to_csv_utf8 str datetime_of parse_numeric).
Implicit Types (f : UploadedFile) (fs : list UploadedFile).

(** What the page offers for one file. *)
Lemma process_offer f :
  (process f).2 = inr ()
  /\ downloads (process f).1
     = (if bool_decide (extension (name f) ∈ ["csv"; "xlsx"; "xls"]) then
          match (if bool_decide (extension (name f) = "csv")
                 then read_csv f else read_excel f) with
          | inr df => match clean df with
                      | inr out => [(new_file_name (name f), to_csv_utf8 out)]
                      | inl _ => []
                      end
          | inl _ => []
          end
        else [])
  /\ length (downloads (process f).1) + length (errors (process f).1) = 1.
Proof.
  unfold process, process_body, try_except.
  rewrite (bool_decide_ext (extension (name f) ∈ ["csv"; "xlsx"; "xls"])
             (extension (name f) = "csv" \/ extension (name f) ∈ ["xlsx"; "xls"]))
    by (rewrite (elem_of_cons _ (extension (name f)) "csv"); done).
  case_bool_decide as Hext; [|done].
  destruct (if bool_decide (extension (name f) = "csv") then read_csv f else read_excel f)
    as [e|df]; [done|].
  simpl. destruct (clean df) as [e|out]; done.
Qed.

Lemma page_cons f fs :
  page (f :: fs) = (((process f).1 ++ (page fs).1)%list, (page fs).2).
Proof.
  change (page (f :: fs)) with (process f;; page fs). destruct (process_offer f) as [Hr _].
  destruct (process f) as [out r]. simpl in Hr. subst r.
  unfold mbind, UI_bind. by destruct (page fs).
Qed.

(** X15.  The loop visits every uploaded file, in order: what a file does,
    an unsupported type, a reader or the pipeline raising, does not
    keep the page from the files after it, and the page ends without
    an exception. *)
Theorem page_every_file fs :
  page fs = (concat ((fun f => (process f).1) <$> fs), inr ()).
Proof.
  induction fs as [|f fs IH]; [done|].
  rewrite page_cons, IH. done.
Qed.

(** X16.  One file, one outcome: the page shows one download button or one
    error message for each file.  The buttons are those of the files
    of an accepted type that the reader and the pipeline returned a
    frame for, in the order of the files, each with the name
    [new_file_name] and the cleaned frame as its content. *)
Theorem page_downloads fs :
  downloads (page fs).1
  = omap (fun f =>
            if bool_decide (extension (name f) ∈ ["csv"; "xlsx"; "xls"]) then
              match (if bool_decide (extension (name f) = "csv")
                     then read_csv f else read_excel f) with
              | inr df => match clean df with
                          | inr out => Some (new_file_name (name f), to_csv_utf8 out)
                          | inl _ => None
                          end
              | inl _ => None
              end
            else None) fs
  /\ length (downloads (page fs).1) + length (errors (page fs).1) = length fs.
Proof.
  induction fs as [|f fs [IH1 IH2]]; [done|].
  assert (forall a b, downloads (a ++ b) = (downloads a ++ downloads b)%list) as Hda
    by (intros; apply omap_app).
  assert (forall a b, errors (a ++ b) = (errors a ++ errors b)%list) as Hea
    by (intros; apply omap_app).
  rewrite page_cons. cbn [fst]. rewrite Hda, Hea, !length_app.
  destruct (process_offer f) as (_ & Hd & Hn). split; [|cbn [length]; lia].
  cbn [omap list_omap]. rewrite Hd, IH1.
  case_bool_decide; [|done].
  destruct (if bool_decide _ then read_csv f else read_excel f) as [e|df]; [done|].
  by destruct (clean df).
Qed.

(** X17.  A file of an accepted type that is read into a frame [df]: when
    two names of [df] collide after normalisation, one of them the name
    of a text column, the page shows the raw preview and the message of
    a [ValueError], and no download; otherwise it shows both previews
    and the download of the cleaned frame. *)
Theorem page_file_outcome f df :
  extension (name f) ∈ ["csv"; "xlsx"; "xls"] ->
  (if bool_decide (extension (name f) = "csv") then read_csv f else read_excel f)
  = inr df ->
  ((exists col, col ∈ select_dtypes_object (normalize_names df)
                /\ length (filter (fun n => n = col) (columns (normalize_names df))) <> 1) ->
   process f
   = ([StSubheader ("Raw Data Preview - " ++ name f); StDataframe (head df);
       StError ("An error occurred while processing " ++ name f ++ ": "
                ++ str (Pandas ValueError))], inr ()))
  /\ ((forall col, col ∈ select_dtypes_object (normalize_names df) ->
                   length (filter (fun n => n = col) (columns (normalize_names df))) = 1) ->
      exists out,
        clean df = inr out
        /\ process f
           = ([StSubheader ("Raw Data Preview - " ++ name f); StDataframe (head df);
               StSubheader ("Cleaned Data Preview - " ++ name f); StDataframe (head out);
               StDownloadButton ("Download Clean CSV for " ++ name f) (to_csv_utf8 out)
                 (new_file_name (name f)) "text/csv"], inr ())).
Proof.
  intros Hext Hread.
  assert (process f
          = match clean df with
            | inl e =>
                ([StSubheader ("Raw Data Preview - " ++ name f); StDataframe (head df);
                  StError ("An error occurred while processing " ++ name f ++ ": "
                           ++ str (Pandas e))], inr ())
            | inr out =>
                ([StSubheader ("Raw Data Preview - " ++ name f); StDataframe (head df);
                  StSubheader ("Cleaned Data Preview - " ++ name f); StDataframe (head out);
                  StDownloadButton ("Download Clean CSV for " ++ name f) (to_csv_utf8 out)
                    (new_file_name (name f)) "text/csv"], inr ())
            end) as ->.
  { unfold process, process_body, try_except.
    rewrite bool_decide_true
      by (rewrite (elem_of_cons _ (extension (name f)) "csv") in Hext; done).
    rewrite Hread. simpl. by destruct (clean df). }
  split.
  - intros Hcol.
    by rewrite (proj2 (clean_raises_when datetime_of parse_numeric df ValueError)
                  (conj eq_refl Hcol)).
  - intros Hone. destruct (clean df) as [e|out] eqn:Hc; [|by exists out].
    apply clean_raises_when in Hc as (_ & col & Hcol & Hn).
    by destruct (Hn (Hone col Hcol)).
Qed.

End PageFacts.

(** * Blank cells and empty results through the pipeline *)

Section Blank.
Variable datetime_of : list cell -> cell -> option Z.
Variable parse_numeric : string -> option float64.

#[local] Abbreviation clean := (clean datetime_of parse_numeric).
#[local] Abbreviation stages := (stages datetime_of parse_numeric).
#[local] Abbreviation infer_types := (infer_types datetime_of parse_numeric).
#[local] Abbreviation infer_series := (infer_series datetime_of parse_numeric).
#[local] Abbreviation convert_dates_series := (convert_dates_series datetime_of).
#[local] Abbreviation to_datetime_series := (to_datetime_series datetime_of).
#[local] Abbreviation to_numeric_series := (to_numeric_series parse_numeric).
#[local] Abbreviation numeric_of := (numeric_of parse_numeric).
Implicit Types (d t out : DataFrame) (s : Series) (row : list cell).

(** ** The empty string in the numeric step *)

Lemma to_numeric_series_blank s i :
  values s !! i = Some (Str "") ->
  to_numeric_series s = s
  \/ (dtype (to_numeric_series s) = numeric
      /\ values (to_numeric_series s) !! i = Some NaN).
Proof.
  intros Hi. unfold to_numeric_series.
  destruct (mapM numeric_of (values s)) as [vs|] eqn:Hm; [right|by left].
  apply mapM_Some in Hm.
  destruct (Forall2_lookup_l _ _ _ _ _ Hm Hi) as (v & Hv & Hnum).
  injection Hnum as <-.
  destruct vs as [|v vs]; [done|].
  assert (forallb is_bool (v :: vs) = false) as ->.
  { apply not_true_is_false. intros Hb. rewrite forallb_forall in Hb.
    apply list_elem_of_lookup_2, list_elem_of_In, Hb in Hv. done. }
  cbn [dtype values]. split; [done|]. by rewrite list_lookup_fmap, Hv.
Qed.

(** What the two loops make of an empty string in a text column. *)
Lemma infer_series_blank s i :
  dtype s = object -> values s !! i = Some (Str "") ->
  infer_series s = s
  \/ (dtype (infer_series s) = numeric /\ values (infer_series s) !! i = Some NaN)
  \/ (dtype (infer_series s) = datetime64
      /\ values (infer_series s) !! i
         = Some (match datetime_of (values s) (Str "") with
                 | Some ns => Timestamp ns
                 | None => NaT
                 end)).
Proof.
  intros Hobj Hi. unfold infer_series, convert_dates_series.
  destruct (_ && _).
  - right. right. cbv zeta. rewrite decide_False by done.
    split; [done|]. unfold to_datetime_series. cbn [values].
    by rewrite list_lookup_fmap, Hi.
  - cbv zeta. rewrite decide_True by done.
    destruct (to_numeric_series_blank s i Hi) as [->|?]; auto.
Qed.

Lemma mapM_numeric_of_blank (l : list cell) :
  Forall (fun v => v = Str "" \/ v = NA \/ v = NaN) l ->
  mapM numeric_of l = Some (replicate (length l) NaN).
Proof.
  intros Hl. apply mapM_Some. induction Hl as [|v l Hv _ IH]; [constructor|].
  cbn [length replicate]. constructor; [|done]. by destruct Hv as [->|[->| ->]].
Qed.

Lemma filter_none {A} (P : A -> Prop) `{forall x, Decision (P x)} (l : list A) :
  filter P l = [] <-> Forall (fun x => ~ P x) l.
Proof.
  induction l as [|x l IH]; [by split|]. rewrite filter_cons, Forall_cons.
  case_decide; [|tauto]. split; [done|]. tauto.
Qed.

(** A text column of empty strings and missing cells only comes out of
    the two loops as a numeric column of [nan], when no date is read in
    the empty string. *)
Lemma infer_series_all_blank s :
  dtype s = object ->
  Forall (fun v => v = Str "" \/ v = NA \/ v = NaN) (values s) ->
  (forall l, datetime_of l (Str "") = None) ->
  infer_series s = mkSeries numeric (replicate (length (values s)) NaN).
Proof.
  intros Hobj Hs Hdate.
  assert (notna_sum (to_datetime_series s) = 0) as Hzero.
  { unfold notna_sum, to_datetime_series. cbn [values].
    apply length_zero_iff_nil, filter_none, Forall_fmap.
    eapply Forall_impl; [exact Hs|]. intros v [->|[->| ->]]; simpl; [|done..].
    by rewrite Hdate. }
  assert (convert_dates_series s = s) as Hdates.
  { unfold convert_dates_series. rewrite Hzero. unfold ratio_ge_80.
    destruct (notna_sum s) as [|n]; [done|].
    replace (4 * S n <=? 5 * 0)%nat with false; [by rewrite andb_false_r|].
    symmetry. apply Nat.leb_gt. lia. }
  unfold infer_series. rewrite Hdates, decide_True by done.
  unfold to_numeric_series. rewrite (mapM_numeric_of_blank _ Hs).
  destruct (values s) as [|v l]; [done|]. cbn [length replicate forallb is_bool andb].
  by rewrite fmap_cons, fmap_replicate.
Qed.

Lemma all_missing_dropped (n : string) (vs : list cell) ty d :
  Forall (fun v => isna v = true) vs -> (n, mkSeries ty vs) ∉ cols (dropna_columns_all d).
Proof.
  intros Hvs. unfold dropna_columns_all. cbn [cols].
  rewrite list_elem_of_filter. intros [Hex _]. cbn [snd values] in Hex.
  apply existsb_exists in Hex as (v & Hv%list_elem_of_In & Hn).
  rewrite Forall_forall in Hvs. unfold notna in Hn. by rewrite (Hvs v Hv) in Hn.
Qed.

(** ** Rows and columns that hold no missing cell, through the pruner *)

Lemma prune_keeps_column d c :
  c ∈ cols d -> existsb notna (values c.2) = true -> c.1 ∈ columns (prune d).
Proof.
  intros Hc Hex. unfold prune. rewrite columns_dropna, columns_drop_duplicates.
  unfold columns. apply list_elem_of_fmap. exists c. split; [done|].
  unfold dropna_columns_all. cbn [cols]. by apply list_elem_of_filter.
Qed.

Lemma rows_drop_duplicates_key d row :
  aligned d -> row ∈ rows d ->
  exists row', row' ∈ rows (drop_duplicates d) /\ map cell_key row' = map cell_key row.
Proof.
  intros Hal Hrow. destruct (decide (cols d = [])) as [Hc|Hc].
  - exists row. split; [|done]. unfold drop_duplicates, empty. rewrite Hc.
    by destruct (index d).
  - rewrite (drop_duplicates_keep_first d Hal Hc). unfold keep_first_rows.
    rewrite rows_take_rows.
    assert (map cell_key row ∈ map cell_key <$> rows d) as Hk
      by (by apply (list_elem_of_fmap_2 (map cell_key))).
    apply kept_elem_of in Hk. rewrite <- take_mask_fmap in Hk.
    apply list_elem_of_fmap in Hk as (row' & Hk & Hrow'). by exists row'.
Qed.

Lemma notna_key row row' :
  map cell_key row' = map cell_key row ->
  forallb notna row' = forallb notna row.
Proof. intros Hk. by rewrite <- (complete_key row'), Hk, complete_key. Qed.

Lemma prune_keeps_row d row :
  aligned d -> row ∈ rows (dropna_columns_all d) ->
  Forall (fun v => notna v = true) row ->
  exists row', row' ∈ rows (prune d) /\ map cell_key row' = map cell_key row.
Proof.
  intros Hal Hrow Hcells.
  destruct (rows_drop_duplicates_key (dropna_columns_all d) row) as (row' & Hrow' & Hk);
    [by apply aligned_dropna_columns_all|done|].
  exists row'. split; [|done]. unfold prune, dropna. rewrite rows_take_rows.
  apply take_mask_test_elem; [done|]. rewrite (notna_key _ _ Hk).
  apply forallb_forall. intros v Hv%list_elem_of_In.
  rewrite Forall_forall in Hcells. by apply Hcells.
Qed.

(** C9, as the code has it.  A string of white space only is normalised
    to the empty string, which is not a missing marker.  What the
    pruner sees of it is decided by the type inferencer, which runs
    before: in a text column that stays text the cell is still the
    empty string, in one that becomes numeric it is [nan], and in one
    that becomes a column of dates it is what the date parser reads in
    the empty string, [NaT] if nothing; a text column that holds
    nothing but empty strings and missing cells becomes numeric and is
    dropped with the columns whose cells are all missing.  An empty
    string that reaches the pruner keeps its column, and a row that
    holds no missing cell beside it is in the result, itself or an
    equal row before it; no row of the result holds a missing cell. *)
Theorem blank_cell_is_present t out :
  aligned t -> clean t = inr out ->
  exists d,
    infer_types (applymap clean_cell (normalize_names t)) = inr d
    /\ out = prune d
    /\ cols d
       = (fun c => if decide (dtype c.2 = object) then (c.1, infer_series c.2) else c)
           <$> cols (applymap clean_cell (normalize_names t))
    /\ (forall x : string, Py.all_chars Py.isspace x = true ->
                           clean_cell (Str x) = Str "" /\ isna (Str "") = false)
    /\ (forall s i, dtype s = object -> values s !! i = Some (Str "") ->
          infer_series s = s
          \/ (dtype (infer_series s) = numeric /\ values (infer_series s) !! i = Some NaN)
          \/ (dtype (infer_series s) = datetime64
              /\ values (infer_series s) !! i
                 = Some (match datetime_of (values s) (Str "") with
                         | Some ns => Timestamp ns
                         | None => NaT
                         end)))
    /\ (forall s n, dtype s = object ->
          Forall (fun v => v = Str "" \/ v = NA \/ v = NaN) (values s) ->
          (forall l, datetime_of l (Str "") = None) ->
          infer_series s = mkSeries numeric (replicate (length (values s)) NaN)
          /\ (n, infer_series s) ∉ cols (dropna_columns_all d))
    /\ (forall c, c ∈ cols d -> Str "" ∈ values c.2 -> c.1 ∈ columns out)
    /\ (forall row, row ∈ rows (dropna_columns_all d) ->
          Forall (fun v => v = Str "" \/ notna v = true) row ->
          exists row', row' ∈ rows out /\ map cell_key row' = map cell_key row)
    /\ Forall (Forall (fun v => isna v = false)) (rows out).
Proof.
  intros Hal Hout. rewrite clean_stages in Hout.
  destruct (stages_inr _ _ _ _ Hout) as (d & Hd & ->).
  assert (aligned d) as Hal'.
  { apply (infer_types_shape _ _ _ _ Hd).
    by apply aligned_applymap, aligned_normalize_names. }
  exists d. split; [done|]. split; [done|].
  split; [by rewrite (infer_types_by_column _ _ _ _ Hd)|].
  split; [|split; [|split; [|split; [|split]]]].
  - intros x Hx. split; [|done].
    rewrite clean_cell_Str. by rewrite (PyFacts.strip_all_space x Hx).
  - apply infer_series_blank.
  - intros s n Hobj Hs Hdate. pose proof (infer_series_all_blank s Hobj Hs Hdate) as Hi.
    split; [done|]. rewrite Hi. apply all_missing_dropped.
    apply Forall_forall. by intros v [-> _]%elem_of_replicate.
  - intros c Hc Hv. apply prune_keeps_column; [done|].
    apply existsb_exists. exists (Str ""). split; [by apply list_elem_of_In|done].
  - intros row Hrow Hcells. apply prune_keeps_row; [done..|].
    eapply Forall_impl; [exact Hcells|]. by intros v [->|?].
  - by destruct (prune_spec d Hal') as (_ & Hrows & _).
Qed.

(** ** Results without rows or without columns *)











End Blank.

(** * The statements on concrete tables *)

Import Tables.

Example scenario_clean : Sample.clean scenario = inr scenario_cleaned.
Proof. vm_compute. reflexivity. Qed.

Lemma aligned_scenario : aligned scenario.
Proof. unfold aligned. repeat constructor. Qed.

Lemma output_names_witness :
  Sample.clean scenario = inr scenario_cleaned
  /\ Forall (fun n => Py.all_chars Py.isword n = true) (columns scenario_cleaned).
Proof.
  split; [vm_compute; reflexivity|].
  apply (output_names Sample.datetime_of Sample.parse_numeric scenario scenario_cleaned).
  vm_compute; reflexivity.
Defined.

(** C1 fails as stated: the replacement sends "a b" and "a_b" to one
    name, after the duplicates were removed, and leaves the name of one
    space empty. *)
Lemma output_names_counterexample :
  exists out, Sample.clean names = inr out
              /\ columns out = ["a_b"; "a_b"; ""]
              /\ ~ Forall name_pattern (columns out)
              /\ ~ NoDup (columns out).
Proof.
  eexists. split; [vm_compute; reflexivity|]. split; [reflexivity|]. split.
  - intros H. apply Forall_forall with (x := "") in H; [by destruct H|].
    vm_compute. do 2 right. left.
  - intros H. vm_compute in H. apply NoDup_cons in H as [H _]. apply H. left.
Qed.

Lemma pruned_output_witness :
  aligned scenario /\ Sample.clean scenario = inr scenario_cleaned
  /\ Forall (Forall (fun v => isna v = false)) (rows scenario_cleaned).
Proof.
  split; [apply aligned_scenario|]. split; [vm_compute; reflexivity|].
  apply (pruned_output Sample.datetime_of Sample.parse_numeric scenario scenario_cleaned).
  - apply aligned_scenario.
  - vm_compute; reflexivity.
Defined.

(** C2 fails as stated: when every row has a missing cell the rows go
    and the columns stay, each of them all missing by the test of
    the column drop itself; and when every column is all missing the
    columns go and the row labels stay, two rows with the same (no)
    cells. *)
Lemma pruned_output_counterexample :
  (exists out, Sample.clean sparse = inr out
               /\ cols out <> []
               /\ Forall (fun c => all_missing c.2) (cols out)
               /\ dropna_columns_all out <> out)
  /\ (exists out, Sample.clean blank = inr out
                  /\ rows out = [[]; []] /\ ~ NoDup (rows out)).
Proof.
  split.
  - exists sparse_cleaned. split; [vm_compute; reflexivity|]. split; [done|].
    split; [repeat constructor|done].
  - eexists. split; [vm_compute; reflexivity|]. split; [reflexivity|].
    intros H. vm_compute in H. apply NoDup_cons in H as [H _]. apply H. left.
Qed.

Lemma clean_dataframe_effect_witness :
  ({[ 1%positive := padded ]} : gmap loc DataFrame) !! 1%positive = Some padded
  /\ exists r h',
       clean_dataframe Sample.datetime_of Sample.parse_numeric 1%positive
         {[ 1%positive := padded ]} = (r, h')
       /\ exists t', h' !! 1%positive = Some t' /\ columns t' = Py.strip <$> columns padded.
Proof.
  split; [apply lookup_singleton_eq|].
  destruct (clean_dataframe_effect Sample.datetime_of Sample.parse_numeric
              {[ 1%positive := padded ]} 1%positive padded (lookup_singleton_eq _ _))
    as (r & h' & Hrun & (t' & Ht' & _ & _ & Hc) & _).
  exists r, h'. split; [exact Hrun|]. exists t'. split; [exact Ht'|exact Hc].
Defined.

(** C3 fails as stated: the call strips the column names of the
    caller's frame in place. *)
Lemma input_renamed :
  exists r h',
    clean_dataframe Sample.datetime_of Sample.parse_numeric 1%positive
      {[ 1%positive := padded ]} = (r, h')
    /\ h' !! 1%positive = Some (mkFrame [0]%nat [("a", mkSeries numeric [Int 1])])
    /\ h' !! 1%positive <> Some padded.
Proof.
  eexists _, _. split; [vm_compute; reflexivity|]. split; [vm_compute; reflexivity|].
  vm_compute. discriminate.
Qed.

Lemma stays_text_scenario :
  Forall (fun c => dtype c.2 = object ->
                   stays_text Sample.datetime_of Sample.parse_numeric c.2)
         (cols scenario_cleaned).
Proof.
  repeat constructor; simpl; try discriminate; intros _; vm_compute; reflexivity.
Qed.

Lemma second_pass_witness :
  aligned scenario /\ Sample.clean scenario = inr scenario_cleaned
  /\ Sample.clean scenario_cleaned = inr scenario_cleaned.
Proof.
  split; [apply aligned_scenario|]. split; [vm_compute; reflexivity|].
  apply (second_pass Sample.datetime_of Sample.parse_numeric scenario scenario_cleaned).
  - apply aligned_scenario.
  - vm_compute; reflexivity.
  - left. discriminate.
  - apply (bool_decide_unpack (NoDup (columns scenario_cleaned))). vm_compute. exact I.
  - apply stays_text_scenario.
Defined.

(** C4 fails as stated: a table that comes out without rows loses its
    columns on the second pass, and a text column that was neither dates
    nor numbers can be numbers once rows are gone; an empty string in
    it is then read as [nan], and its row goes too. *)
Lemma second_pass_counterexample :
  (exists o1 o2, Sample.clean sparse = inr o1 /\ Sample.clean o1 = inr o2
                 /\ columns o1 = ["A"; "B"] /\ columns o2 = [])
  /\ (exists o1 o2, Sample.clean mixed = inr o1 /\ Sample.clean o1 = inr o2
                    /\ (dtype ∘ snd <$> cols o1) = [object; object]
                    /\ (dtype ∘ snd <$> cols o2) = [numeric; object])
  /\ Sample.clean blank_mixed
     = inr (mkFrame [0; 1]%nat [("A", text [""; "5"]); ("B", text ["b"; "c"])])
  /\ Sample.clean (mkFrame [0; 1]%nat [("A", text [""; "5"]); ("B", text ["b"; "c"])])
     = inr (mkFrame [1]%nat [("A", mkSeries numeric [Int 5]); ("B", text ["c"])]).
Proof.
  split; [|split; [|split]].
  - eexists _, _. split; [vm_compute; reflexivity|]. split; [vm_compute; reflexivity|]. done.
  - eexists _, _. split; [vm_compute; reflexivity|]. split; [vm_compute; reflexivity|]. done.
  - vm_compute. reflexivity.
  - vm_compute. reflexivity.
Qed.

Lemma date_threshold_witness :
  getitem four_of_five "when" = inr (Column (text ["2024-01-05"; "2024-01-06"; "soon"; "2024-01-07"; "2024-01-08"]))
  /\ convert_dates Sample.datetime_of "when" four_of_five
     = inr (mkFrame [0; 1; 2; 3; 4]%nat
              [("when", mkSeries datetime64
                          [Timestamp (Sample.date 2024 1 5); Timestamp (Sample.date 2024 1 6);
                           NaT; Timestamp (Sample.date 2024 1 7);
                           Timestamp (Sample.date 2024 1 8)])]).
Proof.
  split; [reflexivity|].
  destruct (date_threshold Sample.datetime_of four_of_five "when" _ eq_refl eq_refl)
    as (_ & H45 & _).
  rewrite (H45 eq_refl eq_refl). vm_compute. reflexivity.
Defined.

Example three_of_five_stays :
  convert_dates Sample.datetime_of "when" three_of_five = inr three_of_five.
Proof. vm_compute. reflexivity. Qed.

Lemma numeric_all_or_nothing_witness :
  dtype (text ["7"; ""; "-20"]) = object
  /\ to_numeric_series Sample.parse_numeric (text ["7"; ""; "-20"])
     = mkSeries numeric [Int 7; NaN; Int (-20)]
  /\ dtype (to_numeric_series Sample.parse_numeric (text ["7"; ""; "-20"])) <> object
  /\ Forall (fun c => c = NaN \/ is_number c = true)
       (values (to_numeric_series Sample.parse_numeric (text ["7"; ""; "-20"]))).
Proof.
  split; [reflexivity|]. split; [vm_compute; reflexivity|].
  destruct (numeric_all_or_nothing Sample.parse_numeric (text ["7"; ""; "-20"]) eq_refl)
    as (_ & Hall & _).
  destruct Hall as (Hdt & Hnum & _); [|done].
  intros c Hc. cbn in Hc.
  repeat (apply elem_of_cons in Hc as [->|Hc]; [vm_compute; eauto|]).
  by apply elem_of_nil in Hc.
Defined.

(** C6 fails as stated: the numeric step makes a cell missing that was
    not.  The empty string is a value, and in a column that converts it
    is read as [nan]. *)
Lemma numeric_reads_blank_as_missing :
  dtype (text [""; "5"]) = object
  /\ to_numeric_series Sample.parse_numeric (text [""; "5"]) = mkSeries numeric [NaN; Int 5]
  /\ isna (Str "") = false
  /\ ~ Forall2 (fun c c' => isna c' = true -> isna c = true)
         (values (text [""; "5"]))
         (values (to_numeric_series Sample.parse_numeric (text [""; "5"]))).
Proof.
  split; [reflexivity|]. split; [vm_compute; reflexivity|]. split; [reflexivity|].
  intros H. apply Forall2_cons_1 in H as [H _]. by specialize (H eq_refl).
Qed.

Example numeric_whole_column :
  to_numeric_series Sample.parse_numeric (mkSeries object [Str "1"; NA; Str "-20"])
  = mkSeries numeric [Int 1; NaN; Int (-20)].
Proof. vm_compute. reflexivity. Qed.



Lemma blank_cell_is_present_witness :
  aligned blank_text
  /\ Sample.clean blank_text = inr blank_text_cleaned
  /\ exists d,
       infer_types Sample.datetime_of Sample.parse_numeric
         (applymap clean_cell (normalize_names blank_text)) = inr d
       /\ blank_text_cleaned = prune d.
Proof.
  assert (aligned blank_text) as Hal by (unfold aligned; repeat constructor).
  assert (Sample.clean blank_text = inr blank_text_cleaned) as Hclean
    by (vm_compute; reflexivity).
  split; [exact Hal|]. split; [exact Hclean|].
  destruct (blank_cell_is_present Sample.datetime_of Sample.parse_numeric
              blank_text blank_text_cleaned Hal Hclean) as (d & Hd & Hout & _).
  by exists d.
Defined.

(** C9 fails as stated: beside a numeral, a cell of white space is read
    as [nan] and its row is dropped; and a column of such cells only is
    dropped with the columns whose cells are all missing. *)
Lemma blank_cell_dropped :
  clean_cell (Str " ") = Str ""
  /\ (exists out, Sample.clean blank_number = inr out
                  /\ out = mkFrame [1]%nat [("A", mkSeries numeric [Int 5])]
                  /\ index blank_number = [0; 1]%nat /\ 0%nat ∉ index out)
  /\ (exists out, Sample.clean blank_column = inr out
                  /\ out = mkFrame [0; 1]%nat [("B", text ["x"; "y"])]
                  /\ columns blank_column = ["A"; "B"] /\ "A" ∉ columns out).
Proof.
  split; [reflexivity|]. split; eexists.
  - split; [vm_compute; reflexivity|]. split; [reflexivity|]. split; [reflexivity|].
    cbn. by intros [?|[]%elem_of_nil]%elem_of_cons.
  - split; [vm_compute; reflexivity|]. split; [reflexivity|]. split; [reflexivity|].
    cbn. by intros [?|[]%elem_of_nil]%elem_of_cons.
Qed.

Lemma zero_rows_output_holds :
  aligned (mkFrame [] [("a", text []); ("b", mkSeries numeric [])])
  /\ Sample.clean (mkFrame [] [("a", text []); ("b", mkSeries numeric [])])
     = inr (mkFrame [] []).
Proof. split; [unfold aligned; repeat constructor|vm_compute; reflexivity]. Qed.

(** C10 at a table the code can receive: no row, and two text columns
    whose names become one name.  The first loop asks for the column of
    that name, gets a frame of two columns, and [to_datetime] raises. *)
Theorem header_only_raises :
  aligned header_only /\ index header_only = []
  /\ Sample.clean header_only = inl ValueError.
Proof. split; [unfold aligned; repeat constructor|]. split; [done|]. vm_compute. reflexivity. Qed.

(** ** The further properties at sample inputs *)

Lemma output_within_input_witness :
  Sample.clean scenario = inr scenario_cleaned
  /\ index scenario_cleaned `sublist_of` index scenario
  /\ columns scenario_cleaned
       `sublist_of` (fun n => replace_special (Py.strip n)) <$> columns scenario
  /\ length (index scenario_cleaned) <= length (index scenario)
  /\ length (cols scenario_cleaned) <= length (cols scenario).
Proof.
  split; [vm_compute; reflexivity|].
  apply (output_within_input Sample.datetime_of Sample.parse_numeric).
  vm_compute. reflexivity.
Defined.

Lemma infer_types_columns_witness :
  infer_types Sample.datetime_of Sample.parse_numeric four_of_five = inr four_of_five_dated
  /\ four_of_five_dated
     = mkFrame (index four_of_five)
         ((fun c => if decide (dtype c.2 = object)
                    then (c.1, infer_series Sample.datetime_of Sample.parse_numeric c.2)
                    else c) <$> cols four_of_five)
  /\ Forall2 (fun c c' => c'.1 = c.1 /\ (dtype c.2 <> object -> c' = c))
       (cols four_of_five) (cols four_of_five_dated).
Proof.
  split; [vm_compute; reflexivity|].
  apply (infer_types_columns Sample.datetime_of Sample.parse_numeric
           four_of_five four_of_five_dated).
  vm_compute. reflexivity.
Defined.

Lemma cleaned_text_cells_witness :
  Sample.clean scenario = inr scenario_cleaned /\ cells tidy_text scenario_cleaned.
Proof.
  split; [vm_compute; reflexivity|].
  apply (cleaned_text_cells Sample.datetime_of Sample.parse_numeric scenario).
  vm_compute. reflexivity.
Defined.

Lemma well_typed_scenario : well_typed scenario.
Proof. unfold well_typed, scenario, text. simpl. repeat constructor. Qed.

Lemma output_well_typed_witness :
  aligned scenario /\ well_typed scenario /\ Sample.clean scenario = inr scenario_cleaned
  /\ well_typed scenario_cleaned
  /\ Forall (fun c => Forall (fun v =>
               match dtype c.2 with
               | object => isna v = false
               | numeric => exists x, v = Num x
               | boolean => exists b, v = Bool b
               | datetime64 => exists ns, v = Timestamp ns
               end) (values c.2)) (cols scenario_cleaned).
Proof.
  split; [apply aligned_scenario|]. split; [apply well_typed_scenario|].
  split; [vm_compute; reflexivity|].
  apply (output_well_typed Sample.datetime_of Sample.parse_numeric scenario).
  - apply aligned_scenario.
  - apply well_typed_scenario.
  - vm_compute. reflexivity.
Defined.

Lemma drop_duplicates_first_witness :
  aligned scenario
  /\ (cols scenario = [] -> drop_duplicates scenario = scenario)
  /\ (cols scenario <> [] ->
      rows (drop_duplicates scenario) `sublist_of` rows scenario
      /\ NoDup (map cell_key <$> rows (drop_duplicates scenario))
      /\ (forall r, r ∈ rows scenario ->
            map cell_key r ∈ map cell_key <$> rows (drop_duplicates scenario))
      /\ (forall i r, rows scenario !! i = Some r ->
            (forall j r', j < i -> rows scenario !! j = Some r' ->
                          map cell_key r' <> map cell_key r) ->
            r ∈ rows (drop_duplicates scenario))).
Proof.
  split; [apply aligned_scenario|].
  apply (drop_duplicates_first scenario). apply aligned_scenario.
Defined.

Lemma prune_rows_commute_witness :
  aligned repeated /\ dropna (drop_duplicates repeated) = drop_duplicates (dropna repeated).
Proof.
  assert (aligned repeated) as Hal by (unfold aligned; repeat constructor).
  split; [exact Hal|]. apply (prune_rows_commute repeated Hal).
Defined.

Lemma head_rows_witness :
  aligned scenario
  /\ rows (head scenario) = take 5 (rows scenario)
  /\ columns (head scenario) = columns scenario
  /\ aligned (head scenario)
  /\ (length (index scenario) <= 5 -> head scenario = scenario).
Proof.
  split; [apply aligned_scenario|]. apply (head_rows scenario). apply aligned_scenario.
Defined.

Lemma page_file_outcome_witness :
  extension (Upload.name Upload.people) ∈ ["csv"; "xlsx"; "xls"]
  /\ (if bool_decide (extension (Upload.name Upload.people) = "csv")
      then Upload.read_csv Upload.people else Upload.read_excel Upload.people)
     = inr scenario
  /\ ((exists col, col ∈ select_dtypes_object (normalize_names scenario)
                   /\ length (filter (fun n => n = col) (columns (normalize_names scenario)))
                      <> 1) ->
      Upload.process Upload.people
      = ([StSubheader ("Raw Data Preview - " ++ Upload.name Upload.people);
          StDataframe (head scenario);
          StError ("An error occurred while processing " ++ Upload.name Upload.people ++ ": "
                   ++ Upload.str (Pandas ValueError))], inr ()))
  /\ ((forall col, col ∈ select_dtypes_object (normalize_names scenario) ->
                   length (filter (fun n => n = col) (columns (normalize_names scenario))) = 1) ->
      exists out,
        Sample.clean scenario = inr out
        /\ Upload.process Upload.people
           = ([StSubheader ("Raw Data Preview - " ++ Upload.name Upload.people);
               StDataframe (head scenario);
               StSubheader ("Cleaned Data Preview - " ++ Upload.name Upload.people);
               StDataframe (head out);
               StDownloadButton ("Download Clean CSV for " ++ Upload.name Upload.people)
                 (Upload.to_csv_utf8 out) (new_file_name (Upload.name Upload.people))
                 "text/csv"],
              inr ())).
Proof.
  assert (extension (Upload.name Upload.people) ∈ ["csv"; "xlsx"; "xls"]) as Hext
    by (vm_compute; left).
  split; [exact Hext|]. split; [vm_compute; reflexivity|].
  apply (page_file_outcome Upload.UploadedFile Upload.name Upload.read_csv Upload.read_excel
           Upload.to_csv_utf8 Upload.str Sample.datetime_of Sample.parse_numeric
           Upload.people scenario Hext).
  vm_compute. reflexivity.
Defined.
